(** * PitStop workshop back end: status engines, stock ledger, identifiers

    A shallow embedding of the request handlers and Mongoose hooks of the
    PitStop back end (Express + Mongoose), with the properties the
    specification states about them.

    Conventions of the embedding.
    - A Mongoose collection is a finite map from [_id] (a [nat]) to the
      document; [findById] is map lookup, [save] and [findByIdAndUpdate]
      are map insertion at the same key.
    - A handler is a function from the collection(s), the request and the
      instant [now] that [new Date()] returns, to the collection(s) after
      the request and the outcome.  [next(createCustomError(msg, code))]
      is the outcome [Err (CustomError msg code)]; an exception that
      [asyncWrapper] hands to the error middleware is [Err] of the
      exception: a Mongoose [ValidationError] or [CastError] on a schema
      path, the duplicate-key error of a unique index, a [TypeError] of
      the engine, or a [new Error(msg)] of the handler ([JsError]).  The
      [_id] that some messages interpolate is left out of the message
      text.
    - Dates are milliseconds since the epoch ([Z]); stock counts, prices
      and quantities are integers ([Z]), the range on which the [+], [-],
      [*] and comparisons of JavaScript numbers are exact.  Hours are
      rationals ([Q]), the exact values of the quotients the source forms.
      Where a property depends on it, an amount of a request body is an
      [Amount], a number or a string of digits as the client may send
      it, and the arithmetic is that of JavaScript on the two.
    - A reference stored in a document is an [_id].  [req.user.userId]
      is a [UserId]: the ObjectId that [authenticate] stores there, or
      the text of an id; queries and assignments take either for the id,
      the strict comparison [ref.toString() === userId] tells them apart.
    - A request field that may be absent is an [option]; JavaScript
      truthiness of a string or number is [truthy_str] / [truthy_num].

    The first part holds the embedding, controller by controller, the
    second the properties of the specification, the third further
    properties of the same handlers and of the routes around them: the
    life cycles of leave requests, goods requests, bookings and invoices
    over all their routes, the stock routes, the work log, the login
    lock and the guarded routes, vehicles, and the identifier hooks. *)

From Stdlib Require Import ZArith QArith Lqa String Ascii List Lia Bool OrderedTypeEx.
From stdpp Require Import base decidable option list strings pretty gmap.

Local Open Scope string_scope.
Set Warnings "-register-all".

(** ** Outcomes shared by all handlers *)

Inductive Failure :=
| CustomError (msg : string) (statusCode : nat)
| ValidationError (path : string)
| CastError (path : string)
| DuplicateKey (field : string)
| TypeError (msg : string)
| JsError (msg : string).

Inductive Outcome (A : Type) :=
| Ok (a : A)
| Err (e : Failure).
Arguments Ok {A} a.
Arguments Err {A} e.

Definition is_ok {A} (o : Outcome A) : bool :=
  match o with Ok _ => true | Err _ => false end.

(** Sequencing of steps that may fail: the first failure is the outcome. *)
Definition bind {A B} (o : Outcome A) (f : A -> Outcome B) : Outcome B :=
  match o with
  | Ok a => f a
  | Err e => Err e
  end.

Notation "x <- c ;; k" := (bind c (fun x => k))
  (at level 100, c at next level, right associativity).

(** [!s] for a possibly absent string: absent and the empty string are falsy. *)
Definition truthy_str (s : option string) : bool :=
  match s with
  | Some s => negb (String.eqb s "")
  | None => false
  end.

(** [!n] for a possibly absent number: absent and zero are falsy. *)
Definition truthy_num (n : option Z) : bool :=
  match n with
  | Some n => negb (Z.eqb n 0)
  | None => false
  end.

Definition is_Some_b {A} (o : option A) : bool :=
  match o with Some _ => true | None => false end.

(** [xs.includes(s)] on an array of strings. *)
Definition includes (xs : list string) (s : string) : bool :=
  existsb (String.eqb s) xs.

(** A JavaScript object with string keys, as the ordered list of its own
    properties.  [obj_set] is the assignment [obj[key] = v] (an existing
    key keeps its position and takes the new value), [obj_get] is the
    read [obj[key]], and [object_literal] evaluates an object initialiser
    [{ k1: v1, ..., kn: vn }], whose property definitions are carried out
    from left to right. *)
Fixpoint obj_set {A} (key : string) (v : A) (obj : list (string * A)) : list (string * A) :=
  match obj with
  | [] => [(key, v)]
  | (k, w) :: rest =>
      if String.eqb k key then (k, v) :: rest else (k, w) :: obj_set key v rest
  end.

Fixpoint obj_get {A} (obj : list (string * A)) (key : string) : option A :=
  match obj with
  | [] => None
  | (k, w) :: rest => if String.eqb k key then Some w else obj_get rest key
  end.

Definition object_literal {A} (defs : list (string * A)) : list (string * A) :=
  fold_left (fun obj kv => obj_set (fst kv) (snd kv) obj) defs [].

(** [req.user.userId].  [authenticate] sets it to [user._id], which is an
    ObjectId ([src/backend/middleware/auth.js], line 36); the other value
    a handler can be handed is the string that prints an id.  A query or
    an assignment casts either to the id it denotes. *)
Inductive UserId :=
| ObjectId (n : nat)
| IdString (n : nat).

(** A bare id in the place of a [UserId] is the ObjectId of
    [authenticate]. *)
Coercion ObjectId : nat >-> UserId.
Bind Scope nat_scope with UserId.

Definition id_of (userId : UserId) : nat :=
  match userId with
  | ObjectId n => n
  | IdString n => n
  end.

(** [ref.toString() === userId] for a stored reference [ref]: the left
    side is a string, and strict equality of a string with an object is
    false, so the test holds only for a [userId] that is the string of
    the same id. *)
Definition toString_is (ref : nat) (userId : UserId) : bool :=
  match userId with
  | ObjectId _ => false
  | IdString n => Nat.eqb ref n
  end.

(** ** Numbers of a request body

    [express.json()] hands a handler the values the client wrote: where
    the code expects a number, the body may hold a string.  The strings
    the embedding takes are those of decimal digits.  JavaScript converts
    such a string to the number it spells in a comparison, a subtraction
    or a product with a number, and concatenates in [+]; Mongoose casts
    a string assigned to a Number path with [Number(...)] and refuses
    NaN. *)
Inductive Digit := D0 | D1 | D2 | D3 | D4 | D5 | D6 | D7 | D8 | D9.

Definition digit_value (d : Digit) : Z :=
  match d with
  | D0 => 0 | D1 => 1 | D2 => 2 | D3 => 3 | D4 => 4
  | D5 => 5 | D6 => 6 | D7 => 7 | D8 => 8 | D9 => 9
  end.

Definition digit_char (d : Digit) : ascii :=
  match d with
  | D0 => "0" | D1 => "1" | D2 => "2" | D3 => "3" | D4 => "4"
  | D5 => "5" | D6 => "6" | D7 => "7" | D8 => "8" | D9 => "9"
  end%char.

Inductive Amount :=
| Number (z : Z)
| Digits (d : Digit) (ds : list Digit).

(** [!a] is false: a number other than zero, or a string that is not
    empty. *)
Definition truthy_amount (a : option Amount) : bool :=
  match a with
  | None => false
  | Some (Number z) => negb (Z.eqb z 0)
  | Some (Digits _ _) => true
  end.

(** The number that the digits spell after the number [n]: for [n = 0]
    the value of the digits, for [n > 0] the value of the decimal text of
    [n] followed by the digits. *)
Definition spelled (n : Z) (ds : list Digit) : Z :=
  fold_left (fun n d => (10 * n + digit_value d)%Z) ds n.

(** [Number(a)] *)
Definition ToNumber (a : Amount) : Z :=
  match a with
  | Number z => z
  | Digits d ds => spelled 0 (d :: ds)
  end.

(** [String(a)] *)
Definition ToString (a : Amount) : string :=
  match a with
  | Number z => pretty z
  | Digits d ds => string_of_list_ascii (map digit_char (d :: ds))
  end.

Definition char_digit (c : ascii) : option Z :=
  let n := nat_of_ascii c in
  if ((48 <=? n) && (n <=? 57))%nat then Some (Z.of_nat (n - 48)) else None.

Definition decimal (cs : list ascii) : option Z :=
  fold_left (fun n c => match n, char_digit c with
                        | Some n, Some d => Some (10 * n + d)%Z
                        | _, _ => None
                        end) cs (Some 0%Z).

(** [Number(s)] for a string made of minus signs and decimal digits: the
    integer that an optional minus sign followed by digits spells, zero
    for the empty string, [None] (NaN) otherwise. *)
Definition StringToNumber (s : string) : option Z :=
  match s with
  | String "-" "" => None
  | String "-" rest => option_map Z.opp (decimal (list_ascii_of_string rest))
  | _ => decimal (list_ascii_of_string s)
  end.


(** The value of a local variable that a handler computes from amounts:
    a number, or the string that a [+] has made. *)
Inductive Value :=
| Num (z : Z)
| Str (s : string).

Definition value_of (a : Amount) : Value :=
  match a with
  | Number z => Num z
  | Digits _ _ => Str (ToString a)
  end.

Definition value_text (v : Value) : string :=
  match v with
  | Num z => pretty z
  | Str s => s
  end.

(** [a + b]: the sum of two numbers, the concatenation when a string is
    involved. *)
Definition plus (a b : Value) : Value :=
  match a, b with
  | Num x, Num y => Num (x + y)%Z
  | _, _ => Str (value_text a +:+ value_text b)
  end.

(** [Number(v)], [None] for NaN. *)
Definition value_number (v : Value) : option Z :=
  match v with
  | Num z => Some z
  | Str s => StringToNumber s
  end.

(** [a - b], [None] for NaN. *)
Definition minus (a b : Value) : option Z :=
  match value_number a, value_number b with
  | Some x, Some y => Some (x - y)%Z
  | _, _ => None
  end.


(** JSON values of a response body. *)
Inductive Json :=
| JNull
| JBool (b : bool)
| JNum (n : Z)
| JStr (s : string)
| JArr (items : list Json)
| JObj (props : list (string * Json)).

(** ** Bookings *)

Module Bookings.

Record Note := mkNote {
  note : string;
  createdBy : nat;
  createdAt : Z
}.

Record Booking := mkBooking {
  bookingId : string;
  customer : nat;
  vehicle : nat;
  status : string;
  assignedInspector : option nat;
  completedAt : option Z;
  notes : list Note
}.

Definition set_status (s : string) (b : Booking) : Booking :=
  mkBooking (bookingId b) (customer b) (vehicle b) s
            (assignedInspector b) (completedAt b) (notes b).

Definition set_completedAt (t : option Z) (b : Booking) : Booking :=
  mkBooking (bookingId b) (customer b) (vehicle b) (status b)
            (assignedInspector b) t (notes b).

Definition push_note (n : Note) (b : Booking) : Booking :=
  mkBooking (bookingId b) (customer b) (vehicle b) (status b)
            (assignedInspector b) (completedAt b) (notes b ++ [n]).

Definition validStatuses : list string :=
  ["pending"; "inspecting"; "working"; "completed"; "cancelled"].

(** The request of [PATCH /:id/status]: [req.params.id], the [status] and
    the note of the body (the property [note] for one controller,
    [notes] for the other), and [req.user.userId]. *)
Record StatusRequest := mkStatusRequest {
  req_id : nat;
  req_status : option string;
  req_note : option string;
  req_user : nat
}.

(** *** The workflow controller (the [bookingController.js] that exports
    [getAvailableInspectors]; its text follows the leave-request controller
    in [src/backend/controllers/leaveRequestController.js]). *)
Module Workflow.

Definition allowedTransitions : list (string * list string) :=
  object_literal
    [ ("pending", ["inspecting"; "cancelled"]);
      ("inspecting", ["working"; "cancelled"]);
      ("working", ["completed"; "cancelled"]);
      ("completed", []);
      ("cancelled", []) ].

Definition updateBookingStatus (db : gmap nat Booking) (req : StatusRequest) (now : Z)
  : gmap nat Booking * Outcome Booking :=
  if negb (truthy_str (req_status req)) then
    (db, Err (CustomError "Status is required" 400))
  else
    let status' := default "" (req_status req) in
    if negb (includes validStatuses status') then
      (db, Err (CustomError "Invalid status" 400))
    else
      match db !! req_id req with
      | None => (db, Err (CustomError "No booking with id" 404))
      | Some booking =>
          let currentStatus := status booking in
          match obj_get allowedTransitions currentStatus with
          | None => (db, Err (TypeError "Cannot read properties of undefined (reading 'includes')"))
          | Some allowed =>
              if negb (includes allowed status') then
                (db, Err (CustomError
                            ("Cannot change status from " +:+ currentStatus +:+ " to " +:+ status')
                            400))
              else
                let b1 := set_status status' booking in
                let b2 := if String.eqb status' "completed"
                          then set_completedAt (Some now) b1 else b1 in
                let text := if truthy_str (req_note req)
                            then default "" (req_note req)
                            else "Status updated to " +:+ status' in
                let b3 := push_note (mkNote text (req_user req) now) b2 in
                (<[req_id req := b3]> db, Ok b3)
          end
      end.

End Workflow.

(** *** The booking controller of [src/backend/controllers/bookingController.js]
    (the one that exports [getBookingByBookingId] and [deleteBooking]). *)
Module Controller.

Definition updateBookingStatus (db : gmap nat Booking) (req : StatusRequest) (now : Z)
  : gmap nat Booking * Outcome Booking :=
  if negb (truthy_str (req_status req)) then
    (db, Err (CustomError "Status is required" 400))
  else
    let status' := default "" (req_status req) in
    if negb (includes validStatuses status') then
      (db, Err (CustomError "Invalid status" 400))
    else
      (* findByIdAndUpdate(id, updateData, { new: true, runValidators: true }) *)
      match db !! req_id req with
      | None => (db, Err (CustomError "No booking found with id" 404))
      | Some booking =>
          let b1 := set_status status' booking in
          let b2 := if String.eqb status' "completed"
                    then set_completedAt (Some now) b1 else b1 in
          let b3 := if truthy_str (req_note req)
                    then push_note (mkNote (default "" (req_note req)) (req_user req) now) b2
                    else b2 in
          (<[req_id req := b3]> db, Ok b3)
      end.

(** [cancelBooking] of the same file: it treats completed and cancelled
    as terminal. *)
Definition cancelBooking (db : gmap nat Booking) (id : nat) (reason : option string)
           (user : nat) (now : Z) : gmap nat Booking * Outcome Booking :=
  match db !! id with
  | None => (db, Err (CustomError "No booking found with id" 404))
  | Some booking =>
      if String.eqb (status booking) "completed" then
        (db, Err (CustomError "Cannot cancel a completed booking" 400))
      else if String.eqb (status booking) "cancelled" then
        (db, Err (CustomError "Booking is already cancelled" 400))
      else
        let b1 := set_status "cancelled" booking in
        let b2 := if truthy_str reason
                  then push_note (mkNote ("Booking cancelled: " +:+ default "" reason) user now) b1
                  else b1 in
        (<[id := b2]> db, Ok b2)
  end.

End Controller.

(** The transition relation of the specification. *)
Definition permitted (from to : string) : Prop :=
  (from = "pending" /\ (to = "inspecting" \/ to = "cancelled")) \/
  (from = "inspecting" /\ (to = "working" \/ to = "cancelled")) \/
  (from = "working" /\ (to = "completed" \/ to = "cancelled")).

Definition permittedb (from to : string) : bool :=
  (String.eqb from "pending" && (String.eqb to "inspecting" || String.eqb to "cancelled")) ||
  (String.eqb from "inspecting" && (String.eqb to "working" || String.eqb to "cancelled")) ||
  (String.eqb from "working" && (String.eqb to "completed" || String.eqb to "cancelled")).

End Bookings.

(** ** Inventory: the stock ledger *)

Module Inventory.

Local Open Scope Z_scope.

Record InventoryItem := mkItem {
  itemId : string;
  name : string;
  unitPrice : Z;
  currentStock : Z;
  minimumStock : Z
}.

Definition set_currentStock (n : Z) (i : InventoryItem) : InventoryItem :=
  mkItem (itemId i) (name i) (unitPrice i) n (minimumStock i).

(** [item.save()] after [currentStock] was assigned: Mongoose runs the
    validators of the modified path, here [min: 0] of [currentStock], and
    throws a ValidationError without writing when it fails. *)
Definition save (db : gmap nat InventoryItem) (id : nat) (item : InventoryItem)
  : Outcome (gmap nat InventoryItem) :=
  if currentStock item <? 0 then Err (ValidationError "currentStock")
  else Ok (<[id := item]> db).

(** [findOne({ itemId })]: a document of the collection whose [itemId] is
    the given one ([itemId] carries a unique index). *)
Definition findOne_itemId (db : gmap nat InventoryItem) (iid : string)
  : option (nat * InventoryItem) :=
  List.find (fun kv => String.eqb (itemId (snd kv)) iid) (map_to_list db).

Definition upper_ascii (c : ascii) : ascii :=
  let n := nat_of_ascii c in
  if ((97 <=? n) && (n <=? 122))%nat then ascii_of_nat (n - 32) else c.

(** [s.toUpperCase()] on the ASCII letters. *)
Fixpoint toUpperCase (s : string) : string :=
  match s with
  | EmptyString => EmptyString
  | String c rest => String (upper_ascii c) (toUpperCase rest)
  end.

(** *** [updateStock]: [PATCH /:id/stock] *)

Record StockRequest := mkStockRequest {
  quantity : option Z;
  operation : option string;
  reason : option string
}.

Record StockResponse := mkStockResponse {
  message : string;
  resp_itemId : string;
  resp_name : string;
  resp_currentStock : Z;
  resp_minimumStock : Z;
  resp_isLowStock : bool;
  op_type : string;
  op_quantity : Z;
  op_reason : string;
  op_performedAt : Z
}.

Definition updateStock (db : gmap nat InventoryItem) (id : nat) (body : StockRequest) (now : Z)
  : gmap nat InventoryItem * Outcome StockResponse :=
  if negb (truthy_num (quantity body)) || negb (truthy_str (operation body)) then
    (db, Err (CustomError "Quantity and operation are required" 400))
  else
    let quantity' := default 0 (quantity body) in
    let operation' := default "" (operation body) in
    if negb (includes ["add"; "subtract"] operation') then
      (db, Err (CustomError "Operation must be 'add' or 'subtract'" 400))
    else if quantity' <=? 0 then
      (db, Err (CustomError "Quantity must be positive" 400))
    else
      match db !! id with
      | None => (db, Err (CustomError "No inventory item found with id" 404))
      | Some item =>
          let adjusted :=
            if String.eqb operation' "add" then
              Ok (set_currentStock (currentStock item + quantity') item)
            else if currentStock item <? quantity' then
              Err (CustomError "Insufficient stock for this operation" 400)
            else
              Ok (set_currentStock (currentStock item - quantity') item) in
          match adjusted with
          | Err e => (db, Err e)
          | Ok item' =>
              match save db id item' with
              | Err e => (db, Err e)
              | Ok db' =>
                  (db', Ok (mkStockResponse
                              (if String.eqb operation' "add"
                               then "Stock added successfully"
                               else "Stock removed successfully")
                              (itemId item') (name item')
                              (currentStock item') (minimumStock item')
                              (currentStock item' <=? minimumStock item')
                              operation' quantity'
                              (if truthy_str (reason body)
                               then default "" (reason body)
                               else "Manual stock adjustment")
                              now))
              end
          end
      end.


(** *** [bulkUpdateStock]: [PATCH /bulk-update-stock] *)

(** One element of [req.body.items]. *)
Record StockUpdate := mkStockUpdate {
  su_itemId : option string;
  su_quantity : option Z;
  su_operation : option string;
  su_reason : option string
}.

(** An element of the [results] array. *)
Record ResultEntry := mkResultEntry {
  r_itemId : string;
  r_name : string;
  r_operation : string;
  r_quantity : Z;
  r_newStock : Z;
  r_isLowStock : bool
}.

(** An element of the [errors] array: [{ itemId, error }]. *)
Record ErrorEntry := mkErrorEntry {
  e_itemId : option string;
  e_error : string
}.

(** [error.message] of an exception caught by the [try] of the loop. *)
Definition error_message (e : Failure) : string :=
  match e with
  | CustomError msg _ => msg
  | ValidationError path => "InventoryItem validation failed: " +:+ path
  | CastError path => "Cast failed for path " +:+ path
  | DuplicateKey field => "E11000 duplicate key error: " +:+ field
  | TypeError msg => msg
  | JsError msg => msg
  end.

(** The body of the [for ... of] loop for one [stockUpdate]: the
    collection afterwards and the entry pushed on [results] (left) or on
    [errors] (right). *)
Definition bulk_step (db : gmap nat InventoryItem) (stockUpdate : StockUpdate)
  : gmap nat InventoryItem * (ResultEntry + ErrorEntry) :=
  let itemId' := su_itemId stockUpdate in
  if negb (truthy_str itemId') || negb (truthy_num (su_quantity stockUpdate))
     || negb (truthy_str (su_operation stockUpdate)) then
    (db, inr (mkErrorEntry itemId' "ItemId, quantity, and operation are required"))
  else
    let quantity' := default 0 (su_quantity stockUpdate) in
    let operation' := default "" (su_operation stockUpdate) in
    if negb (includes ["add"; "subtract"] operation') then
      (db, inr (mkErrorEntry itemId' "Operation must be 'add' or 'subtract'"))
    else
      match findOne_itemId db (toUpperCase (default "" itemId')) with
      | None => (db, inr (mkErrorEntry itemId' "Item not found"))
      | Some (id, item) =>
          if String.eqb operation' "subtract" && (currentStock item <? quantity') then
            (db, inr (mkErrorEntry itemId' "Insufficient stock"))
          else
            let item' :=
              if String.eqb operation' "add"
              then set_currentStock (currentStock item + quantity') item
              else set_currentStock (currentStock item - quantity') item in
            match save db id item' with
            | Err e => (db, inr (mkErrorEntry itemId' (error_message e)))
            | Ok db' =>
                (db', inl (mkResultEntry (itemId item') (name item') operation' quantity'
                                         (currentStock item')
                                         (currentStock item' <=? minimumStock item')))
            end
      end.

(** The whole loop, threading the collection and the two arrays.  An
    element of [items] is an object or [null] ([None]).  On [null] the
    destructuring at the head of the [try] throws, and so does the read
    [stockUpdate.itemId] in the [catch]: that second TypeError leaves the
    loop and the handler, the lines before it staying committed. *)
Fixpoint bulk_loop (db : gmap nat InventoryItem) (items : list (option StockUpdate))
         (results : list ResultEntry) (errors : list ErrorEntry)
  : gmap nat InventoryItem * Outcome (list ResultEntry * list ErrorEntry) :=
  match items with
  | [] => (db, Ok (results, errors))
  | None :: _ =>
      (db, Err (TypeError "Cannot read properties of null (reading 'itemId')"))
  | Some stockUpdate :: rest =>
      match bulk_step db stockUpdate with
      | (db', inl r) => bulk_loop db' rest (results ++ [r]) errors
      | (db', inr e) => bulk_loop db' rest results (errors ++ [e])
      end
  end.

Definition result_json (r : ResultEntry) : Json :=
  JObj (object_literal
          [ ("itemId", JStr (r_itemId r));
            ("name", JStr (r_name r));
            ("operation", JStr (r_operation r));
            ("quantity", JNum (r_quantity r));
            ("newStock", JNum (r_newStock r));
            ("isLowStock", JBool (r_isLowStock r)) ]).

(** [{ itemId, error }]; a property whose value is undefined is left out
    of the serialised body. *)
Definition error_json (e : ErrorEntry) : Json :=
  JObj (object_literal
          (match e_itemId e with
           | Some i => [("itemId", JStr i)]
           | None => []
           end ++ [("error", JStr (e_error e))])).

(** The body handed to [res.status(200).json(...)]:
    [{ success: true, message: ..., processed: results.length,
       errors: errors.length, results, errors }]. *)
Definition bulk_response (results : list ResultEntry) (errors : list ErrorEntry)
  : list (string * Json) :=
  object_literal
    [ ("success", JBool true);
      ("message", JStr "Bulk stock update completed");
      ("processed", JNum (Z.of_nat (length results)));
      ("errors", JNum (Z.of_nat (length errors)));
      ("results", JArr (map result_json results));
      ("errors", JArr (map error_json errors)) ].

(** [items] is [None] when the body has no [items] or it is not an array. *)
Definition bulkUpdateStock (db : gmap nat InventoryItem)
           (items : option (list (option StockUpdate)))
  : gmap nat InventoryItem * Outcome (list (string * Json)) :=
  match items with
  | None | Some [] => (db, Err (CustomError "Items array is required" 400))
  | Some items' =>
      match bulk_loop db items' [] [] with
      | (db', Ok (results, errors)) => (db', Ok (bulk_response results errors))
      | (db', Err e) => (db', Err e)
      end
  end.

End Inventory.

(** ** Goods requests *)

Module GoodsRequests.

Local Open Scope Z_scope.

Record EmployeeDetails := mkEmployeeDetails {
  department : option string
}.

Record User := mkUser {
  role : string;
  employeeDetails : option EmployeeDetails
}.

(** A line of [items]: the referenced inventory item and the quantity. *)
Record RequestItem := mkRequestItem {
  item : nat;
  quantity : Z;
  purpose : option string
}.

Record GoodsRequest := mkGoodsRequest {
  requestId : string;
  job : nat;
  requestedBy : nat;
  items : list RequestItem;
  status : string;
  approvedBy : option nat;
  approvedAt : option Z;
  rejectionReason : option string;
  notes : option string
}.

(** Of the jobs the requests refer to, the data base keeps the status:
    it is all that a response reads of a job. *)
Record DB := mkDB {
  users : gmap nat User;
  inventory : gmap nat Inventory.InventoryItem;
  goodsRequests : gmap nat GoodsRequest;
  jobs : gmap nat string
}.

Definition set_goodsRequests (g : gmap nat GoodsRequest) (db : DB) : DB :=
  mkDB (users db) (inventory db) g (jobs db).

(** [req.user]: the authenticated caller. *)
Record Caller := mkCaller {
  userId : UserId;
  caller_role : string
}.

Definition statusEnum : list string := ["pending"; "approved"; "rejected"; "released"].

(** [goodsRequest.save()]: the validators of the paths the handlers
    assign; of these only [status] has one, its [enum]. *)
Definition save (db : DB) (id : nat) (g : GoodsRequest) : Outcome DB :=
  if includes statusEnum (status g)
  then Ok (set_goodsRequests (<[id := g]> (goodsRequests db)) db)
  else Err (ValidationError "status").

(** The check that opens approve, reject and release: admins and managers
    pass; any other caller must be a stored user of the management
    department. *)
Definition authorized (db : DB) (caller : Caller) : bool :=
  if includes ["admin"; "manager"] (caller_role caller) then true
  else
    match users db !! id_of (userId caller) with
    | None => false
    | Some user =>
        match employeeDetails user with
        | None => false
        | Some details =>
            match department details with
            | Some d => String.eqb d "management"
            | None => false
            end
        end
    end.

(** [populate("items.item")]: each line with the inventory document it
    references, [None] (null) when that document is gone. *)
Definition populate_items (db : DB) (g : GoodsRequest)
  : list (RequestItem * option Inventory.InventoryItem) :=
  map (fun ri => (ri, inventory db !! item ri)) (items g).

(** The insufficient-stock error of a line: it names the item and gives
    the available and the requested quantity. *)
Definition insufficient (it : Inventory.InventoryItem) (requestItem : RequestItem) : Failure :=
  CustomError ("Insufficient stock for " +:+ Inventory.name it +:+
               ". Available: " +:+ pretty (Inventory.currentStock it) +:+
               ", Requested: " +:+ pretty (quantity requestItem)) 400.

(** The stock-availability loop of [approveGoodsRequest]: the failure of
    the first line that stops it, if any. *)
Fixpoint check_stock (lines : list (RequestItem * option Inventory.InventoryItem))
  : option Failure :=
  match lines with
  | [] => None
  | (requestItem, None) :: _ =>
      Some (TypeError "Cannot read properties of null (reading 'currentStock')")
  | (requestItem, Some it) :: rest =>
      if Inventory.currentStock it <? quantity requestItem then
        Some (insufficient it requestItem)
      else check_stock rest
  end.

Definition approve (caller : Caller) (now : Z) (g : GoodsRequest) : GoodsRequest :=
  mkGoodsRequest (requestId g) (job g) (requestedBy g) (items g)
                 "approved" (Some (id_of (userId caller))) (Some now)
                 (rejectionReason g) (notes g).

(** [res.json({ ..., goodsRequest })] of a request whose [job] was
    populated.  The Job schema serialises with its virtuals, and its
    virtual [isOverdue] reads [this.createdAt.getTime()] unless
    [this.status] is completed or cancelled.  No handler selects
    [createdAt], and only some select [status]: for a stored job the
    serialisation throws, unless the status was selected and is one of
    the two.  A reference to a job that is not stored is populated with
    [null] and serialises. *)
Definition respond (db : DB) (status_selected : bool) (g : GoodsRequest)
  : Outcome GoodsRequest :=
  match jobs db !! job g with
  | None => Ok g
  | Some job_status =>
      if status_selected && includes ["completed"; "cancelled"] job_status then Ok g
      else Err (TypeError "Cannot read properties of undefined (reading 'getTime')")
  end.

Definition approveGoodsRequest (db : DB) (id : nat) (caller : Caller) (now : Z)
  : DB * Outcome GoodsRequest :=
  if negb (authorized db caller) then
    (db, Err (CustomError
                "Only inventory managers, admins, and managers can approve goods requests" 403))
  else
    match goodsRequests db !! id with
    | None => (db, Err (CustomError "Goods request not found" 404))
    | Some goodsRequest =>
        if negb (String.eqb (status goodsRequest) "pending") then
          (db, Err (CustomError "Goods request has already been processed" 400))
        else
          match check_stock (populate_items db goodsRequest) with
          | Some e => (db, Err e)
          | None =>
              let g' := approve caller now goodsRequest in
              match save db id g' with
              | Err e => (db, Err e)
              | Ok db' => (db', respond db' false g')
              end
          end
    end.

Definition release (g : GoodsRequest) : GoodsRequest :=
  mkGoodsRequest (requestId g) (job g) (requestedBy g) (items g)
                 "released" (approvedBy g) (approvedAt g)
                 (rejectionReason g) (notes g).

Definition releaseGoods (db : DB) (id : nat) (caller : Caller)
  : DB * Outcome GoodsRequest :=
  if negb (authorized db caller) then
    (db, Err (CustomError
                "Only inventory managers, admins, and managers can release goods" 403))
  else
    match goodsRequests db !! id with
    | None => (db, Err (CustomError "Goods request not found" 404))
    | Some goodsRequest =>
        if negb (String.eqb (status goodsRequest) "approved") then
          (db, Err (CustomError "Only approved goods requests can be released" 400))
        else
          (* TODO of the source: the inventory stock is not reduced here *)
          let g' := release goodsRequest in
          match save db id g' with
          | Err e => (db, Err e)
          | Ok db' => (db', Ok g')
          end
    end.

End GoodsRequests.

(** ** Invoices *)

Module Invoices.

Local Open Scope Z_scope.

(** An element of [items], in a request body and in a document.  In a
    body every property may be missing. *)
Record ItemInput := mkItemInput {
  in_description : option string;
  in_quantity : option Z;
  in_unitPrice : option Z;
  in_total : option Z
}.

Record InvoiceItem := mkInvoiceItem {
  description : string;
  quantity : Z;
  unitPrice : Z;
  item_total : Z
}.

Record Invoice := mkInvoice {
  invoiceId : string;
  booking : nat;
  customer : nat;
  items : list InvoiceItem;
  laborCharges : Z;
  subtotal : Z;
  tax : Z;
  discount : Z;
  total : Z;
  status : string;
  paymentMethod : option string;
  paidAt : option Z;
  createdBy : nat;
  notes : option string
}.

Definition statusEnum : list string := ["draft"; "pending"; "paid"; "cancelled"].
Definition paymentMethodEnum : list string := ["cash"; "card"; "bank_transfer"; "online"].

(** *** [updateInvoiceStatus]: [PATCH /:id/status] *)

Record StatusBody := mkStatusBody {
  b_status : option string;
  b_paymentMethod : option string;
  b_paidAt : option Z
}.

Definition set_payment (method : string) (at_ : Z) (i : Invoice) : Invoice :=
  mkInvoice (invoiceId i) (booking i) (customer i) (items i) (laborCharges i)
            (subtotal i) (tax i) (discount i) (total i) (status i)
            (Some method) (Some at_) (createdBy i) (notes i).

Definition set_status (s : string) (i : Invoice) : Invoice :=
  mkInvoice (invoiceId i) (booking i) (customer i) (items i) (laborCharges i)
            (subtotal i) (tax i) (discount i) (total i) s
            (paymentMethod i) (paidAt i) (createdBy i) (notes i).

(** [invoice.save()] in [updateInvoiceStatus]: the enum validators of the
    assigned paths [status] and [paymentMethod]. *)
Definition save (db : gmap nat Invoice) (id : nat) (i : Invoice) : Outcome (gmap nat Invoice) :=
  if negb (includes statusEnum (status i)) then Err (ValidationError "status")
  else
    match paymentMethod i with
    | Some m =>
        if includes paymentMethodEnum m then Ok (<[id := i]> db)
        else Err (ValidationError "paymentMethod")
    | None => Ok (<[id := i]> db)
    end.

Definition updateInvoiceStatus (db : gmap nat Invoice) (id : nat) (body : StatusBody) (now : Z)
  : gmap nat Invoice * Outcome Invoice :=
  let status' := default "" (b_status body) in
  if negb (truthy_str (b_status body)) || negb (includes statusEnum status') then
    (db, Err (CustomError
                "Please provide a valid status (draft, pending, paid, cancelled)" 400))
  else
    match db !! id with
    | None => (db, Err (CustomError "No invoice found with id" 404))
    | Some invoice =>
        if String.eqb (status invoice) "paid" && negb (String.eqb status' "paid") then
          (db, Err (CustomError "Cannot change status of a paid invoice" 400))
        else if String.eqb (status invoice) "cancelled"
                && negb (String.eqb status' "cancelled") then
          (db, Err (CustomError "Cannot change status of a cancelled invoice" 400))
        else
          let paid :=
            if String.eqb status' "paid" then
              if negb (truthy_str (b_paymentMethod body)) then
                Err (CustomError
                       "Payment method is required when marking invoice as paid" 400)
              else
                Ok (set_payment (default "" (b_paymentMethod body))
                                (default now (b_paidAt body)) invoice)
            else Ok invoice in
          match paid with
          | Err e => (db, Err e)
          | Ok i1 =>
              let i2 := set_status status' i1 in
              match save db id i2 with
              | Err e => (db, Err e)
              | Ok db' => (db', Ok i2)
              end
          end
    end.

(** *** [updateInvoice]: [PATCH /:id]

    The body is a JSON object, a finite map from property names to
    values.  Values are numbers, strings and arrays of item objects; a
    value whose JSON type is not the one of its schema path is a cast
    failure of the update. *)
Inductive Value :=
| VNum (n : Z)
| VStr (s : string)
| VItems (l : list ItemInput).

Definition allowedFields : list string := ["paymentMethod"; "paidAt"; "notes"].

(** The four [delete updateData.<field>] statements ("prevent updating
    certain fields"). *)
Definition strip_protected (updateData : gmap string Value) : gmap string Value :=
  delete "createdBy" (delete "customer" (delete "booking" (delete "invoiceId" updateData))).

Definition set_notes (n : option string) (i : Invoice) : Invoice :=
  mkInvoice (invoiceId i) (booking i) (customer i) (items i) (laborCharges i)
            (subtotal i) (tax i) (discount i) (total i) (status i)
            (paymentMethod i) (paidAt i) (createdBy i) n.

(** [Object.keys(updateData).filter(field => !allowedFields.includes(field))] *)
Definition invalidFields (updateData : gmap string Value) : list string :=
  List.filter (fun field => negb (includes allowedFields field))
              (map fst (map_to_list updateData)).

(** The callback of [updateData.items.map]: [None] when it throws. *)
Definition process_item (it : ItemInput) : option ItemInput :=
  if negb (truthy_str (in_description it)) || negb (truthy_num (in_quantity it))
     || negb (truthy_num (in_unitPrice it)) then None
  else
    let itemTotal := default 0 (in_quantity it) * default 0 (in_unitPrice it) in
    Some (mkItemInput (in_description it) (in_quantity it) (in_unitPrice it) (Some itemTotal)).

(** The [map] over the items with the running [subtotal]. *)
Fixpoint process_items (l : list ItemInput) (subtotal : Z) : option (list ItemInput * Z) :=
  match l with
  | [] => Some ([], subtotal)
  | it :: rest =>
      match process_item it with
      | None => None
      | Some it' =>
          match process_items rest (subtotal + default 0 (in_total it')) with
          | None => None
          | Some (rest', s) => Some (it' :: rest', s)
          end
      end
  end.

(** A numeric property of [updateData]: absent, a number, or a value of
    another type. *)
Definition num_prop (updateData : gmap string Value) (key : string) : Outcome (option Z) :=
  match updateData !! key with
  | None => Ok None
  | Some (VNum n) => Ok (Some n)
  | Some _ => Err (CastError key)
  end.

(** The block [if (updateData.items) { ... }]: the update with the
    recomputed items, subtotal and total, or the failure that leaves it. *)
Definition recalculate (invoice : Invoice) (updateData : gmap string Value)
  : Outcome (gmap string Value) :=
  match updateData !! "items" with
  | None => Ok updateData
  | Some (VNum n) =>
      if n =? 0 then Ok updateData
      else Err (TypeError "updateData.items.map is not a function")
  | Some (VStr s) =>
      if String.eqb s "" then Ok updateData
      else Err (TypeError "updateData.items.map is not a function")
  | Some (VItems l) =>
      match process_items l 0 with
      | None => Err (JsError "Each item must have description, quantity, and unit price")
      | Some (processedItems, subtotal0) =>
          labor <- num_prop updateData "laborCharges" ;;
          tax' <- num_prop updateData "tax" ;;
          discount' <- num_prop updateData "discount" ;;
          let subtotal' :=
            subtotal0 + (if truthy_num labor then default 0 labor
                         else laborCharges invoice) in
          let taxAmount := default (tax invoice) tax' in
          let discountAmount := default (discount invoice) discount' in
          let total' := subtotal' + taxAmount - discountAmount in
          if total' <? 0 then
            Err (CustomError "Total amount cannot be negative" 400)
          else
            Ok (<["total" := VNum total']>
                  (<["subtotal" := VNum subtotal']>
                     (<["items" := VItems processedItems]> updateData)))
      end
  end.

(** Casting and validating one element of [items] for the update. *)
Definition cast_item (it : ItemInput) : Outcome InvoiceItem :=
  match in_description it, in_quantity it, in_unitPrice it, in_total it with
  | Some d, Some q, Some u, Some t =>
      if (q <? 0) || (u <? 0) || (t <? 0) then Err (ValidationError "items")
      else Ok (mkInvoiceItem d q u t)
  | _, _, _, _ => Err (ValidationError "items")
  end.

Fixpoint cast_items (l : list ItemInput) : Outcome (list InvoiceItem) :=
  match l with
  | [] => Ok []
  | it :: rest =>
      match cast_item it, cast_items rest with
      | Ok i, Ok r => Ok (i :: r)
      | Err e, _ | _, Err e => Err e
      end
  end.

(** A non-negative numeric path ([min: 0]) of the update. *)
Definition apply_num (updateData : gmap string Value) (key : string) (current : Z)
  : Outcome Z :=
  match updateData !! key with
  | None => Ok current
  | Some (VNum n) => if n <? 0 then Err (ValidationError key) else Ok n
  | Some _ => Err (CastError key)
  end.

(** A string path of the update, with its [enum] if it has one. *)
Definition apply_str (updateData : gmap string Value) (key : string)
           (enum : option (list string)) (current : option string)
  : Outcome (option string) :=
  match updateData !! key with
  | None => Ok current
  | Some (VStr s) =>
      match enum with
      | Some values => if includes values s then Ok (Some s) else Err (ValidationError key)
      | None => Ok (Some s)
      end
  | Some _ => Err (CastError key)
  end.

Definition apply_date (updateData : gmap string Value) (key : string) (current : option Z)
  : Outcome (option Z) :=
  match updateData !! key with
  | None => Ok current
  | Some (VNum n) => Ok (Some n)
  | Some _ => Err (CastError key)
  end.

Definition apply_items (updateData : gmap string Value) (current : list InvoiceItem)
  : Outcome (list InvoiceItem) :=
  match updateData !! "items" with
  | None => Ok current
  | Some (VItems l) => cast_items l
  | Some _ => Err (CastError "items")
  end.

(** The document that [findByIdAndUpdate(id, updateData, { new: true,
    runValidators: true })] writes: every schema path named in
    [updateData] is cast, validated and set; the other properties of
    [updateData] are no schema paths and are dropped. *)
Definition apply_update (invoice : Invoice) (updateData : gmap string Value)
  : Outcome Invoice :=
  items' <- apply_items updateData (items invoice) ;;
  labor' <- apply_num updateData "laborCharges" (laborCharges invoice) ;;
  subtotal' <- apply_num updateData "subtotal" (subtotal invoice) ;;
  tax' <- apply_num updateData "tax" (tax invoice) ;;
  discount' <- apply_num updateData "discount" (discount invoice) ;;
  total' <- apply_num updateData "total" (total invoice) ;;
  status' <- apply_str updateData "status" (Some statusEnum) (Some (status invoice)) ;;
  method' <- apply_str updateData "paymentMethod" (Some paymentMethodEnum)
                       (paymentMethod invoice) ;;
  paidAt' <- apply_date updateData "paidAt" (paidAt invoice) ;;
  notes' <- apply_str updateData "notes" None (notes invoice) ;;
  Ok (mkInvoice (invoiceId invoice) (booking invoice) (customer invoice)
                items' labor' subtotal' tax' discount' total'
                (default (status invoice) status') method' paidAt'
                (createdBy invoice) notes').

Definition updateInvoice (db : gmap nat Invoice) (id : nat) (body : gmap string Value)
  : gmap nat Invoice * Outcome Invoice :=
  match db !! id with
  | None => (db, Err (CustomError "No invoice found with id" 404))
  | Some invoice =>
      let updateData := strip_protected body in
      if String.eqb (status invoice) "paid"
         && (0 <? Z.of_nat (length (invalidFields updateData))) then
        (db, Err (CustomError
                    "Cannot modify paid invoice except payment method, paid date, and notes"
                    400))
      else
        match recalculate invoice updateData with
        | Err e => (db, Err e)
        | Ok updateData' =>
            match apply_update invoice updateData' with
            | Err e => (db, Err e)
            | Ok updatedInvoice => (<[id := updatedInvoice]> db, Ok updatedInvoice)
            end
        end
  end.

End Invoices.

(** ** Jobs *)

Module Jobs.

Local Open Scope Z_scope.

Record Assignment := mkAssignment {
  labourer : nat;
  assignedAt : Z;
  hoursWorked : Q
}.

Record WorkLogEntry := mkWorkLogEntry {
  wl_labourer : nat;
  startTime : Z;
  endTime : Z;
  wl_description : option string;
  hoursLogged : option Q
}.

(** The job document of the model the controller imports (the default
    export [Job], with [assignedLabourers[].labourer] and [workLog]). *)
Record Job := mkJob {
  jobId : string;
  booking : nat;
  status : string;
  actualHours : Q;
  assignedLabourers : list Assignment;
  labourCost : Q;
  workLog : list WorkLogEntry;
  startedAt : option Z;
  completedAt : option Z;
  notes : option string
}.

Definition set_status (s : string) (j : Job) : Job :=
  mkJob (jobId j) (booking j) s (actualHours j) (assignedLabourers j) (labourCost j)
        (workLog j) (startedAt j) (completedAt j) (notes j).

Definition set_notes (n : option string) (j : Job) : Job :=
  mkJob (jobId j) (booking j) (status j) (actualHours j) (assignedLabourers j) (labourCost j)
        (workLog j) (startedAt j) (completedAt j) n.

Definition set_startedAt (t : option Z) (j : Job) : Job :=
  mkJob (jobId j) (booking j) (status j) (actualHours j) (assignedLabourers j) (labourCost j)
        (workLog j) t (completedAt j) (notes j).

Definition set_completedAt (t : option Z) (j : Job) : Job :=
  mkJob (jobId j) (booking j) (status j) (actualHours j) (assignedLabourers j) (labourCost j)
        (workLog j) (startedAt j) t (notes j).

Definition set_actualHours (h : Q) (j : Job) : Job :=
  mkJob (jobId j) (booking j) (status j) h (assignedLabourers j) (labourCost j)
        (workLog j) (startedAt j) (completedAt j) (notes j).

Definition set_labourCost (c : Q) (j : Job) : Job :=
  mkJob (jobId j) (booking j) (status j) (actualHours j) (assignedLabourers j) c
        (workLog j) (startedAt j) (completedAt j) (notes j).

Definition statusEnum : list string :=
  ["pending"; "working"; "completed"; "cancelled"; "on_hold"].

(** [log.hoursLogged || 0] *)
Definition logged (log : WorkLogEntry) : Q :=
  match hoursLogged log with
  | Some h => if Qeq_bool h 0 then 0%Q else h
  | None => 0%Q
  end.

(** [workLog.reduce((total, log) => total + (log.hoursLogged || 0), 0)] *)
Definition sum_hours (workLog : list WorkLogEntry) : Q :=
  fold_left (fun total log => (total + logged log)%Q) workLog 0%Q.

(** The [pre("save")] hook of the job schema on a stored (not new)
    document, block by block; [status_modified] is
    [this.isModified('status')]. *)

(** "Auto-update status timestamps" *)
Definition stampTimestamps (status_modified : bool) (now : Z) (j : Job) : Job :=
  if status_modified then
    if String.eqb (status j) "working" && negb (is_Some_b (startedAt j)) then
      set_startedAt (Some now) j
    else if String.eqb (status j) "completed" && negb (is_Some_b (completedAt j)) then
      set_completedAt (Some now) j
    else j
  else j.

(** "Calculate actual hours from work log" *)
Definition computeActualHours (j : Job) : Job :=
  match workLog j with
  | [] => j
  | _ :: _ => set_actualHours (sum_hours (workLog j)) j
  end.

(** "Calculate labour cost based on actual hours and assigned labourers" *)
Definition computeLabourCost (j : Job) : Job :=
  if negb (Qle_bool (actualHours j) 0) && (0 <? Z.of_nat (length (assignedLabourers j))) then
    set_labourCost (actualHours j * 50)%Q j
  else j.

Definition preSave (status_modified : bool) (now : Z) (j : Job) : Job :=
  computeLabourCost (computeActualHours (stampTimestamps status_modified now j)).

(** [job.save()] of a document loaded with status [stored]: the enum
    validator of [status] runs first, then the hook, then the write. *)
Definition save (db : gmap nat Job) (id : nat) (stored : string) (now : Z) (j : Job)
  : Outcome (gmap nat Job * Job) :=
  if negb (includes statusEnum (status j)) then Err (ValidationError "status")
  else
    let j' := preSave (negb (String.eqb stored (status j))) now j in
    Ok (<[id := j']> db, j').

(** The body of [PATCH /:id/status]; the embedding takes bodies that carry
    a [status] string. *)
Record StatusBody := mkStatusBody {
  b_status : string;
  b_notes : option string
}.

Record Caller := mkCaller {
  userId : UserId;
  role : string
}.

Definition allowedTransitions : list (string * list string) :=
  object_literal
    [ ("pending", ["working"]);
      ("working", ["completed"; "on_hold"]);
      ("on_hold", ["working"]) ].

(** The transitions a technician may request, as the specification
    lists them. *)
Definition technician_may (from to : string) : Prop :=
  (from = "pending" /\ to = "working") \/
  (from = "working" /\ (to = "completed" \/ to = "on_hold")) \/
  (from = "on_hold" /\ to = "working").

(** [allowedTransitions[job.status]?.includes(status)] *)
Definition transition_allowed (from to : string) : bool :=
  match obj_get allowedTransitions from with
  | Some allowed => includes allowed to
  | None => false
  end.

(** [job.assignedLabourers.some(assignment =>
      assignment.labourer.toString() === userId)] *)
Definition isAssigned (j : Job) (userId : UserId) : bool :=
  existsb (fun assignment => toString_is (labourer assignment) userId)
          (assignedLabourers j).

Definition updateJobStatus (db : gmap nat Job) (id : nat) (body : StatusBody)
           (caller : Caller) (now : Z) : gmap nat Job * Outcome Job :=
  match db !! id with
  | None => (db, Err (CustomError "Job not found" 404))
  | Some job =>
      let denied :=
        if String.eqb (role caller) "technician" then
          if negb (isAssigned job (userId caller)) then
            Some (CustomError "Access denied. Job not assigned to you" 403)
          else if negb (transition_allowed (status job) (b_status body)) then
            Some (CustomError
                    ("Invalid status transition from " +:+ status job +:+ " to "
                     +:+ b_status body) 400)
          else None
        else None in
      match denied with
      | Some e => (db, Err e)
      | None =>
          let j1 := set_status (b_status body) job in
          let j2 := if truthy_str (b_notes body) then set_notes (b_notes body) j1 else j1 in
          match save db id (status job) now j2 with
          | Err e => (db, Err e)
          | Ok (db', j') => (db', Ok j')
          end
      end
  end.

(** The document that an accepted status update writes: the status and
    the notes assigned, then the hook. *)
Definition saved (job : Job) (body : StatusBody) (now : Z) : Job :=
  preSave (negb (String.eqb (status job) (b_status body))) now
          (if truthy_str (b_notes body)
           then set_notes (b_notes body) (set_status (b_status body) job)
           else set_status (b_status body) job).

End Jobs.

(** ** Identifier generation (the [pre("save")] hooks of the models) *)

Module Identifiers.

Definition is_digit (c : ascii) : bool :=
  let n := nat_of_ascii c in ((48 <=? n) && (n <=? 57))%nat.

Fixpoint takeWhile {A} (p : A -> bool) (l : list A) : list A :=
  match l with
  | [] => []
  | x :: rest => if p x then x :: takeWhile p rest else []
  end.

(** The capture of [id.match(/(\d+)$/)]: the longest run of digits that
    ends the string, [None] (no match) when the string does not end in a
    digit. *)
Definition trailing_digits (id : string) : option (list ascii) :=
  match rev (takeWhile is_digit (rev (list_ascii_of_string id))) with
  | [] => None
  | ds => Some ds
  end.

(** [parseInt] of a string of decimal digits. *)
Definition parseInt (ds : list ascii) : N :=
  fold_left (fun acc c => (10 * acc + N.of_nat (nat_of_ascii c - 48))%N) ds 0%N.

(** [s.padStart(len, fill)] for a one-character [fill]. *)
Definition padStart (len : nat) (fill : ascii) (s : string) : string :=
  string_of_list_ascii (repeat fill (len - String.length s)) +:+ s.

(** [.sort({ id: -1 })] followed by [findOne]: the greatest string in the
    order of the code units. *)
Definition maximum (ids : list string) : option string :=
  fold_left (fun acc id =>
               match acc with
               | None => Some id
               | Some m => if String.ltb m id then Some id else Some m
               end) ids None.

(** [findOne({ id: new RegExp("^" + prefix) }).sort({ id: -1 })] over the
    identifiers present in the collection. *)
Definition findLast (prefix : string) (ids : list string) : option string :=
  maximum (List.filter (String.prefix prefix) ids).

Definition nextNumber (last : option string) : N :=
  match last with
  | Some id =>
      if String.eqb id "" then 1%N
      else
        match trailing_digits id with
        | Some ds => (parseInt ds + 1)%N
        | None => 1%N
        end
  | None => 1%N
  end.

(** The identifier a new document takes: [prefix] followed by
    [nextNumber.toString().padStart(5, "0")]. *)
Definition nextId (prefix : string) (ids : list string) : string :=
  prefix +:+ padStart 5 "0"%char (pretty (nextNumber (findLast prefix ids))).

Definition generateItemId : list string -> string := nextId "ITM".
Definition generateInvoiceId : list string -> string := nextId "INV".
Definition generateBookingId : list string -> string := nextId "BK".
Definition generateJobId : list string -> string := nextId "JOB".
Definition generateGoodsRequestId : list string -> string := nextId "GR".
Definition generateLeaveRequestId : list string -> string := nextId "LR".
Definition generateVehicleId : list string -> string := nextId "VEH".

Definition rolePrefix : list (string * string) :=
  object_literal
    [ ("customer", "C");
      ("technician", "T");
      ("service_advisor", "SA");
      ("manager", "M");
      ("admin", "A");
      ("cashier", "CS") ].

(** The user hook: the prefix is chosen by the role of the new user. *)
Definition generateUserId (userIds : list string) (role : string) : Outcome string :=
  match obj_get rolePrefix role with
  | None => Err (JsError "Invalid role for userId generation")
  | Some prefix => Ok (nextId prefix userIds)
  end.

(** An identifier of an entity type: the type's prefix followed by
    digits only, as the generators write them. *)
Definition of_entity (prefix id : string) : bool :=
  String.prefix prefix id
  && match trailing_digits id with
     | Some ds => (length ds + String.length prefix =? String.length id)%nat
     | None => false
     end.

End Identifiers.

(** ** Leave requests *)

Module Leave.

Local Open Scope Z_scope.

Record User := mkUser {
  role : string
}.

Record LeaveRequest := mkLeaveRequest {
  requestId : string;
  employee : nat;
  leaveType : string;
  startDate : Z;
  endDate : Z;
  reason : string;
  status : string;
  approvedBy : option nat;
  approvedAt : option Z;
  rejectionReason : option string;
  totalDays : Z
}.

Record DB := mkDB {
  users : gmap nat User;
  leaveRequests : gmap nat LeaveRequest
}.

Definition set_leaveRequests (l : gmap nat LeaveRequest) (db : DB) : DB :=
  mkDB (users db) l.

Definition leaveTypeEnum : list string :=
  ["annual"; "sick"; "emergency"; "maternity"; "paternity"; "unpaid"].

Definition is_space (c : ascii) : bool :=
  let n := nat_of_ascii c in ((n =? 32) || ((9 <=? n) && (n <=? 13)))%nat.

Fixpoint dropWhile {A} (p : A -> bool) (l : list A) : list A :=
  match l with
  | [] => []
  | x :: rest => if p x then dropWhile p rest else l
  end.

(** The [trim: true] setter of [reason] (ASCII white space). *)
Definition trim (s : string) : string :=
  string_of_list_ascii
    (rev (dropWhile is_space (rev (dropWhile is_space (list_ascii_of_string s))))).

(** The validators of [leaveType] and [reason]. *)
Definition validate_leaveType (t : string) : Outcome string :=
  if includes leaveTypeEnum t then Ok t else Err (ValidationError "leaveType").

Definition validate_reason (r : string) : Outcome string :=
  let r' := trim r in
  if String.eqb r' "" then Err (ValidationError "reason")
  else if (500 <? String.length r')%nat then Err (ValidationError "reason")
  else Ok r'.

(** [Math.ceil(timeDiff / (1000 * 3600 * 24)) + 1] *)
Definition computeTotalDays (start end_ : Z) : Z :=
  - ((- (end_ - start)) / (1000 * 3600 * 24)) + 1.

Definition set_totalDays (r : LeaveRequest) : LeaveRequest :=
  mkLeaveRequest (requestId r) (employee r) (leaveType r) (startDate r) (endDate r)
                 (reason r) (status r) (approvedBy r) (approvedAt r) (rejectionReason r)
                 (computeTotalDays (startDate r) (endDate r)).

(** [LeaveRequest.findOne] with the overlap filter: is there a request of
    the employee, other than [exclude], that is pending or approved, with
    [startDate <= end] and [endDate >= start]? *)
Definition overlappingLeave (db : DB) (exclude : option nat) (employeeId : nat)
           (start end_ : Z) : bool :=
  existsb (fun kv =>
             match exclude with
             | Some id => negb (Nat.eqb (fst kv) id)
             | None => true
             end
             && Nat.eqb (employee (snd kv)) employeeId
             && includes ["pending"; "approved"] (status (snd kv))
             && (startDate (snd kv) <=? end_)
             && (endDate (snd kv) >=? start))
          (map_to_list (leaveRequests db)).

Record LeaveBody := mkLeaveBody {
  b_leaveType : option string;
  b_startDate : option Z;
  b_endDate : option Z;
  b_reason : option string
}.

(** [LeaveRequest.create({...})]: validation, the [pre("save")] hook
    (identifier and total days) and the insert under a fresh [_id]; the
    unique index on [requestId] refuses a duplicate. *)
Definition create (db : DB) (employeeId : nat) (leaveType' : string) (start end_ : Z)
           (reason' : string) : Outcome (DB * LeaveRequest) :=
  match validate_leaveType leaveType', validate_reason reason' with
  | Ok t, Ok r =>
      let ids := map (fun kv => requestId (snd kv)) (map_to_list (leaveRequests db)) in
      let newId := Identifiers.generateLeaveRequestId ids in
      if includes ids newId then Err (DuplicateKey "requestId")
      else
        let doc := set_totalDays
                     (mkLeaveRequest newId employeeId t start end_ r "pending"
                                     None None None 0) in
        Ok (set_leaveRequests
              (<[fresh (dom (leaveRequests db)) := doc]> (leaveRequests db)) db, doc)
  | Err e, _ | _, Err e => Err e
  end.

(** What [createLeaveRequest] hands to [LeaveRequest.create] once its
    checks have passed. *)
Record Checked := mkChecked {
  c_employee : nat;
  c_leaveType : string;
  c_start : Z;
  c_end : Z;
  c_reason : string
}.

(** The handler up to and including the overlap query: every line before
    [await LeaveRequest.create]. *)
Definition create_checks (db : DB) (userId : UserId) (body : LeaveBody) (now : Z)
  : Outcome Checked :=
  match b_startDate body, b_endDate body with
  | Some start, Some end_ =>
      if negb (truthy_str (b_leaveType body)) || negb (truthy_str (b_reason body)) then
        Err (CustomError "All fields are required" 400)
      else if start <? now then
        Err (CustomError "Start date cannot be in the past" 400)
      else if end_ <? start then
        Err (CustomError "End date cannot be before start date" 400)
      else
        match users db !! id_of userId with
        | None => Err (CustomError "Employee not found" 404)
        | Some employee' =>
            if negb (includes ["technician"; "service_advisor"; "manager"; "admin"; "cashier"]
                              (role employee')) then
              Err (CustomError "Only employees can submit leave requests" 400)
            else if overlappingLeave db None (id_of userId) start end_ then
              Err (CustomError "You already have a leave request for overlapping dates" 400)
            else
              Ok (mkChecked (id_of userId) (default "" (b_leaveType body)) start end_
                            (default "" (b_reason body)))
        end
  | _, _ => Err (CustomError "All fields are required" 400)
  end.

(** [await LeaveRequest.create({...})] and the response. *)
Definition create_insert (db : DB) (c : Checked) : DB * Outcome LeaveRequest :=
  match create db (c_employee c) (c_leaveType c) (c_start c) (c_end c) (c_reason c) with
  | Err e => (db, Err e)
  | Ok (db', doc) => (db', Ok doc)
  end.

(** The handler served without another request in between. *)
Definition createLeaveRequest (db : DB) (userId : UserId) (body : LeaveBody) (now : Z)
  : DB * Outcome LeaveRequest :=
  match create_checks db userId body now with
  | Err e => (db, Err e)
  | Ok c => create_insert db c
  end.

(** The fields [findByIdAndUpdate] sets from [updateData]. *)
Definition apply_update (r : LeaveRequest) (body : LeaveBody) : Outcome LeaveRequest :=
  let leaveType' :=
    if truthy_str (b_leaveType body) then validate_leaveType (default "" (b_leaveType body))
    else Ok (leaveType r) in
  let reason' :=
    if truthy_str (b_reason body) then validate_reason (default "" (b_reason body))
    else Ok (reason r) in
  match leaveType', reason' with
  | Ok t, Ok rs =>
      Ok (mkLeaveRequest (requestId r) (employee r) t
                         (default (startDate r) (b_startDate body))
                         (default (endDate r) (b_endDate body))
                         rs (status r) (approvedBy r) (approvedAt r) (rejectionReason r)
                         (totalDays r))
  | Err e, _ | _, Err e => Err e
  end.

(** [leaveRequest.employee.toString() !== userId] refuses the caller. *)
Definition updateLeaveRequest (db : DB) (id : nat) (userId : UserId) (body : LeaveBody)
           (now : Z) : DB * Outcome LeaveRequest :=
  match leaveRequests db !! id with
  | None => (db, Err (CustomError "Leave request not found" 404))
  | Some leaveRequest =>
      if negb (toString_is (employee leaveRequest) userId) then
        (db, Err (CustomError "You can only update your own leave requests" 403))
      else if negb (String.eqb (status leaveRequest) "pending") then
        (db, Err (CustomError "Cannot update leave request that has been processed" 400))
      else
        let dates_checked :=
          if is_Some_b (b_startDate body) || is_Some_b (b_endDate body) then
            let start := default (startDate leaveRequest) (b_startDate body) in
            let end_ := default (endDate leaveRequest) (b_endDate body) in
            if start <? now then
              Some (CustomError "Start date cannot be in the past" 400)
            else if end_ <? start then
              Some (CustomError "End date cannot be before start date" 400)
            else if overlappingLeave db (Some id) (id_of userId) start end_ then
              Some (CustomError "You already have a leave request for overlapping dates" 400)
            else None
          else None in
        match dates_checked with
        | Some e => (db, Err e)
        | None =>
            match apply_update leaveRequest body with
            | Err e => (db, Err e)
            | Ok updated =>
                (set_leaveRequests (<[id := updated]> (leaveRequests db)) db, Ok updated)
            end
        end
  end.

Definition decide_request (s : string) (by_ : nat) (now : Z) (why : option string)
           (r : LeaveRequest) : LeaveRequest :=
  set_totalDays
    (mkLeaveRequest (requestId r) (employee r) (leaveType r) (startDate r) (endDate r)
                    (reason r) s (Some by_) (Some now)
                    (match why with Some w => Some w | None => rejectionReason r end)
                    (totalDays r)).

Definition approveLeaveRequest (db : DB) (id : nat) (userId : UserId) (now : Z)
  : DB * Outcome LeaveRequest :=
  match leaveRequests db !! id with
  | None => (db, Err (CustomError "Leave request not found" 404))
  | Some leaveRequest =>
      if negb (String.eqb (status leaveRequest) "pending") then
        (db, Err (CustomError "Leave request has already been processed" 400))
      else
        let r := decide_request "approved" (id_of userId) now None leaveRequest in
        (set_leaveRequests (<[id := r]> (leaveRequests db)) db, Ok r)
  end.

Definition rejectLeaveRequest (db : DB) (id : nat) (userId : UserId)
           (rejectionReason' : option string) (now : Z) : DB * Outcome LeaveRequest :=
  if negb (truthy_str rejectionReason') then
    (db, Err (CustomError "Rejection reason is required" 400))
  else
    match leaveRequests db !! id with
    | None => (db, Err (CustomError "Leave request not found" 404))
    | Some leaveRequest =>
        if negb (String.eqb (status leaveRequest) "pending") then
          (db, Err (CustomError "Leave request has already been processed" 400))
        else
          let r := decide_request "rejected" (id_of userId) now rejectionReason'
                                  leaveRequest in
          (set_leaveRequests (<[id := r]> (leaveRequests db)) db, Ok r)
    end.

Definition deleteLeaveRequest (db : DB) (id : nat) (userId : UserId) : DB * Outcome unit :=
  match leaveRequests db !! id with
  | None => (db, Err (CustomError "Leave request not found" 404))
  | Some leaveRequest =>
      if negb (toString_is (employee leaveRequest) userId) then
        (db, Err (CustomError "You can only delete your own leave requests" 403))
      else if negb (String.eqb (status leaveRequest) "pending") then
        (db, Err (CustomError "Cannot delete leave request that has been processed" 400))
      else
        (set_leaveRequests (delete id (leaveRequests db)) db, Ok tt)
  end.

(** *** The property of the specification *)

(** A request counts while it is pending or approved. *)
Definition active (r : LeaveRequest) : Prop :=
  status r = "pending" \/ status r = "approved".

(** Two date ranges overlap when some instant lies in both. *)
Definition ranges_overlap (s1 e1 s2 e2 : Z) : Prop :=
  exists t, (s1 <= t <= e1) /\ (s2 <= t <= e2).

Definition no_overlap (db : DB) : Prop :=
  forall i j r1 r2,
    i <> j ->
    leaveRequests db !! i = Some r1 ->
    leaveRequests db !! j = Some r2 ->
    employee r1 = employee r2 ->
    active r1 -> active r2 ->
    ~ ranges_overlap (startDate r1) (endDate r1) (startDate r2) (endDate r2).

(** One request served by the leave-request routes, from its first line
    to its response with no other request in between. *)
Inductive step : DB -> DB -> Prop :=
| step_create db userId body now :
    step db (fst (createLeaveRequest db userId body now))
| step_update db id userId body now :
    step db (fst (updateLeaveRequest db id userId body now))
| step_approve db id userId now :
    step db (fst (approveLeaveRequest db id userId now))
| step_reject db id userId why now :
    step db (fst (rejectLeaveRequest db id userId why now))
| step_delete db id userId :
    step db (fst (deleteLeaveRequest db id userId)).

(** The states the routes reach from an empty collection when they serve
    one request at a time. *)
Inductive reachable : DB -> Prop :=
| reachable_empty usrs : reachable (mkDB usrs ∅)
| reachable_step db db' : reachable db -> step db db' -> reachable db'.

(** Requests served concurrently.  [createLeaveRequest] awaits between
    its overlap query and [LeaveRequest.create], and no index of the
    collection refuses overlapping ranges: a create request whose checks
    have passed waits, with what it is about to insert, while other
    requests are served. *)
Inductive concurrent : DB * list Checked -> DB * list Checked -> Prop :=
| concurrent_step db db' waiting :
    step db db' -> concurrent (db, waiting) (db', waiting)
| concurrent_checked db waiting userId body now c :
    create_checks db userId body now = Ok c ->
    concurrent (db, waiting) (db, c :: waiting)
| concurrent_insert db before c after :
    concurrent (db, (before ++ c :: after)%list)
               (fst (create_insert db c), (before ++ after)%list).

Inductive reachable_concurrently : DB * list Checked -> Prop :=
| concurrently_empty usrs : reachable_concurrently (mkDB usrs ∅, [])
| concurrently_step s s' :
    reachable_concurrently s -> concurrent s s' -> reachable_concurrently s'.

(** *** The shape of the stored requests *)

Definition statusEnum : list string := ["pending"; "approved"; "rejected"].

Definition employeeRoles : list string :=
  ["technician"; "service_advisor"; "manager"; "admin"; "cashier"].

(** A stored request as the routes write it: ordered dates, a status of
    the schema, at least one day, and an owner that is a stored user with
    an employee role. *)
Definition well_formed (db : DB) (r : LeaveRequest) : Prop :=
  startDate r <= endDate r
  /\ In (status r) statusEnum
  /\ 1 <= totalDays r
  /\ In (leaveType r) leaveTypeEnum
  /\ exists u, users db !! employee r = Some u /\ In (role u) employeeRoles.

End Leave.

(** ** Goods requests: the other routes of the controller *)

Module GoodsRequestRoutes.
Import GoodsRequests.

Local Open Scope Z_scope.


(** An element of [items] in a request body. *)
Record ItemBody := mkItemBody {
  ib_item : option nat;
  ib_quantity : option Z;
  ib_purpose : option string
}.

(** [!item.item || !item.quantity || item.quantity < 1] *)
Definition invalid_item (it : ItemBody) : bool :=
  negb (is_Some_b (ib_item it)) || negb (truthy_num (ib_quantity it))
  || (default 0 (ib_quantity it) <? 1).

(** The element as the schema stores it. *)
Definition stored_item (it : ItemBody) : RequestItem :=
  mkRequestItem (default 0%nat (ib_item it)) (default 0 (ib_quantity it)) (ib_purpose it).

Record CreateBody := mkCreateBody {
  cb_job : option nat;
  cb_items : option (list ItemBody);
  cb_notes : option string
}.

(** [GoodsRequest.create({ job, requestedBy, items, notes })]: the
    [pre("save")] hook gives the identifier, the unique index on
    [requestId] refuses a duplicate, the status takes its default. *)
Definition create (db : DB) (job' requestedBy' : nat) (items' : list RequestItem)
           (notes' : option string) : Outcome (DB * GoodsRequest) :=
  let ids := map (fun kv => requestId (snd kv)) (map_to_list (goodsRequests db)) in
  let newId := Identifiers.generateGoodsRequestId ids in
  if includes ids newId then Err (DuplicateKey "requestId")
  else
    let doc := mkGoodsRequest newId job' requestedBy' items' "pending"
                              None None None notes' in
    Ok (set_goodsRequests
          (<[fresh (dom (goodsRequests db)) := doc]> (goodsRequests db)) db, doc).

Definition createGoodsRequest (db : DB) (caller : Caller) (body : CreateBody)
  : DB * Outcome GoodsRequest :=
  match cb_job body, cb_items body with
  | Some job', Some (first :: more) =>
      let items' := first :: more in
      if existsb invalid_item items' then
        (db, Err (CustomError "Each item must have valid item ID and quantity" 400))
      else
        match users db !! id_of (userId caller) with
        | None => (db, Err (CustomError "User not found" 404))
        | Some user =>
            if negb (includes ["service_advisor"; "manager"; "admin"] (role user)) then
              (db, Err (CustomError
                          "Only inspectors, managers, and admins can create goods requests"
                          403))
            else
              match create db job' (id_of (userId caller)) (map stored_item items')
                           (cb_notes body) with
              | Err e => (db, Err e)
              | Ok (db', doc) => (db', respond db' true doc)
              end
        end
  | _, _ => (db, Err (CustomError "Job and items are required" 400))
  end.

Record UpdateBody := mkUpdateBody {
  ub_items : option (list ItemBody);
  ub_notes : option string
}.

Definition set_items_notes (items' : list RequestItem) (notes' : option string)
           (g : GoodsRequest) : GoodsRequest :=
  mkGoodsRequest (requestId g) (job g) (requestedBy g) items' (status g)
                 (approvedBy g) (approvedAt g) (rejectionReason g) notes'.

Definition updateGoodsRequest (db : DB) (id : nat) (caller : Caller) (body : UpdateBody)
  : DB * Outcome GoodsRequest :=
  match goodsRequests db !! id with
  | None => (db, Err (CustomError "Goods request not found" 404))
  | Some goodsRequest =>
      if negb (toString_is (requestedBy goodsRequest) (userId caller)) then
        (db, Err (CustomError "You can only update your own goods requests" 403))
      else if negb (String.eqb (status goodsRequest) "pending") then
        (db, Err (CustomError "Cannot update goods request that has been processed" 400))
      else
        let new_items :=
          match ub_items body with
          | Some (first :: more) =>
              if existsb invalid_item (first :: more) then
                Err (CustomError "Each item must have valid item ID and quantity" 400)
              else Ok (map stored_item (first :: more))
          | _ => Ok (items goodsRequest)
          end in
        match new_items with
        | Err e => (db, Err e)
        | Ok items' =>
            let notes' := match ub_notes body with
                          | Some n => Some n
                          | None => notes goodsRequest
                          end in
            let updated := set_items_notes items' notes' goodsRequest in
            let db' := set_goodsRequests (<[id := updated]> (goodsRequests db)) db in
            (db', respond db' true updated)
        end
  end.

Definition deleteGoodsRequest (db : DB) (id : nat) (caller : Caller) : DB * Outcome unit :=
  match goodsRequests db !! id with
  | None => (db, Err (CustomError "Goods request not found" 404))
  | Some goodsRequest =>
      if negb (toString_is (requestedBy goodsRequest) (userId caller)) then
        (db, Err (CustomError "You can only delete your own goods requests" 403))
      else if negb (String.eqb (status goodsRequest) "pending") then
        (db, Err (CustomError "Cannot delete goods request that has been processed" 400))
      else
        (set_goodsRequests (delete id (goodsRequests db)) db, Ok tt)
  end.

Definition reject (caller : Caller) (now : Z) (why : string) (g : GoodsRequest)
  : GoodsRequest :=
  mkGoodsRequest (requestId g) (job g) (requestedBy g) (items g)
                 "rejected" (Some (id_of (userId caller))) (Some now) (Some why) (notes g).

Definition rejectGoodsRequest (db : DB) (id : nat) (caller : Caller)
           (rejectionReason' : option string) (now : Z) : DB * Outcome GoodsRequest :=
  if negb (truthy_str rejectionReason') then
    (db, Err (CustomError "Rejection reason is required" 400))
  else if negb (authorized db caller) then
    (db, Err (CustomError
                "Only inventory managers, admins, and managers can reject goods requests" 403))
  else
    match goodsRequests db !! id with
    | None => (db, Err (CustomError "Goods request not found" 404))
    | Some goodsRequest =>
        if negb (String.eqb (status goodsRequest) "pending") then
          (db, Err (CustomError "Goods request has already been processed" 400))
        else
          let g' := reject caller now (default "" rejectionReason') goodsRequest in
          match save db id g' with
          | Err e => (db, Err e)
          | Ok db' => (db', respond db' false g')
          end
    end.

(** One request served by the goods-request routes. *)
Inductive step : DB -> DB -> Prop :=
| step_create db caller body :
    step db (fst (createGoodsRequest db caller body))
| step_update db id caller body :
    step db (fst (updateGoodsRequest db id caller body))
| step_delete db id caller :
    step db (fst (deleteGoodsRequest db id caller))
| step_approve db id caller now :
    step db (fst (approveGoodsRequest db id caller now))
| step_reject db id caller why now :
    step db (fst (rejectGoodsRequest db id caller why now))
| step_release db id caller :
    step db (fst (releaseGoods db id caller)).

(** The states the routes reach from an empty collection of requests. *)
Inductive reachable : DB -> Prop :=
| reachable_empty usrs inv jbs : reachable (mkDB usrs inv ∅ jbs)
| reachable_step db db' : reachable db -> step db db' -> reachable db'.

(** A stored request as the routes write it. *)
Definition well_formed (g : GoodsRequest) : Prop :=
  In (status g) statusEnum
  /\ items g <> []
  /\ (forall ri, In ri (items g) -> 1 <= quantity ri)
  /\ (status g = "pending" -> approvedBy g = None /\ approvedAt g = None)
  /\ (status g <> "pending" -> is_Some (approvedBy g) /\ is_Some (approvedAt g))
  /\ (status g = "rejected" -> exists why, rejectionReason g = Some why /\ why <> "")
  /\ (status g <> "rejected" -> rejectionReason g = None).

End GoodsRequestRoutes.

(** ** Inventory: what the stock routes may change *)

Module InventoryRoutes.
Import Inventory.

Local Open Scope Z_scope.

(** What the two stock routes may do to the collection: every document
    stays, under the same key, and differs from what it was in its
    [currentStock] at most, which is not negative when it was written. *)
Definition stock_only (db db' : gmap nat InventoryItem) : Prop :=
  forall i,
    match db !! i, db' !! i with
    | Some it, Some it' =>
        it' = it \/ (it' = set_currentStock (currentStock it') it /\ 0 <= currentStock it')
    | None, None => True
    | _, _ => False
    end.

(** The lengths of the two arrays of a bulk response. *)
Definition array_length (j : option Json) : option nat :=
  match j with
  | Some (JArr l) => Some (length l)
  | _ => None
  end.

End InventoryRoutes.

(** ** Jobs: the work log and the deletion *)

Module JobRoutes.
Import Jobs.

Local Open Scope Z_scope.

Definition set_workLog (l : list WorkLogEntry) (j : Job) : Job :=
  mkJob (jobId j) (booking j) (status j) (actualHours j) (assignedLabourers j) (labourCost j)
        l (startedAt j) (completedAt j) (notes j).

Definition set_assignedLabourers (l : list Assignment) (j : Job) : Job :=
  mkJob (jobId j) (booking j) (status j) (actualHours j) l (labourCost j)
        (workLog j) (startedAt j) (completedAt j) (notes j).

(** [Math.abs(endTime - startTime) / (1000 * 60 * 60)], the dates in
    milliseconds. *)
Definition hours_between (startTime endTime : Z) : Q :=
  Z.abs (endTime - startTime) # 3600000.

(** [assignedLabourers.find(assignment =>
      assignment.labourer.toString() === labourerId.toString())] followed by
    [labourerAssignment.hoursWorked = (labourerAssignment.hoursWorked || 0) + hoursLogged]:
    the first assignment of the labourer (both sides are the text of an
    id here) is credited, in place. *)
Fixpoint credit (labourerId : nat) (hours : Q) (l : list Assignment) : list Assignment :=
  match l with
  | [] => []
  | assignment :: rest =>
      if Nat.eqb (labourer assignment) labourerId then
        mkAssignment (labourer assignment) (assignedAt assignment)
                     (hoursWorked assignment + hours)%Q :: rest
      else assignment :: credit labourerId hours rest
  end.

(** [JobSchema.methods.addWorkLog] *)
Definition addWorkLog_method (labourerId : nat) (startTime endTime : Z)
           (description : option string) (j : Job) : Job :=
  let hours := hours_between startTime endTime in
  set_assignedLabourers
    (credit labourerId hours (assignedLabourers j))
    (set_workLog (workLog j ++ [mkWorkLogEntry labourerId startTime endTime description
                                               (Some hours)]) j).

(** [job.save()] after the method: of the paths it modified only
    [hoursWorked] has a validator ([min: 0]); the status is not modified,
    so the hook stamps nothing. *)
Definition save_logged (db : gmap nat Job) (id : nat) (now : Z) (j : Job)
  : Outcome (gmap nat Job * Job) :=
  if existsb (fun assignment => negb (Qle_bool 0 (hoursWorked assignment)))
             (assignedLabourers j) then
    Err (ValidationError "assignedLabourers.hoursWorked")
  else
    let j' := preSave false now j in
    Ok (<[id := j']> db, j').

(** The body of [POST /:id/work-log]; the embedding takes bodies whose two
    times are valid dates. *)
Record WorkLogBody := mkWorkLogBody {
  wb_startTime : Z;
  wb_endTime : Z;
  wb_description : option string
}.

Definition addWorkLog (db : gmap nat Job) (id : nat) (body : WorkLogBody)
           (caller : Caller) (now : Z) : gmap nat Job * Outcome Job :=
  if negb (String.eqb (role caller) "technician") then
    (db, Err (CustomError "Only technicians can add work logs" 403))
  else
    match db !! id with
    | None => (db, Err (CustomError "Job not found" 404))
    | Some job =>
        if negb (isAssigned job (userId caller)) then
          (db, Err (CustomError "Access denied. Job not assigned to you" 403))
        else if wb_endTime body <=? wb_startTime body then
          (db, Err (CustomError "End time must be after start time" 400))
        else
          let j1 := addWorkLog_method (id_of (userId caller)) (wb_startTime body)
                                      (wb_endTime body) (wb_description body) job in
          match save_logged db id now j1 with
          | Err e => (db, Err e)
          | Ok (db', j') => (db', Ok j')
          end
    end.

Definition deleteJob (db : gmap nat Job) (id : nat) (caller : Caller)
  : gmap nat Job * Outcome unit :=
  if negb (includes ["admin"; "manager"] (role caller)) then
    (db, Err (CustomError "Only admin or manager can delete jobs" 403))
  else
    match db !! id with
    | None => (db, Err (CustomError "Job not found" 404))
    | Some job =>
        if includes ["working"; "completed"] (status job) then
          (db, Err (CustomError "Cannot delete jobs that are in progress or completed" 400))
        else (delete id db, Ok tt)
    end.

(** The hours credited to a labourer over the assignments of a job. *)
Definition credited (labourerId : nat) (l : list Assignment) : Q :=
  fold_right (fun assignment total =>
                if Nat.eqb (labourer assignment) labourerId
                then (hoursWorked assignment + total)%Q else total) 0%Q l.

End JobRoutes.

(** ** Bookings: the routes of the workflow controller on the data base *)

Module BookingRoutes.
Import Bookings.

Local Open Scope Z_scope.

(** The fields of a user that the booking routes read. *)
Record User := mkUser {
  role : string;
  firstName : string;
  lastName : string
}.

Record DB := mkDB {
  users : gmap nat User;
  bookings : gmap nat Booking
}.

Definition set_bookings (m : gmap nat Booking) (db : DB) : DB := mkDB (users db) m.

Definition set_assignedInspector (i : option nat) (b : Booking) : Booking :=
  mkBooking (bookingId b) (customer b) (vehicle b) (status b) i (completedAt b) (notes b).

(** The body of [POST /]; a date that is present stands for its string. *)
Record CreateBody := mkCreateBody {
  cb_customer : option nat;
  cb_vehicle : option nat;
  cb_serviceType : option string;
  cb_scheduledDate : option Z;
  cb_timeSlot : option string;
  cb_description : option string;
  cb_priority : option string
}.

Definition serviceTypeEnum : list string :=
  ["inspection"; "repair"; "maintenance"; "bodywork"; "detailing"].

Definition timeSlotEnum : list string :=
  ["09:00-11:00"; "11:00-13:00"; "13:00-15:00"; "15:00-17:00"].

Definition priorityEnum : list string := ["low"; "medium"; "high"; "urgent"].

(** The validators of the booking schema on the paths that [createBooking]
    hands to [Booking.create]. *)
Definition validate (body : CreateBody) : option Failure :=
  if negb (includes serviceTypeEnum (default "" (cb_serviceType body))) then
    Some (ValidationError "serviceType")
  else if negb (includes timeSlotEnum (default "" (cb_timeSlot body))) then
    Some (ValidationError "timeSlot")
  else if (500 <? String.length (Leave.trim (default "" (cb_description body))))%nat then
    Some (ValidationError "description")
  else if negb (includes priorityEnum
                  (if truthy_str (cb_priority body)
                   then default "" (cb_priority body) else "medium")) then
    Some (ValidationError "priority")
  else None.

(** [Booking.create(bookingData)] once validated: the hook gives the
    identifier, the unique index on [bookingId] refuses a duplicate, the
    status takes its default. *)
Definition create (db : DB) (customer' vehicle' user : nat) (now : Z)
  : Outcome (DB * Booking) :=
  let ids := map (fun kv => bookingId (snd kv)) (map_to_list (bookings db)) in
  let newId := Identifiers.generateBookingId ids in
  if includes ids newId then Err (DuplicateKey "bookingId")
  else
    let doc := mkBooking newId customer' vehicle' "pending" None None
                         [mkNote "Booking created" user now] in
    Ok (set_bookings (<[fresh (dom (bookings db)) := doc]> (bookings db)) db, doc).

Definition createBooking (db : DB) (body : CreateBody) (user : nat) (now : Z)
  : DB * Outcome Booking :=
  match cb_customer body, cb_vehicle body with
  | Some customer', Some vehicle' =>
      if negb (truthy_str (cb_serviceType body))
         || negb (is_Some_b (cb_scheduledDate body))
         || negb (truthy_str (cb_timeSlot body)) then
        (db, Err (CustomError "Missing required booking fields" 400))
      else
        match users db !! customer' with
        | None => (db, Err (CustomError "Customer not found" 404))
        | Some customerUser =>
            if negb (String.eqb (role customerUser) "customer") then
              (db, Err (CustomError "Selected user is not a customer" 400))
            else
              match validate body with
              | Some e => (db, Err e)
              | None =>
                  match create db customer' vehicle' user now with
                  | Err e => (db, Err e)
                  | Ok (db', doc) => (db', Ok doc)
                  end
              end
        end
  | _, _ => (db, Err (CustomError "Missing required booking fields" 400))
  end.

Definition cancelBooking (db : DB) (id : nat) (reason : option string) (user : nat) (now : Z)
  : DB * Outcome Booking :=
  match bookings db !! id with
  | None => (db, Err (CustomError "No booking with id" 404))
  | Some booking =>
      if String.eqb (status booking) "completed" then
        (db, Err (CustomError "Cannot cancel a completed booking" 400))
      else if String.eqb (status booking) "cancelled" then
        (db, Err (CustomError "Booking is already cancelled" 400))
      else
        let b1 := set_status "cancelled" booking in
        let text := if truthy_str reason then default "" reason else "Booking cancelled" in
        let b2 := push_note (mkNote text user now) b1 in
        (set_bookings (<[id := b2]> (bookings db)) db, Ok b2)
  end.

Definition assignInspector (db : DB) (id : nat) (inspectorId : option nat) (user : nat)
           (now : Z) : DB * Outcome Booking :=
  match inspectorId with
  | None => (db, Err (CustomError "Inspector ID is required" 400))
  | Some inspectorId' =>
      match users db !! inspectorId' with
      | None => (db, Err (CustomError "Inspector not found" 404))
      | Some inspector =>
          if negb (String.eqb (role inspector) "service_advisor") then
            (db, Err (CustomError "Selected user is not a service advisor/inspector" 400))
          else
            match bookings db !! id with
            | None => (db, Err (CustomError "No booking with id" 404))
            | Some booking =>
                if negb (String.eqb (status booking) "pending") then
                  (db, Err (CustomError "Can only assign inspector to pending bookings" 400))
                else
                  let b1 := set_assignedInspector (Some inspectorId') booking in
                  let b2 := set_status "inspecting" b1 in
                  let b3 := push_note
                              (mkNote ("Inspector assigned: " +:+ firstName inspector
                                       +:+ " " +:+ lastName inspector) user now) b2 in
                  (set_bookings (<[id := b3]> (bookings db)) db, Ok b3)
            end
      end
  end.

(** [PATCH /:id/status] of the workflow controller on the data base. *)
Definition updateBookingStatus (db : DB) (req : StatusRequest) (now : Z)
  : DB * Outcome Booking :=
  let r := Workflow.updateBookingStatus (bookings db) req now in
  (set_bookings (fst r) db, snd r).

Definition addBookingNote (db : DB) (id : nat) (note' : option string) (user : nat) (now : Z)
  : DB * Outcome (list Note) :=
  if negb (truthy_str note') then (db, Err (CustomError "Note is required" 400))
  else
    match bookings db !! id with
    | None => (db, Err (CustomError "No booking with id" 404))
    | Some booking =>
        let b1 := push_note (mkNote (default "" note') user now) booking in
        (set_bookings (<[id := b1]> (bookings db)) db, Ok (notes b1))
    end.

(** [PUT /:id]: [findByIdAndUpdate(id, req.body, { runValidators: true })];
    the embedding takes bodies that carry a [status] at most. *)
Definition updateBooking (db : DB) (id : nat) (status' : option string)
  : DB * Outcome Booking :=
  match status' with
  | Some s =>
      if negb (includes validStatuses s) then (db, Err (ValidationError "status"))
      else
        match bookings db !! id with
        | None => (db, Err (CustomError "No booking with id" 404))
        | Some booking =>
            (set_bookings (<[id := set_status s booking]> (bookings db)) db,
             Ok (set_status s booking))
        end
  | None =>
      match bookings db !! id with
      | None => (db, Err (CustomError "No booking with id" 404))
      | Some booking => (db, Ok booking)
      end
  end.

(** One request served by the routes that keep the booking log. *)
Inductive step : DB -> DB -> Prop :=
| step_create db body user now :
    step db (fst (createBooking db body user now))
| step_cancel db id reason user now :
    step db (fst (cancelBooking db id reason user now))
| step_assign db id inspectorId user now :
    step db (fst (assignInspector db id inspectorId user now))
| step_status db req now :
    step db (fst (updateBookingStatus db req now))
| step_note db id note' user now :
    step db (fst (addBookingNote db id note' user now)).

(** The states these routes reach from an empty collection of bookings. *)
Inductive reachable : DB -> Prop :=
| reachable_empty usrs : reachable (mkDB usrs ∅)
| reachable_step db db' : reachable db -> step db db' -> reachable db'.

(** [b'] continues [b]: same booking, the log extended at its end, the
    status kept or moved along an edge of the workflow. *)
Definition continues (b b' : Booking) : Prop :=
  bookingId b' = bookingId b
  /\ customer b' = customer b
  /\ vehicle b' = vehicle b
  /\ (exists more, notes b' = (notes b ++ more)%list)
  /\ (status b' = status b \/ permitted (status b) (status b')).

(** A stored booking as the routes write it. *)
Definition well_formed (b : Booking) : Prop :=
  In (status b) validStatuses
  /\ (status b = "completed" <-> is_Some (completedAt b))
  /\ (exists user now more, notes b = mkNote "Booking created" user now :: more)
  /\ (status b = "pending" -> assignedInspector b = None).

End BookingRoutes.

(** ** Invoices: creation and deletion *)

Module InvoiceRoutes.
Import Invoices.

Local Open Scope Z_scope.

(** The data base of the invoice routes: the role of every user, the
    bookings, the invoices. *)
Record DB := mkDB {
  roles : gmap nat string;
  bookings : gmap nat Bookings.Booking;
  invoices : gmap nat Invoice
}.

Definition set_invoices (m : gmap nat Invoice) (db : DB) : DB :=
  mkDB (roles db) (bookings db) m.

Record CreateBody := mkCreateBody {
  cb_booking : option nat;
  cb_customer : option nat;
  cb_items : option (list ItemInput);
  cb_laborCharges : option Amount;
  cb_tax : option Amount;
  cb_discount : option Amount;
  cb_paymentMethod : option string;
  cb_notes : option string
}.

(** [x || 0] on an amount of the body. *)
Definition or_zero (x : option Amount) : Amount :=
  if truthy_amount x then default (Number 0) x else Number 0.

(** [Invoice.findOne({ booking })] *)
Definition findOne_booking (db : DB) (booking' : nat) : option (nat * Invoice) :=
  List.find (fun kv => Nat.eqb (booking (snd kv)) booking') (map_to_list (invoices db)).

(** The validators of the invoice schema on the document handed to
    [Invoice.create]: the elements of [items] and the [min: 0] and [enum]
    paths. *)
Definition validate (items' : list ItemInput) (labor subtotal' tax' discount' : Z)
           (method : option string) : Outcome (list InvoiceItem) :=
  stored <- cast_items items' ;;
  if labor <? 0 then Err (ValidationError "laborCharges")
  else if subtotal' <? 0 then Err (ValidationError "subtotal")
  else if tax' <? 0 then Err (ValidationError "tax")
  else if discount' <? 0 then Err (ValidationError "discount")
  else
    match method with
    | Some m => if includes paymentMethodEnum m then Ok stored
                else Err (ValidationError "paymentMethod")
    | None => Ok stored
    end.

(** [Invoice.create(...)] once validated: the hook gives the identifier,
    the unique index on [invoiceId] refuses a duplicate, the status takes
    its default. *)
Definition create (db : DB) (doc : string -> Invoice) : Outcome (DB * Invoice) :=
  let ids := map (fun kv => invoiceId (snd kv)) (map_to_list (invoices db)) in
  let newId := Identifiers.generateInvoiceId ids in
  if includes ids newId then Err (DuplicateKey "invoiceId")
  else Ok (set_invoices (<[fresh (dom (invoices db)) := doc newId]> (invoices db)) db,
           doc newId).

(** [Invoice.create({...})] and the response: the Number paths cast what
    they are given and refuse NaN ([None]), the validators run, the
    document is inserted. *)
Definition store (db : DB) (booking' customer' : nat) (processedItems : list ItemInput)
           (labor : Z) (subtotal' : option Z) (tax' discount' : Z) (total' : option Z)
           (method notes' : option string) (user : nat) : DB * Outcome Invoice :=
  match subtotal', total' with
  | None, _ => (db, Err (ValidationError "subtotal"))
  | _, None => (db, Err (ValidationError "total"))
  | Some subtotal'', Some total'' =>
      match validate processedItems labor subtotal'' tax' discount' method with
      | Err e => (db, Err e)
      | Ok stored =>
          match create db (fun newId =>
                  mkInvoice newId booking' customer' stored labor subtotal'' tax'
                            discount' total'' "draft" method None user notes') with
          | Err e => (db, Err e)
          | Ok (db', doc) => (db', Ok doc)
          end
      end
  end.

Definition createInvoice (db : DB) (body : CreateBody) (user : nat)
  : DB * Outcome Invoice :=
  match cb_booking body, cb_customer body, cb_items body with
  | Some booking', Some customer', Some (first :: more) =>
      match bookings db !! booking' with
      | None => (db, Err (CustomError "Booking not found" 404))
      | Some bookingDoc =>
          if negb (String.eqb (Bookings.status bookingDoc) "completed") then
            (db, Err (CustomError "Invoice can only be created for completed bookings" 400))
          else if is_Some_b (findOne_booking db booking') then
            (db, Err (CustomError "Invoice already exists for this booking" 400))
          else
            match roles db !! customer' with
            | None => (db, Err (CustomError "Customer not found" 404))
            | Some role =>
                if negb (String.eqb role "customer") then
                  (db, Err (CustomError "Specified user is not a customer" 400))
                else if negb (Nat.eqb (Bookings.customer bookingDoc) customer') then
                  (db, Err (CustomError "Customer must match the booking customer" 400))
                else
                  match process_items (first :: more) 0 with
                  | None =>
                      (db, Err (JsError
                                  "Each item must have description, quantity, and unit price"))
                  | Some (processedItems, subtotal0) =>
                      let totalLaborCharges := or_zero (cb_laborCharges body) in
                      let subtotal' := plus (Num subtotal0) (value_of totalLaborCharges) in
                      let taxAmount := or_zero (cb_tax body) in
                      let discountAmount := or_zero (cb_discount body) in
                      let finalTotal :=
                        minus (plus subtotal' (value_of taxAmount))
                              (value_of discountAmount) in
                      if match finalTotal with Some t => t <? 0 | None => false end then
                        (db, Err (CustomError "Total amount cannot be negative" 400))
                      else
                        store db booking' customer' processedItems
                              (ToNumber totalLaborCharges) (value_number subtotal')
                              (ToNumber taxAmount) (ToNumber discountAmount) finalTotal
                              (cb_paymentMethod body) (cb_notes body) user
                  end
            end
      end
  | _, _, _ => (db, Err (CustomError
                           "Please provide booking, customer, and at least one item" 400))
  end.

(** [DELETE /:id], with [req.query.permanent]. *)
Definition deleteInvoice (db : DB) (id : nat) (permanent : option string)
  : DB * Outcome Invoice :=
  match invoices db !! id with
  | None => (db, Err (CustomError "No invoice found with id" 404))
  | Some invoice =>
      if String.eqb (status invoice) "paid" then
        (db, Err (CustomError "Cannot delete a paid invoice" 400))
      else if String.eqb (default "" permanent) "true" then
        (set_invoices (delete id (invoices db)) db, Ok invoice)
      else
        let cancelled := set_status "cancelled" invoice in
        (set_invoices (<[id := cancelled]> (invoices db)) db, Ok cancelled)
  end.

(** One request served by the invoice routes. *)
Inductive step : DB -> DB -> Prop :=
| step_create db body user :
    step db (fst (createInvoice db body user))
| step_update db id body :
    step db (set_invoices (fst (updateInvoice (invoices db) id body)) db)
| step_status db id body now :
    step db (set_invoices (fst (updateInvoiceStatus (invoices db) id body now)) db)
| step_delete db id permanent :
    step db (fst (deleteInvoice db id permanent)).


(** At most one invoice for a booking. *)
Definition one_per_booking (m : gmap nat Invoice) : Prop :=
  forall i j a b, m !! i = Some a -> m !! j = Some b -> booking a = booking b -> i = j.

(** The amounts of [b] are those of [a]. *)
Definition same_amounts (a b : Invoice) : Prop :=
  invoiceId b = invoiceId a /\ booking b = booking a /\ customer b = customer a
  /\ items b = items a /\ laborCharges b = laborCharges a /\ subtotal b = subtotal a
  /\ tax b = tax a /\ discount b = discount a /\ total b = total a.


End InvoiceRoutes.

(** ** Users: login, status and loyalty points *)

Module Accounts.

Local Open Scope Z_scope.

(** The fields of a user document that [loginUser], [updateUserStatus]
    and [addLoyaltyPoints] read and write. *)
Record Account := mkAccount {
  email : string;
  password : string;
  role : string;
  status : string;
  loginAttempts : Z;
  lockUntil : option Z;
  lastLogin : option Z;
  loyaltyPoints : Z;
  membershipTier : string
}.

Definition set_loginAttempts (n : Z) (u : Account) : Account :=
  mkAccount (email u) (password u) (role u) (status u) n (lockUntil u) (lastLogin u)
            (loyaltyPoints u) (membershipTier u).

Definition set_lockUntil (t : option Z) (u : Account) : Account :=
  mkAccount (email u) (password u) (role u) (status u) (loginAttempts u) t (lastLogin u)
            (loyaltyPoints u) (membershipTier u).

Definition set_lastLogin (t : option Z) (u : Account) : Account :=
  mkAccount (email u) (password u) (role u) (status u) (loginAttempts u) (lockUntil u) t
            (loyaltyPoints u) (membershipTier u).

Definition set_status (s : string) (u : Account) : Account :=
  mkAccount (email u) (password u) (role u) s (loginAttempts u) (lockUntil u) (lastLogin u)
            (loyaltyPoints u) (membershipTier u).


Definition set_membershipTier (t : string) (u : Account) : Account :=
  mkAccount (email u) (password u) (role u) (status u) (loginAttempts u) (lockUntil u)
            (lastLogin u) (loyaltyPoints u) t.

(** The virtual [isLocked]: [!!(this.lockUntil && this.lockUntil > Date.now())] *)
Definition isLocked (u : Account) (now : Z) : bool :=
  match lockUntil u with
  | Some t => now <? t
  | None => false
  end.

(** "Update membership tier based on loyalty points" *)
Definition tier_of (points : Z) : string :=
  if 10000 <=? points then "platinum"
  else if 5000 <=? points then "gold"
  else if 2000 <=? points then "silver"
  else "bronze".

(** The part of the [pre("save")] hook of the user schema that touches
    these fields, on a stored user whose password is not modified. *)
Definition preSave (u : Account) : Account :=
  if String.eqb (role u) "customer" then set_membershipTier (tier_of (loyaltyPoints u)) u
  else u.

(** [User.findOne({ email })]; the email of the body is taken as the
    setters of the schema leave it. *)
Definition findOne_email (db : gmap nat Account) (email' : string)
  : option (nat * Account) :=
  List.find (fun kv => String.eqb (email (snd kv)) email') (map_to_list db).

Section Login.

(** [bcrypt.compare(candidatePassword, this.password)] *)
Variable compare : string -> string -> bool.

Definition loginUser (db : gmap nat Account) (email' password' : option string) (now : Z)
  : gmap nat Account * Outcome Account :=
  if negb (truthy_str email') || negb (truthy_str password') then
    (db, Err (CustomError "Please provide email and password" 400))
  else
    match findOne_email db (default "" email') with
    | None => (db, Err (CustomError "Invalid email or password" 401))
    | Some (id, user) =>
        if isLocked user now then
          (db, Err (CustomError
                      "Account is temporarily locked due to too many failed attempts" 423))
        else if negb (String.eqb (status user) "active") then
          (db, Err (CustomError "Account is not active. Please contact support." 403))
        else if String.eqb (password user) "" then
          (db, Err (JsError "Password not found"))
        else if negb (compare (default "" password') (password user)) then
          let u1 := set_loginAttempts (loginAttempts user + 1) user in
          let u2 := if 5 <=? loginAttempts u1
                    then set_lockUntil (Some (now + 30 * 60 * 1000)) u1 else u1 in
          (<[id := preSave u2]> db, Err (CustomError "Invalid email or password" 401))
        else
          let u1 := if 0 <? loginAttempts user
                    then set_lockUntil None (set_loginAttempts 0 user) else user in
          let u2 := set_lastLogin (Some now) u1 in
          (<[id := preSave u2]> db, Ok (preSave u2))
    end.

(** Logins with the same credentials, one after the other, at the given
    times. *)
Definition logins (db : gmap nat Account) (email' password' : option string)
           (times : list Z) : gmap nat Account :=
  fold_left (fun d now => fst (loginUser d email' password' now)) times db.

End Login.

Definition statusEnum : list string := ["active"; "inactive"; "suspended"; "terminated"].

(** [findByIdAndUpdate(userId, { status }, ...)] *)
Definition updateUserStatus (db : gmap nat Account) (id : nat) (status' : option string)
  : gmap nat Account * Outcome Account :=
  if negb (truthy_str status') || negb (includes statusEnum (default "" status')) then
    (db, Err (CustomError "Please provide a valid status" 400))
  else
    match db !! id with
    | None => (db, Err (CustomError "No user with id" 404))
    | Some user =>
        let user' := set_status (default "" status') user in
        (<[id := user']> db, Ok user')
    end.


(** The unique index on [email]. *)
Definition unique_emails (db : gmap nat Account) : Prop :=
  forall i j a b, db !! i = Some a -> db !! j = Some b -> email a = email b -> i = j.


End Accounts.

(** ** Vehicles *)

Module Vehicles.

Local Open Scope Z_scope.

(** The fields of a vehicle document that the routes below read and
    write. *)
Record Vehicle := mkVehicle {
  vehicleId : string;
  registrationNumber : string;
  owner : nat;
  mileage : Z;
  status : string
}.

Record DB := mkDB {
  roles : gmap nat string;
  vehicles : gmap nat Vehicle
}.

Definition set_vehicles (m : gmap nat Vehicle) (db : DB) : DB := mkDB (roles db) m.

Definition set_mileage (n : Z) (v : Vehicle) : Vehicle :=
  mkVehicle (vehicleId v) (registrationNumber v) (owner v) n (status v).

Definition set_status (s : string) (v : Vehicle) : Vehicle :=
  mkVehicle (vehicleId v) (registrationNumber v) (owner v) (mileage v) s.

Definition set_owner (o : nat) (v : Vehicle) : Vehicle :=
  mkVehicle (vehicleId v) (registrationNumber v) o (mileage v) (status v).

Definition statusEnum : list string := ["active"; "inactive"; "scrapped"].

Definition updateVehicleMileage (db : DB) (id : nat) (mileage' : option Z)
  : DB * Outcome Vehicle :=
  if negb (truthy_num mileage') || (default 0 mileage' <? 0) then
    (db, Err (CustomError "Please provide a valid mileage value" 400))
  else
    match vehicles db !! id with
    | None => (db, Err (CustomError "No vehicle found with id" 404))
    | Some vehicle =>
        if default 0 mileage' <? mileage vehicle then
          (db, Err (CustomError "New mileage cannot be less than current mileage" 400))
        else
          let vehicle' := set_mileage (default 0 mileage') vehicle in
          (set_vehicles (<[id := vehicle']> (vehicles db)) db, Ok vehicle')
    end.

Definition updateVehicleStatus (db : DB) (id : nat) (status' : option string)
  : DB * Outcome Vehicle :=
  if negb (truthy_str status') || negb (includes statusEnum (default "" status')) then
    (db, Err (CustomError "Please provide a valid status (active, inactive, scrapped)" 400))
  else
    match vehicles db !! id with
    | None => (db, Err (CustomError "No vehicle found with id" 404))
    | Some vehicle =>
        let vehicle' := set_status (default "" status') vehicle in
        (set_vehicles (<[id := vehicle']> (vehicles db)) db, Ok vehicle')
    end.

Definition deleteVehicle (db : DB) (id : nat) (permanent : option string)
  : DB * Outcome Vehicle :=
  match vehicles db !! id with
  | None => (db, Err (CustomError "No vehicle found with id" 404))
  | Some vehicle =>
      if String.eqb (default "" permanent) "true" then
        (set_vehicles (delete id (vehicles db)) db, Ok vehicle)
      else
        let vehicle' := set_status "inactive" vehicle in
        (set_vehicles (<[id := vehicle']> (vehicles db)) db, Ok vehicle')
  end.

Definition transferOwnership (db : DB) (id : nat) (newOwnerId : option nat)
  : DB * Outcome Vehicle :=
  match newOwnerId with
  | None => (db, Err (CustomError "New owner ID is required" 400))
  | Some newOwnerId' =>
      match vehicles db !! id with
      | None => (db, Err (CustomError "No vehicle found with id" 404))
      | Some vehicle =>
          match roles db !! newOwnerId' with
          | None => (db, Err (CustomError "New owner not found" 404))
          | Some role =>
              if negb (String.eqb role "customer") then
                (db, Err (CustomError "New owner must be a customer" 400))
              else if Nat.eqb (owner vehicle) newOwnerId' then
                (db, Err (CustomError "Vehicle is already owned by this customer" 400))
              else
                let vehicle' := set_owner newOwnerId' vehicle in
                (set_vehicles (<[id := vehicle']> (vehicles db)) db, Ok vehicle')
          end
      end
  end.

(** One request served by these four routes. *)
Inductive step : DB -> DB -> Prop :=
| step_mileage db id mileage' :
    step db (fst (updateVehicleMileage db id mileage'))
| step_status db id status' :
    step db (fst (updateVehicleStatus db id status'))
| step_delete db id permanent :
    step db (fst (deleteVehicle db id permanent))
| step_transfer db id newOwnerId :
    step db (fst (transferOwnership db id newOwnerId)).


End Vehicles.

(** ** Identifier generation: printing and parsing *)

Module IdentifierDigits.

(** [parseInt] continued from an accumulator. *)
Definition parse_from (acc : N) (ds : list ascii) : N :=
  fold_left (fun acc c => (10 * acc + N.of_nat (nat_of_ascii c - 48))%N) ds acc.

(** [prefix] followed by the number padded to five digits, as the hooks
    print it. *)
Definition print (prefix : string) (n : N) : string :=
  prefix +:+ Identifiers.padStart 5 "0"%char (pretty n).

End IdentifierDigits.

(** ** The authentication middleware *)

Module Auth.
Import Accounts.

Local Open Scope Z_scope.

(** What [jwt.verify(token, process.env.JWT_SECRET)] does: it returns the
    payload, of which [userId] is read, or throws. *)
Inductive Verified :=
| Payload (userId : nat)
| JsonWebTokenError
| TokenExpiredError
| OtherError.

(** [req.user] as [authenticate] fills it, restricted to the fields the
    routes above read; [userId] is [user._id], an ObjectId. *)
Record ReqUser := mkReqUser {
  ru_userId : UserId;
  ru_email : string;
  ru_role : string;
  ru_status : string
}.

(** [authHeader.split(" ")[1]] *)
Fixpoint until_space (s : string) : string :=
  match s with
  | EmptyString => EmptyString
  | String c rest => if Ascii.eqb c " "%char then EmptyString else String c (until_space rest)
  end.

Definition bearer_token (authHeader : string) : option string :=
  if String.prefix "Bearer " authHeader
  then Some (until_space (String.substring 7 (String.length authHeader - 7) authHeader))
  else None.

Section Authenticate.

Variable verify : string -> Verified.

Definition authenticate (db : gmap nat Account) (authHeader : option string) (now : Z)
  : Outcome ReqUser :=
  match authHeader with
  | None => Err (CustomError "No token provided, access denied" 401)
  | Some header =>
      match bearer_token header with
      | None => Err (CustomError "No token provided, access denied" 401)
      | Some token =>
          match verify token with
          | JsonWebTokenError => Err (CustomError "Invalid token" 401)
          | TokenExpiredError => Err (CustomError "Token expired, please login again" 401)
          | OtherError => Err (CustomError "Token verification failed" 401)
          | Payload userId =>
              match db !! userId with
              | None => Err (CustomError "User not found, invalid token" 401)
              | Some user =>
                  if negb (String.eqb (status user) "active") then
                    Err (CustomError "Account is not active" 403)
                  else if isLocked user now then
                    Err (CustomError "Account is temporarily locked" 423)
                  else Ok (mkReqUser (ObjectId userId) (email user) (role user)
                                     (status user))
              end
          end
      end
  end.

(** [authorize(...roles)] behind [authenticate]: [req.user] is absent
    when [authenticate] did not call [next()] without an error. *)
Definition authorize (roles : list string) (user : option ReqUser) : Outcome ReqUser :=
  match user with
  | None => Err (CustomError "Access denied, authentication required" 401)
  | Some u =>
      if negb (includes roles (ru_role u)) then
        Err (CustomError "Access denied, insufficient permissions" 403)
      else Ok u
  end.

(** A route mounted as [authenticate, authorize(...roles), handler]: the
    error of the first middleware that fails ends the request. *)
Definition guarded (roles : list string) (db : gmap nat Account)
           (authHeader : option string) (now : Z) : Outcome ReqUser :=
  user <- authenticate db authHeader now ;;
  authorize roles (Some user).

End Authenticate.

End Auth.

(** ** Sample data used by the concrete evaluations *)

Module Samples.

Definition pending_booking : Bookings.Booking :=
  Bookings.mkBooking "BK00001" 11 21 "pending" None None [].

Definition oil : Inventory.InventoryItem :=
  Inventory.mkItem "ITM00001" "Engine oil" 25 2 4.

Definition filter : Inventory.InventoryItem :=
  Inventory.mkItem "ITM00002" "Oil filter" 12 10 3.

Definition stock : gmap nat Inventory.InventoryItem :=
  <[1%nat := oil]> (<[2%nat := filter]> ∅).

(** [[{id: A, op: add, qty: 5}, {id: B, op: subtract, qty: 999}]] *)
Definition bulk_lines : list (option Inventory.StockUpdate) :=
  [ Some (Inventory.mkStockUpdate (Some "ITM00001") (Some 5%Z) (Some "add") None);
    Some (Inventory.mkStockUpdate (Some "ITM00002") (Some 999%Z) (Some "subtract") None) ].

Definition manager : GoodsRequests.Caller := GoodsRequests.mkCaller 5 "manager".

(** A pending request for 5 units of an item whose stock is 3. *)
Definition brake_pads : Inventory.InventoryItem :=
  Inventory.mkItem "ITM00003" "Brake pads" 40 3 1.

Definition pads_request : GoodsRequests.GoodsRequest :=
  GoodsRequests.mkGoodsRequest "GR00001" 31 6
    [GoodsRequests.mkRequestItem 3 5 None] "pending" None None None None.

Definition approved_request : GoodsRequests.GoodsRequest :=
  GoodsRequests.mkGoodsRequest "GR00002" 31 6
    [GoodsRequests.mkRequestItem 3 2 None] "approved" (Some 5%nat) (Some 900%Z) None None.

Definition goods_db : GoodsRequests.DB :=
  GoodsRequests.mkDB ∅ (<[3%nat := brake_pads]> ∅)
                     (<[1%nat := pads_request]> (<[2%nat := approved_request]> ∅))
                     {[ 31%nat := "working" ]}.

Definition paid_invoice : Invoices.Invoice :=
  Invoices.mkInvoice "INV00001" 41 11
    [Invoices.mkInvoiceItem "Brake service" 2 50 100] 20 120 10 5 125
    "paid" (Some "cash") (Some 5000%Z) 5 None.

Definition invoices : gmap nat Invoices.Invoice := {[ 1%nat := paid_invoice ]}.

(** A job that was completed at 200, reopened by a manager, and whose
    recorded hours do not come from a work log. *)
Definition reopened_job : Jobs.Job :=
  Jobs.mkJob "JOB00001" 41 "working" 5%Q [Jobs.mkAssignment 8 50 0%Q] 0%Q []
             (Some 100%Z) (Some 200%Z) None.

Definition fresh_job : Jobs.Job :=
  Jobs.mkJob "JOB00002" 41 "pending" 0%Q [Jobs.mkAssignment 8 50 0%Q] 0%Q
             [Jobs.mkWorkLogEntry 8 1000 2000 None (Some (3 # 2)%Q)]
             None None None.

Definition jobs : gmap nat Jobs.Job :=
  <[1%nat := reopened_job]> (<[2%nat := fresh_job]> ∅).

(** The [userId]s of a customer and of a cashier. *)
Definition userIds : list string := ["C00041"; "CS00001"].

(** A technician and the leave they ask for, from 1000 to 2000. *)
Definition staff : gmap nat Leave.User := {[ 7%nat := Leave.mkUser "technician" ]}.

Definition first_leave : Leave.LeaveBody :=
  Leave.mkLeaveBody (Some "annual") (Some 1000%Z) (Some 2000%Z) (Some "family visit").

Definition second_leave : Leave.LeaveBody :=
  Leave.mkLeaveBody (Some "sick") (Some 1500%Z) (Some 2500%Z) (Some "surgery").

Definition leave_db : Leave.DB :=
  fst (Leave.createLeaveRequest (Leave.mkDB staff ∅) 7 first_leave 500).

(** Two requests of the technician for overlapping ranges, both checked
    against the empty collection before either is inserted. *)
Definition first_checked : Leave.Checked :=
  Leave.mkChecked 7 "annual" 1000 2000 "family visit".

Definition second_checked : Leave.Checked :=
  Leave.mkChecked 7 "sick" 1500 2500 "surgery".

Definition raced_leave_db : Leave.DB :=
  fst (Leave.create_insert (fst (Leave.create_insert (Leave.mkDB staff ∅) first_checked))
                           second_checked).

(** The data base after manager 9 approved the first leave at 700. *)
Definition approved_leave_db : Leave.DB :=
  fst (Leave.approveLeaveRequest leave_db 0 9 700).

Definition advisor : GoodsRequests.Caller := GoodsRequests.mkCaller 6 "service_advisor".

(** The goods data base with the advisor as a stored user and job 31 in
    progress, after the advisor asked for two brake pads for the job,
    and after the manager approved and released that request. *)
Definition goods_start : GoodsRequests.DB :=
  GoodsRequests.mkDB {[ 6%nat := GoodsRequests.mkUser "service_advisor" None ]}
                     (<[3%nat := brake_pads]> ∅) ∅ {[ 31%nat := "working" ]}.

Definition goods_created : GoodsRequests.DB :=
  fst (GoodsRequestRoutes.createGoodsRequest goods_start advisor
         (GoodsRequestRoutes.mkCreateBody (Some 31%nat)
            (Some [GoodsRequestRoutes.mkItemBody (Some 3%nat) (Some 2%Z) None]) None)).

Definition goods_released : GoodsRequests.DB :=
  fst (GoodsRequests.releaseGoods
         (fst (GoodsRequests.approveGoodsRequest goods_created 0 manager 800)) 0 manager).

(** A customer, an inspector, and the booking the cashier 7 records for
    the customer at 100, assigned to the inspector at 200 and moved to
    working at 300 and to completed at 400. *)
Definition booking_users : gmap nat BookingRoutes.User :=
  <[4%nat := BookingRoutes.mkUser "customer" "Nimal" "Perera"]>
    (<[6%nat := BookingRoutes.mkUser "service_advisor" "Kamal" "Silva"]> ∅).

Definition booking_body : BookingRoutes.CreateBody :=
  BookingRoutes.mkCreateBody (Some 4%nat) (Some 12%nat) (Some "repair") (Some 5000%Z)
                             (Some "09:00-11:00") None None.

Definition booked : BookingRoutes.DB :=
  fst (BookingRoutes.createBooking (BookingRoutes.mkDB booking_users ∅) booking_body 7 100).

Definition inspected : BookingRoutes.DB :=
  fst (BookingRoutes.assignInspector booked 0 (Some 6%nat) 7 200).

Definition worked : BookingRoutes.DB :=
  fst (BookingRoutes.updateBookingStatus inspected
         (Bookings.mkStatusRequest 0 (Some "working") None 6) 300).

Definition finished : BookingRoutes.DB :=
  fst (BookingRoutes.updateBookingStatus worked
         (Bookings.mkStatusRequest 0 (Some "completed") None 6) 400).

(** The invoice data base once the booking above is completed, and the
    invoice the cashier 7 creates for it: two lines, labour charges 20,
    tax 10, discount 5. *)
Definition invoice_start : InvoiceRoutes.DB :=
  InvoiceRoutes.mkDB {[ 4%nat := "customer" ]} (BookingRoutes.bookings finished) ∅.

Definition invoice_body : InvoiceRoutes.CreateBody :=
  InvoiceRoutes.mkCreateBody
    (Some 0%nat) (Some 4%nat)
    (Some [Invoices.mkItemInput (Some "brake pads") (Some 2%Z) (Some 50%Z) None;
           Invoices.mkItemInput (Some "brake fluid") (Some 1%Z) (Some 30%Z) None])
    (Some (Number 20)) (Some (Number 10)) (Some (Number 5)) None None.

Definition invoiced : InvoiceRoutes.DB :=
  fst (InvoiceRoutes.createInvoice invoice_start invoice_body 7).

Definition invoice_paid : InvoiceRoutes.DB :=
  InvoiceRoutes.set_invoices
    (fst (Invoices.updateInvoiceStatus (InvoiceRoutes.invoices invoiced) 0
            (Invoices.mkStatusBody (Some "paid") (Some "cash") None) 500))
    invoiced.

(** A customer account with 1900 loyalty points and no failed login. *)
Definition nimal : Accounts.Account :=
  Accounts.mkAccount "nimal@pitstop.lk" "$2b$10$hash" "customer" "active" 0 None None
                     1900 "bronze".

Definition accounts : gmap nat Accounts.Account := {[ 4%nat := nimal ]}.

(** A comparison that accepts the one password ["secret123"]. *)
Definition compare (candidate stored : string) : bool := String.eqb candidate "secret123".

(** A car of customer 4 at 42000 km; customer 5 buys it. *)
Definition car : Vehicles.Vehicle := Vehicles.mkVehicle "VEH00001" "CAB-1234" 4 42000 "active".

Definition garage : Vehicles.DB :=
  Vehicles.mkDB (<[4%nat := "customer"]> (<[5%nat := "customer"]> ∅)) {[ 1%nat := car ]}.

(** A collection of bookings that has reached a six-digit identifier. *)
Definition many_bookings : BookingRoutes.DB :=
  BookingRoutes.mkDB booking_users
    (<[0%nat := Bookings.mkBooking "BK99999" 4 12 "pending" None None []]>
       (<[1%nat := Bookings.mkBooking "BK100000" 4 12 "pending" None None []]> ∅)).

(** A verification that accepts the token ["t4"] as the one of user 4. *)
Definition verify (token : string) : Auth.Verified :=
  if String.eqb token "t4" then Auth.Payload 4 else Auth.JsonWebTokenError.

(** The goods data base after the brake pads were removed from the
    inventory, the request for them still pending. *)
Definition goods_dangling : GoodsRequests.DB :=
  GoodsRequests.mkDB (GoodsRequests.users goods_created) ∅
                     (GoodsRequests.goodsRequests goods_created)
                     (GoodsRequests.jobs goods_created).

End Samples.

(** * Properties *)

Lemma includes_In xs s : includes xs s = true <-> In s xs.
Proof.
  unfold includes. rewrite existsb_exists. split.
  - intros [x [Hin Heq]]. apply String.eqb_eq in Heq. now subst.
  - intros Hin. exists s. split; [assumption | apply String.eqb_refl].
Qed.

Lemma truthy_str_Some s : truthy_str s = true <-> exists v, s = Some v /\ v <> "".
Proof.
  destruct s as [v|]; simpl.
  - rewrite negb_true_iff. split.
    + intros H. exists v. split; [reflexivity|]. intros ->. now rewrite String.eqb_refl in H.
    + intros [w [[= <-] Hne]]. now apply String.eqb_neq.
  - split; [discriminate | intros [v [? _]]; discriminate].
Qed.

Lemma truthy_str_nonempty_Some v : v <> "" -> truthy_str (Some v) = true.
Proof. intros Hv. apply truthy_str_Some. eauto. Qed.

(** ** Bookings *)

Lemma toString_is_true ref userId : toString_is ref userId = true -> ref = id_of userId.
Proof. destruct userId as [n|n]; [discriminate|]. cbn. now intros ?%Nat.eqb_eq. Qed.

Lemma toString_is_ObjectId ref n : toString_is ref (ObjectId n) = false.
Proof. reflexivity. Qed.

(** The [req.user.userId] that [authenticate] hands to a handler is an
    ObjectId. *)
Lemma authenticate_userId verify accounts authHeader now u :
  Auth.authenticate verify accounts authHeader now = Ok u ->
  exists n, Auth.ru_userId u = ObjectId n.
Proof.
  unfold Auth.authenticate.
  destruct authHeader as [header|]; [|discriminate].
  destruct (Auth.bearer_token header); [|discriminate].
  destruct (verify _) as [userId| | |]; try discriminate.
  destruct (accounts !! userId) as [user|]; [|discriminate].
  destruct (negb _); [discriminate|]. destruct (Accounts.isLocked user now); [discriminate|].
  intros [= <-]. eexists. reflexivity.
Qed.

Lemma pretty_N_char_digit d :
  (d < 10)%N ->
  Identifiers.is_digit (pretty_N_char d) = true
  /\ N.of_nat (nat_of_ascii (pretty_N_char d) - 48) = d.
Proof.
  intros Hd.
  assert (H : (d = 0 \/ d = 1 \/ d = 2 \/ d = 3 \/ d = 4 \/ d = 5 \/ d = 6 \/ d = 7
               \/ d = 8 \/ d = 9)%N) by lia.
  repeat (destruct H as [->|H]; [split; reflexivity|]). subst. split; reflexivity.
Qed.

Lemma pretty_N_go_digits x : forall s,
  exists ds,
    list_ascii_of_string (pretty_N_go x s) = (ds ++ list_ascii_of_string s)%list
    /\ forallb Identifiers.is_digit ds = true
    /\ (forall acc, IdentifierDigits.parse_from acc ds = (acc * 10 ^ N.of_nat (length ds) + x)%N)
    /\ (0 < x -> ds <> [])%N.
Proof.
  induction x as [x IH] using (well_founded_induction N.lt_wf_0). intros s.
  destruct (N.eq_dec x 0%N) as [->|Hx].
  - exists []. rewrite pretty_N_go_0. cbn. repeat split; try (intros; lia).
  - rewrite pretty_N_go_step by lia.
    destruct (IH (x `div` 10)%N ltac:(apply N.div_lt; lia)
                 (String (pretty_N_char (x `mod` 10)) s)) as (ds & Hds & Hall & Hparse & _).
    destruct (pretty_N_char_digit (x `mod` 10)%N ltac:(apply N.mod_lt; lia)) as [Hdig Hval].
    exists (ds ++ [pretty_N_char (x `mod` 10)])%list. split; [|split; [|split]].
    + rewrite Hds. cbn [list_ascii_of_string]. now rewrite <- app_assoc.
    + rewrite forallb_app, Hall. cbn. now rewrite Hdig.
    + intros acc. unfold IdentifierDigits.parse_from in *. rewrite fold_left_app, Hparse. cbn [fold_left].
      rewrite Hval, length_app. cbn [length]. rewrite Nat.add_1_r, Nat2N.inj_succ, N.pow_succ_r'.
      pose proof (N.div_mod x 10 ltac:(lia)). lia.
    + intros _. now destruct ds.
Qed.

Lemma pretty_N_digits n :
  exists ds,
    list_ascii_of_string (pretty n) = ds
    /\ ds <> [] /\ forallb Identifiers.is_digit ds = true /\ IdentifierDigits.parse_from 0 ds = n.
Proof.
  unfold pretty, pretty_N. destruct (decide (n = 0%N)) as [->|Hn].
  - exists ["0"%char]. repeat split. discriminate.
  - destruct (pretty_N_go_digits n "") as (ds & Hds & Hall & Hparse & Hne).
    exists ds. cbn [list_ascii_of_string] in Hds. rewrite app_nil_r in Hds.
    split; [exact Hds|]. split; [apply Hne; lia|]. split; [exact Hall|].
    rewrite Hparse. lia.
Qed.













Module BookingProofs.
Import Bookings.

Lemma permittedb_spec from to : permittedb from to = true <-> permitted from to.
Proof.
  unfold permittedb, permitted.
  rewrite !orb_true_iff, !andb_true_iff, !orb_true_iff, !String.eqb_eq.
  tauto.
Qed.

(** The table lookup of the workflow controller computes [permittedb]. *)
Lemma workflow_table from to :
  match obj_get Workflow.allowedTransitions from with
  | Some allowed => includes allowed to
  | None => false
  end = permittedb from to.
Proof.
  unfold permittedb.
  change Workflow.allowedTransitions with
    [ ("pending", ["inspecting"; "cancelled"]);
      ("inspecting", ["working"; "cancelled"]);
      ("working", ["completed"; "cancelled"]);
      ("completed", []);
      ("cancelled", @nil string) ].
  cbn [obj_get].
  rewrite !(String.eqb_sym from).
  destruct (String.eqb_spec "pending" from) as [<-|_]; [simpl; now rewrite !orb_false_r|].
  destruct (String.eqb_spec "inspecting" from) as [<-|_]; [simpl; now rewrite !orb_false_r|].
  destruct (String.eqb_spec "working" from) as [<-|_]; [simpl; now rewrite !orb_false_r|].
  destruct (String.eqb_spec "completed" from) as [<-|_]; [reflexivity|].
  destruct (String.eqb_spec "cancelled" from) as [<-|_]; reflexivity.
Qed.

Lemma permitted_valid from to : permitted from to -> includes validStatuses to = true /\ to <> "".
Proof.
  unfold permitted. intros H.
  repeat match goal with
         | H : _ \/ _ |- _ => destruct H
         | H : _ /\ _ |- _ => destruct H
         end; subst; split; (reflexivity || discriminate).
Qed.

(** The workflow controller accepts a status update exactly on the
    transitions of the specification. *)
Lemma workflow_accepts_iff db req now b :
  db !! req_id req = Some b ->
  is_ok (snd (Workflow.updateBookingStatus db req now)) = true <->
  exists s, req_status req = Some s /\ permitted (status b) s.
Proof.
  intros Hb. unfold Workflow.updateBookingStatus.
  destruct (truthy_str (req_status req)) eqn:Ht; cbn [negb].
  - apply truthy_str_Some in Ht as [s [Hs Hne]]. rewrite Hs. cbn [default from_option id].
    destruct (includes validStatuses s) eqn:Hv; cbn [negb].
    + rewrite Hb. pose proof (workflow_table (status b) s) as Htab.
      destruct (obj_get Workflow.allowedTransitions (status b)) as [allowed|].
      * destruct (includes allowed s) eqn:Hin; cbn [negb snd is_ok].
        -- split; [intros _|reflexivity]. exists s. split; [reflexivity|].
           now apply permittedb_spec.
        -- split; [discriminate|]. intros [s' [[= <-] Hp]].
           apply permittedb_spec in Hp. congruence.
      * cbn [snd is_ok]. split; [discriminate|]. intros [s' [[= <-] Hp]].
        apply permittedb_spec in Hp. congruence.
    + cbn [snd is_ok]. split; [discriminate|]. intros [s' [[= <-] Hp]].
      apply permitted_valid in Hp as [Hp _]. congruence.
  - cbn [snd is_ok]. split; [discriminate|]. intros [s [Hs Hp]].
    apply permitted_valid in Hp as [_ Hp].
    assert (truthy_str (req_status req) = true) by (apply truthy_str_Some; eauto).
    congruence.
Qed.

(** An accepted update of the workflow controller sets the status, and
    sets [completedAt] only when the new status is completed. *)
Lemma workflow_accepts_effect db req now b b' :
  db !! req_id req = Some b ->
  snd (Workflow.updateBookingStatus db req now) = Ok b' ->
  req_status req = Some (status b') /\
  fst (Workflow.updateBookingStatus db req now) !! req_id req = Some b' /\
  completedAt b' = (if String.eqb (status b') "completed" then Some now else completedAt b).
Proof.
  intros Hb. unfold Workflow.updateBookingStatus.
  destruct (truthy_str (req_status req)) eqn:Ht; cbn [negb snd]; [|discriminate].
  apply truthy_str_Some in Ht as [s [Hs Hne]]. rewrite Hs. cbn [default from_option id].
  destruct (includes validStatuses s); cbn [negb snd]; [|discriminate].
  rewrite Hb.
  destruct (obj_get Workflow.allowedTransitions (status b)) as [allowed|];
    cbn [snd]; [|discriminate].
  destruct (includes allowed s); cbn [negb snd fst]; [|discriminate].
  intros [= <-]. rewrite lookup_insert_eq.
  destruct (String.eqb s "completed") eqn:Hc; cbn [push_note set_completedAt set_status status completedAt];
    rewrite ?Hc; auto.
Qed.

(** The chain pending -> inspecting -> working -> completed through the
    workflow controller: every step is accepted, and [completedAt] is
    absent until the last step stamps it. *)
Lemma workflow_chain :
  let db0 : gmap nat Booking := {[ 1%nat := Samples.pending_booking ]} in
  let step db s now := Workflow.updateBookingStatus db (mkStatusRequest 1 (Some s) None 7) now in
  let r1 := step db0 "inspecting" 1000%Z in
  let r2 := step (fst r1) "working" 2000%Z in
  let r3 := step (fst r2) "completed" 3000%Z in
  (exists b, snd r1 = Ok b /\ status b = "inspecting" /\ completedAt b = None)
  /\ (exists b, snd r2 = Ok b /\ status b = "working" /\ completedAt b = None)
  /\ (exists b, snd r3 = Ok b /\ status b = "completed" /\ completedAt b = Some 3000%Z).
Proof.
  cbn zeta. repeat split; eexists; (split; [vm_compute; reflexivity|]); split; reflexivity.
Qed.

(** The controller of [bookingController.js] writes any status of the
    list over any current status. *)
Lemma controller_accepts_any db req now b s :
  db !! req_id req = Some b -> req_status req = Some s -> In s validStatuses ->
  exists b', Controller.updateBookingStatus db req now = (<[req_id req := b']> db, Ok b')
             /\ status b' = s.
Proof.
  intros Hb Hs Hin. unfold Controller.updateBookingStatus.
  assert (Ht : truthy_str (req_status req) = true).
  { apply truthy_str_Some. exists s. split; [exact Hs|].
    intros ->. cbn in Hin. intuition discriminate. }
  rewrite Ht, Hs. cbn [negb from_option Datatypes.id].
  apply includes_In in Hin. rewrite Hin, Hb. cbn [negb].
  eexists. split; [reflexivity|].
  destruct (String.eqb s "completed"), (truthy_str (req_note req)); reflexivity.
Qed.

(** [cancelBooking] of the same file does treat completed and cancelled
    as terminal. *)
Lemma controller_cancel_terminal db i b why user now :
  db !! i = Some b -> status b = "completed" \/ status b = "cancelled" ->
  exists e, Controller.cancelBooking db i why user now = (db, Err e).
Proof.
  intros Hb Hterm. unfold Controller.cancelBooking. rewrite Hb.
  destruct Hterm as [-> | ->]; cbn; eauto.
Qed.

(** C1: the status update of [src/backend/controllers/bookingController.js]
    accepts the direct request pending -> working on a pending booking,
    which the workflow controller rejects with the invalid-transition
    error: the transition table is not enforced by every status-update
    operation of the repository. *)
Theorem controller_accepts_pending_to_working :
  let db : gmap nat Booking := {[ 1%nat := Samples.pending_booking ]} in
  let req := mkStatusRequest 1 (Some "working") None 7 in
  snd (Controller.updateBookingStatus db req 1000)
    = Ok (set_status "working" Samples.pending_booking)
  /\ fst (Controller.updateBookingStatus db req 1000) !! 1%nat
    = Some (set_status "working" Samples.pending_booking)
  /\ snd (Workflow.updateBookingStatus db req 1000)
    = Err (CustomError "Cannot change status from pending to working" 400)
  /\ ~ permitted "pending" "working".
Proof.
  repeat split; try (vm_compute; reflexivity).
  intros H. apply permittedb_spec in H. vm_compute in H. discriminate.
Qed.

End BookingProofs.

(** ** Inventory *)

Module InventoryProofs.
Import Inventory.
Local Open Scope Z_scope.

Lemma truthy_num_pos q : 0 < q -> truthy_num (Some q) = true.
Proof. intros H. simpl. apply negb_true_iff, Z.eqb_neq. lia. Qed.








(** *** The bulk update *)

(** A line that fails leaves the collection as it was. *)
Lemma bulk_step_error_keeps db line db' e :
  bulk_step db line = (db', inr e) -> db' = db.
Proof.
  unfold bulk_step.
  repeat match goal with
         | |- context [if ?c then _ else _] => destruct c
         | |- context [match findOne_itemId ?d ?k with _ => _ end] =>
             destruct (findOne_itemId d k) as [[? ?]|]
         | |- context [match save ?d ?k ?it with _ => _ end] => destruct (save d k it)
         end; intros [= <- _]; reflexivity || discriminate.
Qed.

(** A line that succeeds is written: the entry pushed on [results]
    reports the stock that the collection now holds for the item. *)
Lemma bulk_step_result_commits db line db' r :
  bulk_step db line = (db', inl r) ->
  exists k item,
    findOne_itemId db (toUpperCase (default "" (su_itemId line))) = Some (k, item) /\
    db' = <[k := set_currentStock (r_newStock r) item]> db /\
    0 <= r_newStock r /\
    r_newStock r =
      (if String.eqb (default "" (su_operation line)) "add"
       then currentStock item + default 0 (su_quantity line)
       else currentStock item - default 0 (su_quantity line)).
Proof.
  unfold bulk_step.
  destruct (negb (truthy_str (su_itemId line)) || negb (truthy_num (su_quantity line))
            || negb (truthy_str (su_operation line))); [discriminate|].
  destruct (negb (includes ["add"; "subtract"] (default "" (su_operation line))));
    [discriminate|].
  destruct (findOne_itemId db (toUpperCase (default "" (su_itemId line))))
    as [[k item]|]; [|discriminate].
  destruct (String.eqb (default "" (su_operation line)) "subtract"
            && (currentStock item <? default 0 (su_quantity line))); [discriminate|].
  unfold save.
  destruct (String.eqb (default "" (su_operation line)) "add");
    cbn [set_currentStock currentStock itemId name minimumStock].
  - destruct (currentStock item + default 0 (su_quantity line) <? 0) eqn:Hneg;
      [discriminate|].
    intros [= <- <-]. exists k, item. cbn [r_newStock].
    repeat split. now apply Z.ltb_ge.
  - destruct (currentStock item - default 0 (su_quantity line) <? 0) eqn:Hneg;
      [discriminate|].
    intros [= <- <-]. exists k, item. cbn [r_newStock].
    repeat split. now apply Z.ltb_ge.
Qed.

(** Every line of a loop that ends is in exactly one of the two arrays. *)
Lemma bulk_loop_counts items : forall db results errors db' results' errors',
  bulk_loop db items results errors = (db', Ok (results', errors')) ->
  (length results' + length errors' = length results + length errors + length items)%nat.
Proof.
  induction items as [|[line|] rest IH]; intros db results errors db' results' errors'.
  - cbn [bulk_loop]. intros [= <- <- <-]. cbn [length]. lia.
  - cbn [bulk_loop]. destruct (bulk_step db line) as [db1 [r|e]]; intros Hloop;
      apply IH in Hloop; rewrite Hloop, length_app; cbn [length]; lia.
  - cbn [bulk_loop]. discriminate.
Qed.

(** A loop over objects ends. *)
Lemma bulk_loop_objects lines : forall db results errors,
  exists db' results' errors',
    bulk_loop db (map Some lines) results errors = (db', Ok (results', errors')).
Proof.
  induction lines as [|line rest IH]; intros db results errors; cbn [map bulk_loop].
  - eauto.
  - destruct (bulk_step db line) as [db1 [r|e]]; apply IH.
Qed.

(** The loop stops at a [null], with the lines before it committed. *)
Lemma bulk_loop_null before : forall after db results errors,
  exists db' results' errors',
    bulk_loop db (map Some before) results errors = (db', Ok (results', errors'))
    /\ bulk_loop db (map Some before ++ None :: after) results errors
       = (db', Err (TypeError "Cannot read properties of null (reading 'itemId')")).
Proof.
  induction before as [|line rest IH]; intros after db results errors;
    cbn [map app bulk_loop].
  - eexists _, _, _. split; reflexivity.
  - destruct (bulk_step db line) as [db1 [r|e]]; apply IH.
Qed.

(** The [errors] property of the response body is defined twice in the
    object initialiser; the body carries the array, whatever the lines. *)
Lemma bulk_response_errors results errors :
  obj_get (bulk_response results errors) "processed"
    = Some (JNum (Z.of_nat (length results)))
  /\ obj_get (bulk_response results errors) "errors"
    = Some (JArr (map error_json errors)).
Proof. split; reflexivity. Qed.

(** The bulk loop has no check that the quantity is positive, which
    [updateStock] has: subtracting -5 is committed and adds 5. *)
Lemma bulk_step_negative_quantity :
  let line := mkStockUpdate (Some "ITM00002") (Some (-5)) (Some "subtract") None in
  fst (bulk_step Samples.stock line) !! 2%nat = Some (set_currentStock 15 Samples.filter)
  /\ snd (updateStock Samples.stock 2 (mkStockRequest (Some (-5)) (Some "subtract") None) 0)
     = Err (CustomError "Quantity must be positive" 400).
Proof. split; vm_compute; reflexivity. Qed.

(** C8: on the scenario of the specification (add 5 to A, subtract 999
    from B whose stock is 10) the update of A is committed, B is
    unchanged and reported, and [processed] is 1; but the [errors]
    property of the response is the array of error entries, not the
    count 1: the second definition of the key in the object initialiser
    replaces [errors: errors.length]. *)
Theorem bulk_errors_property_is_array :
  match bulkUpdateStock Samples.stock (Some Samples.bulk_lines) with
  | (db', Ok body) =>
      db' !! 1%nat = Some (set_currentStock 7 Samples.oil)
      /\ db' !! 2%nat = Some Samples.filter
      /\ obj_get body "processed" = Some (JNum 1)
      /\ obj_get body "errors"
         = Some (JArr [JObj [("itemId", JStr "ITM00002");
                             ("error", JStr "Insufficient stock")]])
      /\ obj_get body "errors" <> Some (JNum 1)
  | (_, Err _) => False
  end.
Proof. vm_compute. repeat split; discriminate. Qed.

End InventoryProofs.

(** ** Goods requests *)

Module GoodsRequestProofs.
Import GoodsRequests.
Local Open Scope Z_scope.

(** The loop passes the lines whose item is stored and covers the
    quantity. *)
Lemma check_stock_covered (inv : gmap nat Inventory.InventoryItem) before rest :
  (forall r, In r before ->
             exists it, inv !! item r = Some it /\ quantity r <= Inventory.currentStock it) ->
  check_stock (map (fun r => (r, inv !! item r)) before ++ rest) = check_stock rest.
Proof.
  induction before as [|r before IH]; intros Hbefore; [reflexivity|].
  cbn [map app check_stock].
  destruct (Hbefore r (or_introl eq_refl)) as (it & -> & Hq).
  destruct (Z.ltb_spec (Inventory.currentStock it) (quantity r)); [lia|].
  apply IH. intros r' Hr'. apply Hbefore. now right.
Qed.



(** C4: releasing never touches the inventory; it succeeds exactly for an
    authorised caller on a stored request whose status is approved, and
    then stores the request with status released and nothing else
    changed. *)
Theorem releaseGoods_keeps_stock db id caller :
  inventory (fst (releaseGoods db id caller)) = inventory db
  /\ (forall g', snd (releaseGoods db id caller) = Ok g' <->
                 authorized db caller = true /\
                 exists g, goodsRequests db !! id = Some g /\ status g = "approved"
                           /\ g' = release g)
  /\ (forall g', snd (releaseGoods db id caller) = Ok g' ->
                 status g' = "released" /\
                 goodsRequests (fst (releaseGoods db id caller)) !! id = Some g' /\
                 forall k, k <> id ->
                   goodsRequests (fst (releaseGoods db id caller)) !! k
                   = goodsRequests db !! k).
Proof.
  unfold releaseGoods.
  destruct (authorized db caller) eqn:Hauth; cbn [negb].
  2:{ cbn [fst snd]. repeat split; try discriminate. intros [? _]. discriminate. }
  destruct (goodsRequests db !! id) as [g|] eqn:Hg.
  2:{ cbn [fst snd]. repeat split; try discriminate. intros [_ [g [? _]]]. discriminate. }
  destruct (String.eqb_spec (status g) "approved") as [Happ|Hne]; cbn [negb].
  2:{ cbn [fst snd]. repeat split; try discriminate.
      intros [_ [g0 [[= <-] [? _]]]]. contradiction. }
  unfold save. cbn [release status includes statusEnum existsb String.eqb Ascii.eqb
                      Bool.eqb orb fst snd set_goodsRequests inventory goodsRequests].
  split; [reflexivity|]. split.
  - intros g'. split.
    + intros [= <-]. split; [reflexivity|]. exists g. auto.
    + intros [_ [g0 [[= <-] [_ ->]]]]. reflexivity.
  - intros g' [= <-]. split; [reflexivity|]. split.
    + apply lookup_insert_eq.
    + intros k Hk. now apply lookup_insert_ne.
Qed.

Lemma releaseGoods_keeps_stock_witness :
  snd (releaseGoods Samples.goods_db 2 Samples.manager)
    = Ok (release Samples.approved_request)
  /\ status (release Samples.approved_request) = "released"
  /\ inventory (fst (releaseGoods Samples.goods_db 2 Samples.manager)) !! 3%nat
     = Some Samples.brake_pads.
Proof.
  destruct (releaseGoods_keeps_stock Samples.goods_db 2%nat Samples.manager)
    as [Hinv [Hiff Heff]].
  assert (Hok : snd (releaseGoods Samples.goods_db 2 Samples.manager)
                = Ok (release Samples.approved_request)).
  { apply Hiff. split; [reflexivity|]. exists Samples.approved_request.
    repeat split. }
  split; [exact Hok|]. split; [exact (proj1 (Heff _ Hok))|].
  rewrite Hinv. reflexivity.
Defined.

End GoodsRequestProofs.


(** ** Invoices *)

Module InvoiceProofs.
Import Invoices.
Local Open Scope Z_scope.

(** The paid check of [updateInvoice] passes exactly when every property
    left in the update is one of the three allowed fields. *)
Lemma invalidFields_nil (m : gmap string Value) :
  invalidFields m = [] <-> forall key, is_Some (m !! key) -> In key allowedFields.
Proof.
  unfold invalidFields. split.
  - intros Hnil key [v Hv].
    destruct (includes allowedFields key) eqn:Hinc; [now apply includes_In|].
    assert (Hin : In key (List.filter (fun field => negb (includes allowedFields field))
                                      (map fst (map_to_list m)))).
    { apply filter_In. split; [|now rewrite Hinc].
      apply in_map_iff. exists (key, v). split; [reflexivity|].
      apply list_elem_of_In, elem_of_map_to_list. exact Hv. }
    rewrite Hnil in Hin. destruct Hin.
  - intros Hall.
    destruct (List.filter _ _) as [|key rest] eqn:Hf; [reflexivity|].
    assert (Hin : In key (key :: rest)) by now left.
    rewrite <- Hf in Hin. apply filter_In in Hin as [Hin Hneg].
    apply in_map_iff in Hin as [[k v] [Hk Hin]]. cbn [fst] in Hk. subst k.
    apply list_elem_of_In, elem_of_map_to_list in Hin.
    assert (In key allowedFields) as Hal by (apply Hall; eauto).
    apply includes_In in Hal. rewrite Hal in Hneg. discriminate.
Qed.

Lemma paid_check (m : gmap string Value) :
  (0 <? Z.of_nat (length (invalidFields m))) = false <-> invalidFields m = [].
Proof.
  destruct (invalidFields m); cbn [length]; split; try reflexivity; discriminate.
Qed.

(** An update of a paid invoice is refused when, the protected fields
    dropped, it still names a field outside the allowed three. *)
Lemma paid_update_rejected db id invoice body :
  db !! id = Some invoice -> status invoice = "paid" ->
  (exists key, is_Some (strip_protected body !! key) /\ ~ In key allowedFields) ->
  updateInvoice db id body =
  (db, Err (CustomError
              "Cannot modify paid invoice except payment method, paid date, and notes" 400)).
Proof.
  intros Hi Hpaid [key [Hkey Hnot]]. unfold updateInvoice. rewrite Hi, Hpaid.
  destruct (0 <? Z.of_nat (length (invalidFields (strip_protected body)))) eqn:Hc;
    [reflexivity|].
  apply paid_check in Hc. exfalso. apply Hnot.
  now apply (proj1 (invalidFields_nil _) Hc).
Qed.

Lemma apply_num_absent m key cur : m !! key = None -> apply_num m key cur = Ok cur.
Proof. unfold apply_num. now intros ->. Qed.

Lemma apply_str_absent m key enum cur :
  m !! key = None -> apply_str m key enum cur = Ok cur.
Proof. unfold apply_str. now intros ->. Qed.

Lemma apply_date_absent m key cur : m !! key = None -> apply_date m key cur = Ok cur.
Proof. unfold apply_date. now intros ->. Qed.

Lemma apply_items_absent m cur : m !! "items" = None -> apply_items m cur = Ok cur.
Proof. unfold apply_items. now intros ->. Qed.

Lemma recalculate_absent invoice m : m !! "items" = None -> recalculate invoice m = Ok m.
Proof. unfold recalculate. now intros ->. Qed.

(** An update of a paid invoice that is accepted leaves every field but
    [paymentMethod], [paidAt] and [notes] as it was. *)
Lemma paid_update_frame db id invoice body inv' :
  db !! id = Some invoice -> status invoice = "paid" ->
  snd (updateInvoice db id body) = Ok inv' ->
  (forall key, is_Some (strip_protected body !! key) -> In key allowedFields)
  /\ invoiceId inv' = invoiceId invoice /\ booking inv' = booking invoice
  /\ customer inv' = customer invoice /\ createdBy inv' = createdBy invoice
  /\ items inv' = items invoice /\ laborCharges inv' = laborCharges invoice
  /\ subtotal inv' = subtotal invoice /\ tax inv' = tax invoice
  /\ discount inv' = discount invoice /\ total inv' = total invoice
  /\ status inv' = "paid".
Proof.
  intros Hi Hpaid. unfold updateInvoice. rewrite Hi, Hpaid.
  destruct (0 <? Z.of_nat (length (invalidFields (strip_protected body)))) eqn:Hc;
    [discriminate|].
  apply paid_check in Hc. pose proof (proj1 (invalidFields_nil _) Hc) as Hall.
  assert (Hout : forall key, includes allowedFields key = false ->
                             strip_protected body !! key = None).
  { intros key Hf. destruct (strip_protected body !! key) eqn:Hk; [|reflexivity].
    assert (In key allowedFields) as Hin by (apply Hall; rewrite Hk; eauto).
    apply includes_In in Hin. congruence. }
  cbn [andb]. rewrite andb_false_r.
  rewrite (recalculate_absent _ _ (Hout "items" eq_refl)).
  unfold apply_update.
  rewrite (apply_items_absent _ _ (Hout "items" eq_refl)),
    (apply_num_absent _ _ _ (Hout "laborCharges" eq_refl)),
    (apply_num_absent _ _ _ (Hout "subtotal" eq_refl)),
    (apply_num_absent _ _ _ (Hout "tax" eq_refl)),
    (apply_num_absent _ _ _ (Hout "discount" eq_refl)),
    (apply_num_absent _ _ _ (Hout "total" eq_refl)),
    (apply_str_absent _ _ _ _ (Hout "status" eq_refl)).
  cbn [bind default from_option].
  destruct (apply_str (strip_protected body) "paymentMethod" _ _); cbn [bind snd];
    [|discriminate].
  destruct (apply_date (strip_protected body) "paidAt" _); cbn [bind snd];
    [|discriminate].
  destruct (apply_str (strip_protected body) "notes" _ _); cbn [bind snd];
    [|discriminate].
  intros [= <-].
  cbn [invoiceId booking customer createdBy items laborCharges subtotal tax discount
       total status].
  rewrite Hpaid. repeat split. exact Hall.
Qed.

(** An update that carries only [notes] is accepted, whatever the status
    of the invoice, and changes the notes alone. *)
Lemma notes_only_update db id invoice s :
  db !! id = Some invoice ->
  updateInvoice db id {[ "notes" := VStr s ]} =
  (<[id := set_notes (Some s) invoice]> db, Ok (set_notes (Some s) invoice)).
Proof.
  intros Hi. unfold updateInvoice. rewrite Hi.
  assert (Hne : forall key, key <> "notes" ->
                  ({[ "notes" := VStr s ]} : gmap string Value) !! key = None).
  { intros key Hk. apply lookup_singleton_ne. congruence. }
  assert (Hstrip : strip_protected {[ "notes" := VStr s ]} = {[ "notes" := VStr s ]}).
  { unfold strip_protected.
    rewrite (delete_id _ "invoiceId") by (apply Hne; discriminate).
    rewrite (delete_id _ "booking") by (apply Hne; discriminate).
    rewrite (delete_id _ "customer") by (apply Hne; discriminate).
    rewrite (delete_id _ "createdBy") by (apply Hne; discriminate).
    reflexivity. }
  rewrite Hstrip.
  assert (Hinv : invalidFields ({[ "notes" := VStr s ]} : gmap string Value) = []).
  { unfold invalidFields. rewrite map_to_list_singleton. reflexivity. }
  rewrite Hinv. cbn [length Z.of_nat Z.ltb Z.compare andb].
  rewrite andb_false_r.
  rewrite recalculate_absent by (apply Hne; discriminate).
  unfold apply_update.
  rewrite apply_items_absent by (apply Hne; discriminate).
  rewrite !apply_num_absent by (apply Hne; discriminate).
  rewrite (apply_str_absent _ "status") by (apply Hne; discriminate).
  rewrite (apply_str_absent _ "paymentMethod") by (apply Hne; discriminate).
  rewrite apply_date_absent by (apply Hne; discriminate).
  unfold apply_str. rewrite lookup_singleton_eq.
  cbn [bind default from_option]. reflexivity.
Qed.

(** The status update refuses to leave paid or cancelled. *)
Lemma status_update_terminal db id invoice body now :
  db !! id = Some invoice ->
  status invoice = "paid" \/ status invoice = "cancelled" ->
  b_status body <> Some (status invoice) ->
  exists e, updateInvoiceStatus db id body now = (db, Err e).
Proof.
  intros Hi Hterm Hchange. unfold updateInvoiceStatus.
  destruct (truthy_str (b_status body)) eqn:Ht; cbn [negb orb]; [|eauto].
  apply truthy_str_Some in Ht as [s [Hs _]]. rewrite Hs in *.
  cbn [from_option Datatypes.id].
  destruct (includes statusEnum s); cbn [negb]; [|eauto].
  rewrite Hi.
  assert (Hne : String.eqb s (status invoice) = false)
    by (apply String.eqb_neq; congruence).
  destruct Hterm as [Hp|Hc].
  - rewrite Hp in *. rewrite Hne. cbn. eauto.
  - rewrite Hc in *. rewrite Hne. cbn. eauto.
Qed.

(** C5 fails as stated: an update of a paid invoice that names
    [customer], a field other than the allowed three, is accepted (the
    field is dropped from the update, and the invoice stays as it is). *)
Lemma paid_invoice_update_naming_customer_accepted :
  let body : gmap string Value := {[ "customer" := VStr "64f1c0ffee" ]} in
  status Samples.paid_invoice = "paid"
  /\ body !! "customer" = Some (VStr "64f1c0ffee")
  /\ ~ In "customer" allowedFields
  /\ snd (updateInvoice Samples.invoices 1 body) = Ok Samples.paid_invoice
  /\ fst (updateInvoice Samples.invoices 1 body) !! 1%nat = Some Samples.paid_invoice.
Proof.
  cbn zeta. split; [reflexivity|]. split; [reflexivity|]. split.
  - intros Hin. apply includes_In in Hin. discriminate.
  - split; vm_compute; reflexivity.
Qed.

(** C5 (as amended): the status update rejects every change of status
    away from paid or away from cancelled.  The field update of a paid
    invoice first drops [invoiceId], [booking], [customer] and
    [createdBy] from the update, and rejects the update if a property
    that remains is not [paymentMethod], [paidAt] or [notes]: an update
    with [items] is rejected, an update with only [notes] is accepted
    and changes the notes alone, and every accepted update leaves all
    other fields, the status among them, as they were. *)
Theorem invoice_terminal_updates db id invoice :
  db !! id = Some invoice ->
  (forall body now,
      status invoice = "paid" \/ status invoice = "cancelled" ->
      b_status body <> Some (status invoice) ->
      exists e, updateInvoiceStatus db id body now = (db, Err e))
  /\ (status invoice = "paid" ->
      let rejected :=
        (db, @Err Invoice
               (CustomError
                  "Cannot modify paid invoice except payment method, paid date, and notes"
                  400)) in
      (forall body,
          (exists key, is_Some (strip_protected body !! key) /\ ~ In key allowedFields) ->
          updateInvoice db id body = rejected)
      /\ (forall body, is_Some (body !! "items") -> updateInvoice db id body = rejected)
      /\ (forall s, updateInvoice db id {[ "notes" := VStr s ]}
                    = (<[id := set_notes (Some s) invoice]> db,
                       Ok (set_notes (Some s) invoice)))
      /\ (forall body inv',
            snd (updateInvoice db id body) = Ok inv' ->
            (forall key, is_Some (strip_protected body !! key) -> In key allowedFields)
            /\ invoiceId inv' = invoiceId invoice /\ booking inv' = booking invoice
            /\ customer inv' = customer invoice /\ createdBy inv' = createdBy invoice
            /\ items inv' = items invoice /\ laborCharges inv' = laborCharges invoice
            /\ subtotal inv' = subtotal invoice /\ tax inv' = tax invoice
            /\ discount inv' = discount invoice /\ total inv' = total invoice
            /\ status inv' = "paid")).
Proof.
  intros Hi. split.
  - intros body now. now apply status_update_terminal.
  - intros Hpaid rejected. subst rejected. split; [|split; [|split]].
    + intros body. now apply paid_update_rejected with (invoice := invoice).
    + intros body Hitems.
      apply paid_update_rejected with (invoice := invoice); [assumption..|].
      exists "items". split.
      * unfold strip_protected. now rewrite !lookup_delete_ne by discriminate.
      * intros Hin. apply includes_In in Hin. discriminate.
    + intros s. now apply notes_only_update.
    + intros body inv'. now apply paid_update_frame.
Qed.

Lemma invoice_terminal_updates_witness :
  Samples.invoices !! 1%nat = Some Samples.paid_invoice
  /\ status Samples.paid_invoice = "paid"
  /\ (exists e, updateInvoiceStatus Samples.invoices 1
                   (mkStatusBody (Some "draft") None None) 7000
                 = (Samples.invoices, Err e))
  /\ snd (updateInvoice Samples.invoices 1 {[ "items" := VItems [] ]})
     = Err (CustomError
              "Cannot modify paid invoice except payment method, paid date, and notes" 400)
  /\ snd (updateInvoice Samples.invoices 1 {[ "notes" := VStr "receipt sent" ]})
     = Ok (set_notes (Some "receipt sent") Samples.paid_invoice).
Proof.
  assert (H1 : Samples.invoices !! 1%nat = Some Samples.paid_invoice) by reflexivity.
  assert (H2 : status Samples.paid_invoice = "paid") by reflexivity.
  destruct (invoice_terminal_updates Samples.invoices 1%nat Samples.paid_invoice H1)
    as [Hstatus Hfields].
  destruct (Hfields H2) as [_ [Hitems [Hnotes _]]].
  split; [exact H1|]. split; [exact H2|]. split; [|split].
  - apply Hstatus; [now left|]. discriminate.
  - rewrite Hitems; [reflexivity|]. rewrite lookup_singleton_eq. eauto.
  - rewrite Hnotes. reflexivity.
Defined.

End InvoiceProofs.

(** ** Jobs *)

Module JobProofs.
Import Jobs.
Local Open Scope Z_scope.

Lemma transition_allowed_spec from to :
  transition_allowed from to = true <-> technician_may from to.
Proof.
  unfold transition_allowed, technician_may.
  change allowedTransitions with
    [ ("pending", ["working"]);
      ("working", ["completed"; "on_hold"]);
      ("on_hold", ["working"]) ].
  cbn [obj_get].
  destruct (String.eqb_spec "pending" from) as [<-|Hp].
  { cbn [includes existsb]. rewrite orb_false_r, String.eqb_eq.
    split; [intros ->; left; auto|].
    intros [[_ ->]|[[? _]|[? _]]]; [reflexivity|discriminate..]. }
  destruct (String.eqb_spec "working" from) as [<-|Hw].
  { cbn [includes existsb]. rewrite orb_false_r, orb_true_iff, !String.eqb_eq.
    split; [intros H; right; left; auto|].
    intros [[? _]|[[_ H]|[? _]]]; [discriminate|exact H|discriminate]. }
  destruct (String.eqb_spec "on_hold" from) as [<-|Ho].
  { cbn [includes existsb]. rewrite orb_false_r, String.eqb_eq.
    split; [intros ->; right; right; auto|].
    intros [[? _]|[[? _]|[_ ->]]]; [discriminate..|reflexivity]. }
  split; [discriminate|].
  intros [[? _]|[[? _]|[? _]]]; congruence.
Qed.

Lemma technician_may_valid from to : technician_may from to -> includes statusEnum to = true.
Proof.
  intros [[_ ->]|[[_ [->| ->]]|[_ ->]]]; reflexivity.
Qed.

(** [updateJobStatus] by cases: the two technician checks, the enum
    validator, and the write. *)
Lemma updateJobStatus_cases db i job body caller now :
  db !! i = Some job ->
  updateJobStatus db i body caller now =
  if String.eqb (role caller) "technician" && negb (isAssigned job (userId caller)) then
    (db, Err (CustomError "Access denied. Job not assigned to you" 403))
  else if String.eqb (role caller) "technician"
          && negb (transition_allowed (status job) (b_status body)) then
    (db, Err (CustomError ("Invalid status transition from " +:+ status job +:+ " to "
                           +:+ b_status body) 400))
  else if negb (includes statusEnum (b_status body)) then
    (db, Err (ValidationError "status"))
  else (<[i := saved job body now]> db, Ok (saved job body now)).
Proof.
  intros Hjob. unfold updateJobStatus, save, saved. rewrite Hjob.
  destruct (String.eqb (role caller) "technician"); cbn [andb].
  - destruct (isAssigned job (userId caller)); cbn [negb]; [|reflexivity].
    destruct (transition_allowed (status job) (b_status body)); cbn [negb]; [|reflexivity].
    destruct (truthy_str (b_notes body)); cbn [status set_status set_notes];
      destruct (includes statusEnum (b_status body)); reflexivity.
  - destruct (truthy_str (b_notes body)); cbn [status set_status set_notes];
      destruct (includes statusEnum (b_status body)); reflexivity.
Qed.

Lemma computeLabourCost_fields j :
  status (computeLabourCost j) = status j
  /\ startedAt (computeLabourCost j) = startedAt j
  /\ completedAt (computeLabourCost j) = completedAt j
  /\ actualHours (computeLabourCost j) = actualHours j.
Proof. unfold computeLabourCost. destruct (_ && _); repeat split. Qed.

Lemma computeActualHours_fields j :
  status (computeActualHours j) = status j
  /\ startedAt (computeActualHours j) = startedAt j
  /\ completedAt (computeActualHours j) = completedAt j
  /\ actualHours (computeActualHours j)
     = match workLog j with [] => actualHours j | _ :: _ => sum_hours (workLog j) end.
Proof. unfold computeActualHours. destruct (workLog j); repeat split. Qed.

Lemma stampTimestamps_fields m now j :
  status (stampTimestamps m now j) = status j
  /\ workLog (stampTimestamps m now j) = workLog j
  /\ actualHours (stampTimestamps m now j) = actualHours j.
Proof.
  unfold stampTimestamps.
  destruct m; [|repeat split].
  destruct (_ && _); [repeat split|]. destruct (_ && _); repeat split.
Qed.

Lemma preSave_status m now j : status (preSave m now j) = status j.
Proof.
  unfold preSave.
  rewrite (proj1 (computeLabourCost_fields _)), (proj1 (computeActualHours_fields _)).
  apply stampTimestamps_fields.
Qed.

Lemma preSave_actualHours m now j :
  actualHours (preSave m now j)
  = match workLog j with [] => actualHours j | _ :: _ => sum_hours (workLog j) end.
Proof.
  unfold preSave.
  destruct (computeLabourCost_fields (computeActualHours (stampTimestamps m now j)))
    as (_ & _ & _ & ->).
  destruct (computeActualHours_fields (stampTimestamps m now j)) as (_ & _ & _ & ->).
  destruct (stampTimestamps_fields m now j) as (_ & -> & ->). reflexivity.
Qed.

Lemma preSave_startedAt m now j :
  startedAt (preSave m now j) = startedAt (stampTimestamps m now j).
Proof.
  unfold preSave.
  destruct (computeLabourCost_fields (computeActualHours (stampTimestamps m now j)))
    as (_ & -> & _).
  now destruct (computeActualHours_fields (stampTimestamps m now j)) as (_ & -> & _).
Qed.

Lemma preSave_completedAt m now j :
  completedAt (preSave m now j) = completedAt (stampTimestamps m now j).
Proof.
  unfold preSave.
  destruct (computeLabourCost_fields (computeActualHours (stampTimestamps m now j)))
    as (_ & _ & -> & _).
  now destruct (computeActualHours_fields (stampTimestamps m now j)) as (_ & _ & -> & _).
Qed.

Lemma saved_status job body now : status (saved job body now) = b_status body.
Proof.
  unfold saved. rewrite preSave_status. now destruct (truthy_str (b_notes body)).
Qed.

Lemma isAssigned_ObjectId job n : isAssigned job (ObjectId n) = false.
Proof.
  unfold isAssigned. induction (assignedLabourers job) as [|a l IH]; [reflexivity|exact IH].
Qed.

Lemma isAssigned_IdString job n :
  isAssigned job (IdString n) = true
  <-> exists assignment, In assignment (assignedLabourers job) /\ labourer assignment = n.
Proof.
  unfold isAssigned. rewrite existsb_exists. split.
  - intros (a & Hin & Heq). exists a. split; [exact Hin|]. now apply Nat.eqb_eq in Heq.
  - intros (a & Hin & Heq). exists a. split; [exact Hin|]. now apply Nat.eqb_eq.
Qed.

(** C10: the handler means to hold a technician to the jobs assigned to
    them and to the transition table, but its assignment test compares
    the text of the stored labourer with [req.user.userId], which
    [authenticate], the one middleware before the handler, sets to an
    ObjectId.  So every status update of a technician on a stored job is
    refused with 403, whatever the assignment and the transition; nothing
    is written.  Were the identifier the string
    of the same id, the update would be accepted exactly when the
    technician is among the assigned labourers and the transition is one
    of pending->working, working->completed, working->on_hold,
    on_hold->working.  For a caller of any other role every status of the
    schema is accepted from every current status, completed and cancelled
    included, and the job is stored with the requested status. *)
Theorem updateJobStatus_refuses_every_technician db i job body n now :
  db !! i = Some job ->
  (forall verify accounts authHeader t u,
      Auth.authenticate verify accounts authHeader t = Ok u ->
      exists m, Auth.ru_userId u = ObjectId m)
  /\ updateJobStatus db i body (mkCaller (ObjectId n) "technician") now
     = (db, Err (CustomError "Access denied. Job not assigned to you" 403))
  /\ (is_ok (snd (updateJobStatus db i body (mkCaller (IdString n) "technician") now)) = true
      <-> (exists assignment,
              In assignment (assignedLabourers job) /\ labourer assignment = n)
          /\ technician_may (status job) (b_status body))
  /\ (forall caller,
        role caller <> "technician" ->
        In (b_status body) statusEnum ->
        exists job',
          updateJobStatus db i body caller now = (<[i := job']> db, Ok job')
          /\ status job' = b_status body).
Proof.
  intros Hjob. split; [|split; [|split]].
  - apply authenticate_userId.
  - rewrite (updateJobStatus_cases db i job body _ now Hjob). cbn [role userId].
    now rewrite isAssigned_ObjectId.
  - rewrite (updateJobStatus_cases db i job body _ now Hjob). cbn [role userId].
    rewrite <- isAssigned_IdString.
    change ("technician" =? "technician")%string with true. cbn [andb].
    destruct (isAssigned job (IdString n)); cbn [negb snd is_ok].
    2:{ split; [discriminate|]. intros [? _]. discriminate. }
    destruct (transition_allowed (status job) (b_status body)) eqn:Ht; cbn [negb snd is_ok].
    + apply transition_allowed_spec in Ht.
      rewrite (technician_may_valid _ _ Ht). cbn [negb snd is_ok]. tauto.
    + split; [discriminate|]. intros [_ Hmay].
      apply transition_allowed_spec in Hmay. congruence.
  - intros caller Hrole Hvalid.
    rewrite (updateJobStatus_cases db i job body caller now Hjob).
    apply String.eqb_neq in Hrole. rewrite Hrole. cbn [andb].
    apply includes_In in Hvalid. rewrite Hvalid. cbn [negb].
    exists (saved job body now). split; [reflexivity|]. apply saved_status.
Qed.

Lemma updateJobStatus_refuses_every_technician_witness :
  Samples.jobs !! 2%nat = Some Samples.fresh_job
  /\ In (mkAssignment 8 50 0%Q) (assignedLabourers Samples.fresh_job)
  /\ technician_may (status Samples.fresh_job) "working"
  /\ updateJobStatus Samples.jobs 2 (mkStatusBody "working" None)
                     (mkCaller (ObjectId 8) "technician") 900
     = (Samples.jobs, Err (CustomError "Access denied. Job not assigned to you" 403)).
Proof.
  assert (H1 : Samples.jobs !! 2%nat = Some Samples.fresh_job) by reflexivity.
  split; [exact H1|]. split; [left; reflexivity|]. split; [left; split; reflexivity|].
  exact (proj1 (proj2 (updateJobStatus_refuses_every_technician
                         Samples.jobs 2%nat Samples.fresh_job (mkStatusBody "working" None)
                         8%nat 900 H1))).
Defined.

(** What the hook stamps on the document that an accepted update writes. *)
Lemma saved_stamps job body now :
  (status job <> "working" -> b_status body = "working" -> startedAt job = None ->
   startedAt (saved job body now) = Some now)
  /\ (status job <> "completed" -> b_status body = "completed" ->
      completedAt (saved job body now) = Some (default now (completedAt job)))
  /\ (workLog job <> [] -> actualHours (saved job body now) = sum_hours (workLog job))
  /\ (workLog job = [] -> actualHours (saved job body now) = actualHours job).
Proof.
  unfold saved.
  split; [|split; [|split]].
  - intros Hne Hw Hnone. rewrite preSave_startedAt, Hw.
    apply String.eqb_neq in Hne. rewrite Hne. unfold stampTimestamps.
    destruct (truthy_str (b_notes body));
      cbn [negb status set_status set_notes startedAt String.eqb Ascii.eqb Bool.eqb andb];
      rewrite Hnone; reflexivity.
  - intros Hne Hc. rewrite preSave_completedAt, Hc.
    apply String.eqb_neq in Hne. rewrite Hne. unfold stampTimestamps.
    destruct (truthy_str (b_notes body));
      cbn [negb status set_status set_notes startedAt completedAt String.eqb Ascii.eqb
           Bool.eqb andb];
      destruct (completedAt job) eqn:Hdone; cbn; rewrite ?Hdone; reflexivity.
  - intros Hlog. rewrite preSave_actualHours.
    destruct (truthy_str (b_notes body)); cbn [workLog set_status set_notes];
      destruct (workLog job); [contradiction|reflexivity|contradiction|reflexivity].
  - intros Hlog. rewrite preSave_actualHours.
    destruct (truthy_str (b_notes body)); cbn [workLog set_status set_notes actualHours];
      rewrite Hlog; reflexivity.
Qed.

(** C6 fails as stated: a manager completes, at 900, a job that
    was completed once before (at 200) and reopened, and whose five
    recorded hours have no work log behind them.  The update is accepted
    and the job is completed, but [completedAt] stays 200 and
    [actualHours] stays 5, not the sum (0) of the work-log hours. *)
Lemma reopened_job_completed_again :
  let r := updateJobStatus Samples.jobs 1 (mkStatusBody "completed" None)
                           (mkCaller 5 "manager") 900 in
  Samples.jobs !! 1%nat = Some Samples.reopened_job
  /\ status Samples.reopened_job <> "completed"
  /\ exists job', snd r = Ok job'
                 /\ status job' = "completed"
                 /\ completedAt job' = Some 200
                 /\ completedAt job' <> Some 900
                 /\ actualHours job' = 5%Q
                 /\ ~ (actualHours job' == sum_hours (workLog job'))%Q.
Proof.
  cbn zeta. split; [reflexivity|]. split; [discriminate|].
  eexists. split; [vm_compute; reflexivity|].
  split; [reflexivity|]. split; [reflexivity|]. split; [discriminate|].
  split; [reflexivity|]. vm_compute. discriminate.
Qed.

(** C6 (as amended): an accepted status update stamps [startedAt] when
    the job enters working with no [startedAt] recorded, stamps
    [completedAt] when the job enters completed with no [completedAt]
    recorded and keeps a recorded one, and sets [actualHours] to the sum
    of the work-log hours when the work log is not empty, leaving it as
    recorded otherwise.  The update is accepted for every caller that is
    not a technician, when the status is one of the schema. *)
Theorem updateJobStatus_stamps db i job body caller now :
  db !! i = Some job ->
  (role caller <> "technician" ->
   In (b_status body) statusEnum ->
   is_ok (snd (updateJobStatus db i body caller now)) = true)
  /\ (forall job',
        snd (updateJobStatus db i body caller now) = Ok job' ->
        fst (updateJobStatus db i body caller now) !! i = Some job'
        /\ (status job <> "working" -> b_status body = "working" ->
            startedAt job = None -> startedAt job' = Some now)
        /\ (status job <> "completed" -> b_status body = "completed" ->
            completedAt job = None -> completedAt job' = Some now)
        /\ (status job <> "completed" -> b_status body = "completed" ->
            forall t, completedAt job = Some t -> completedAt job' = Some t)
        /\ (workLog job <> [] -> actualHours job' = sum_hours (workLog job))
        /\ (workLog job = [] -> actualHours job' = actualHours job)).
Proof.
  intros Hjob. rewrite (updateJobStatus_cases db i job body caller now Hjob).
  split.
  - intros Hrole Hvalid. apply includes_In in Hvalid. rewrite Hvalid. cbn [negb].
    apply String.eqb_neq in Hrole. rewrite Hrole. reflexivity.
  - intros job'.
    repeat match goal with
           | |- context [if ?c then _ else _] => destruct c
           end; cbn [snd fst]; try discriminate.
    intros [= <-].
    destruct (saved_stamps job body now) as (Hstart & Hdone & Hsum & Hkeep).
    split; [apply lookup_insert_eq|].
    split; [exact Hstart|].
    split; [intros Hne Hc Hnone; rewrite (Hdone Hne Hc), Hnone; reflexivity|].
    split; [intros Hne Hc t Ht; rewrite (Hdone Hne Hc), Ht; reflexivity|].
    split; assumption.
Qed.

Lemma updateJobStatus_stamps_witness :
  Samples.jobs !! 2%nat = Some Samples.fresh_job
  /\ role (mkCaller (ObjectId 5) "manager") <> "technician"
  /\ In "working" statusEnum
  /\ exists job',
       snd (updateJobStatus Samples.jobs 2 (mkStatusBody "working" None)
                            (mkCaller (ObjectId 5) "manager") 900) = Ok job'
       /\ startedAt job' = Some 900
       /\ actualHours job' = sum_hours (workLog Samples.fresh_job)
       /\ actualHours job' = (3 # 2)%Q.
Proof.
  assert (H1 : Samples.jobs !! 2%nat = Some Samples.fresh_job) by reflexivity.
  assert (H2 : role (mkCaller (ObjectId 5) "manager") <> "technician") by discriminate.
  assert (H3 : In "working" statusEnum) by (right; left; reflexivity).
  split; [exact H1|]. split; [exact H2|]. split; [exact H3|].
  destruct (updateJobStatus_stamps Samples.jobs 2%nat Samples.fresh_job
              (mkStatusBody "working" None) (mkCaller (ObjectId 5) "manager") 900 H1)
    as [Hok Heff].
  specialize (Hok H2 H3).
  destruct (snd (updateJobStatus Samples.jobs 2 (mkStatusBody "working" None)
                                 (mkCaller (ObjectId 5) "manager") 900)) as [job'|e] eqn:Hres;
    [|discriminate Hok].
  exists job'. split; [reflexivity|].
  destruct (Heff job' eq_refl) as (_ & Hstart & _ & _ & Hsum & _).
  split; [apply Hstart; [discriminate|reflexivity|reflexivity]|].
  assert (Hhours : actualHours job' = sum_hours (workLog Samples.fresh_job))
    by (apply Hsum; discriminate).
  split; [exact Hhours|]. rewrite Hhours. reflexivity.
Defined.

End JobProofs.

(** ** Identifier generation *)

Module IdentifierProofs.
Import Identifiers.

Lemma ltb_lt a b : String.ltb a b = true <-> String_as_OT.lt a b.
Proof.
  unfold String.ltb. rewrite <- String_as_OT.cmp_lt. unfold String_as_OT.cmp.
  destruct (String.compare a b); split; congruence.
Qed.

Lemma ltb_irrefl a : String.ltb a a = false.
Proof.
  destruct (String.ltb a a) eqn:H; [|reflexivity].
  apply ltb_lt in H. apply String_as_OT.lt_not_eq in H.
  exfalso. apply H. reflexivity.
Qed.

(** The fold of [maximum] returns an element that no element exceeds. *)
Lemma maximum_from ids : forall acc m,
  fold_left (fun acc id =>
               match acc with
               | None => Some id
               | Some m => if String.ltb m id then Some id else Some m
               end) ids (Some acc) = Some m ->
  (m = acc \/ In m ids) /\ String.ltb m acc = false
  /\ forall id, In id ids -> String.ltb m id = false.
Proof.
  induction ids as [|x rest IH]; intros acc m; cbn [fold_left].
  - intros [= <-]. split; [now left|]. split; [apply ltb_irrefl|intros ? []].
  - destruct (String.ltb acc x) eqn:Hlt; intros Hfold; apply IH in Hfold
      as (Hin & Hacc & Hall).
    + split; [right; destruct Hin as [->|Hin]; [now left|now right]|].
      assert (Hm : String.ltb m acc = false).
      { destruct (String.ltb m acc) eqn:Hma; [|reflexivity].
        apply ltb_lt in Hma, Hlt.
        pose proof (String_as_OT.lt_trans _ _ _ Hma Hlt) as Hmx.
        apply ltb_lt in Hmx. congruence. }
      split; [exact Hm|]. intros id [<-|Hid]; [exact Hacc|now apply Hall].
    + split; [destruct Hin as [->|Hin]; [now left|right; now right]|].
      split; [exact Hacc|]. intros id [<-|Hid]; [|now apply Hall].
      destruct (String.ltb m x) eqn:Hmx; [|reflexivity].
      destruct Hin as [->|Hin]; [congruence|].
      destruct (String.ltb acc m) eqn:Ham.
      * apply ltb_lt in Ham, Hmx.
        pose proof (String_as_OT.lt_trans _ _ _ Ham Hmx) as Hax.
        apply ltb_lt in Hax. congruence.
      * (* neither acc < m nor m < acc: they are equal *)
        assert (m = acc) as ->; [|congruence].
        unfold String.ltb in Ham, Hacc.
        pose proof (String.compare_antisym acc m) as Hanti.
        destruct (String.compare acc m) eqn:Hc1; try discriminate;
          destruct (String.compare m acc) eqn:Hc2; try discriminate.
        now apply String.compare_eq_iff in Hc2.
Qed.

Lemma maximum_spec ids :
  match maximum ids with
  | None => ids = []
  | Some m => In m ids /\ forall id, In id ids -> String.ltb m id = false
  end.
Proof.
  unfold maximum. destruct ids as [|x rest]; [reflexivity|]. cbn [fold_left].
  destruct (fold_left _ rest (Some x)) as [m|] eqn:Hfold.
  - apply maximum_from in Hfold as (Hin & Hacc & Hall).
    split; [destruct Hin as [->|Hin]; [now left|now right]|].
    intros id [<-|Hid]; [exact Hacc|now apply Hall].
  - exfalso. revert Hfold. generalize x. clear x.
    induction rest as [|y rest IH]; intros x; cbn [fold_left]; [discriminate|].
    destruct (String.ltb x y); apply IH.
Qed.

(** What the generators compute, for every prefix and collection: with
    no identifier that starts with the prefix the number is 1; otherwise
    it is taken from the greatest identifier that starts with the
    prefix. *)
Lemma nextId_spec prefix ids :
  ((forall id, In id ids -> String.prefix prefix id = false)
   /\ nextId prefix ids = prefix +:+ "00001")
  \/ (exists last,
        In last ids /\ String.prefix prefix last = true
        /\ (forall id, In id ids -> String.prefix prefix id = true ->
                       String.ltb last id = false)
        /\ nextId prefix ids
           = prefix +:+ padStart 5 "0"%char
                                 (pretty (match trailing_digits last with
                                          | Some ds => (parseInt ds + 1)%N
                                          | None => 1%N
                                          end))).
Proof.
  unfold nextId, findLast.
  pose proof (maximum_spec (List.filter (String.prefix prefix) ids)) as Hmax.
  destruct (maximum (List.filter (String.prefix prefix) ids)) as [last|].
  - right. destruct Hmax as [Hin Hall]. apply filter_In in Hin as [Hin Hpre].
    exists last. split; [exact Hin|]. split; [exact Hpre|]. split.
    + intros id Hid Hp. apply Hall. apply filter_In. auto.
    + unfold nextNumber. destruct (String.eqb_spec last "") as [->|_]; reflexivity.
  - left. split; [|reflexivity].
    intros id Hid. destruct (String.prefix prefix id) eqn:Hp; [|reflexivity].
    assert (In id (List.filter (String.prefix prefix) ids)) as Hf
        by (apply filter_In; auto).
    rewrite Hmax in Hf. destruct Hf.
Qed.

(** C7: with the customer [C00041] and the cashier [CS00001] in the user
    collection, the identifiers of customers are [C00041] alone, its
    numeric suffix is 41, and the next customer should be [C00042]; the
    hook answers [C00002], because its query [/^C/] also selects the
    identifiers of cashiers and [CS00001] is the greatest match.  In a
    collection with cashiers and no customer the first customer is not
    [C00001] either.  Where no other prefix extends the prefix, the hooks
    do as the claim says. *)
Theorem customer_id_after_cashier :
  List.filter (of_entity "C") Samples.userIds = ["C00041"]
  /\ (maximum (List.filter (of_entity "C") Samples.userIds) = Some "C00041"
      /\ option_map parseInt (trailing_digits "C00041") = Some 41%N)
  /\ generateUserId Samples.userIds "customer" = Ok "C00002"
  /\ "C00002" <> "C00042"
  /\ (List.filter (of_entity "C") ["CS00005"] = []
      /\ generateUserId ["CS00005"] "customer" = Ok "C00006")
  /\ (generateUserId ["C00041"; "T00007"] "customer" = Ok "C00042"
      /\ generateItemId [] = "ITM00001"
      /\ generateItemId ["ITM00007"; "ITM00041"; "ITM00012"] = "ITM00042").
Proof. vm_compute. repeat split; discriminate. Qed.

End IdentifierProofs.

(** ** Leave requests *)

Module LeaveProofs.
Import Leave.
Local Open Scope Z_scope.

Lemma active_includes r : includes ["pending"; "approved"] (status r) = true <-> active r.
Proof.
  rewrite includes_In. unfold active. cbn [In]. intuition congruence.
Qed.

Lemma ranges_overlap_sym s1 e1 s2 e2 :
  ranges_overlap s1 e1 s2 e2 -> ranges_overlap s2 e2 s1 e1.
Proof. intros [t [H1 H2]]. exists t. auto. Qed.

(** The overlap query finds a document exactly when one exists. *)
Lemma overlappingLeave_spec db exclude emp start end_ :
  overlappingLeave db exclude emp start end_ = true <->
  exists i r, leaveRequests db !! i = Some r /\ exclude <> Some i /\ employee r = emp
              /\ active r /\ startDate r <= end_ /\ start <= endDate r.
Proof.
  unfold overlappingLeave. rewrite existsb_exists. split.
  - intros [[i r] [Hin Hp]]. cbn [fst snd] in Hp.
    apply list_elem_of_In, elem_of_map_to_list in Hin.
    rewrite !andb_true_iff in Hp. destruct Hp as [[[[Hex Hemp] Hact] Hs] He].
    exists i, r. split; [exact Hin|]. split.
    + destruct exclude as [x|]; [|discriminate].
      apply negb_true_iff, Nat.eqb_neq in Hex. congruence.
    + split; [now apply Nat.eqb_eq|]. split; [now apply active_includes|].
      split; [now apply Z.leb_le|]. rewrite Z.geb_leb in He. now apply Z.leb_le.
  - intros (i & r & Hin & Hex & Hemp & Hact & Hs & He).
    exists (i, r). split; [now apply list_elem_of_In, elem_of_map_to_list|].
    cbn [fst snd]. rewrite !andb_true_iff. repeat split.
    + destruct exclude as [x|]; [|reflexivity].
      apply negb_true_iff, Nat.eqb_neq. congruence.
    + now apply Nat.eqb_eq.
    + now apply active_includes.
    + now apply Z.leb_le.
    + rewrite Z.geb_leb. now apply Z.leb_le.
Qed.

(** A request whose range shares an instant with [[start, end_]] is found
    by the query. *)
Lemma overlappingLeave_finds db exclude i r start end_ :
  leaveRequests db !! i = Some r -> exclude <> Some i -> active r ->
  ranges_overlap (startDate r) (endDate r) start end_ ->
  overlappingLeave db exclude (employee r) start end_ = true.
Proof.
  intros Hin Hex Hact [t [[H1 H2] [H3 H4]]]. apply overlappingLeave_spec.
  exists i, r. repeat split; auto; lia.
Qed.

(** When the query finds nothing, no counted request of the employee
    overlaps the range. *)
Lemma overlappingLeave_none db exclude emp start end_ i r :
  overlappingLeave db exclude emp start end_ = false ->
  leaveRequests db !! i = Some r -> exclude <> Some i -> employee r = emp -> active r ->
  ~ ranges_overlap (startDate r) (endDate r) start end_.
Proof.
  intros Hnone Hin Hex Hemp Hact Hov. subst emp.
  rewrite (overlappingLeave_finds db exclude i r start end_ Hin Hex Hact Hov) in Hnone.
  discriminate.
Qed.

(** Writing a document that overlaps no other counted request of its
    employee keeps the collection free of overlaps. *)
Lemma no_overlap_insert db id r' :
  no_overlap db ->
  (forall j r2, j <> id -> leaveRequests db !! j = Some r2 ->
                employee r2 = employee r' -> active r' -> active r2 ->
                ~ ranges_overlap (startDate r2) (endDate r2) (startDate r') (endDate r')) ->
  no_overlap (set_leaveRequests (<[id := r']> (leaveRequests db)) db).
Proof.
  intros Hinv Hnew i j r1 r2 Hij H1 H2 Hemp Ha1 Ha2.
  cbn [set_leaveRequests leaveRequests] in H1, H2.
  destruct (decide (i = id)) as [->|Hi]; destruct (decide (j = id)) as [->|Hj].
  - contradiction.
  - rewrite lookup_insert_eq in H1. rewrite lookup_insert_ne in H2 by congruence.
    injection H1 as <-. intros Hov. apply ranges_overlap_sym in Hov.
    revert Hov. apply (Hnew j r2); auto.
  - rewrite lookup_insert_eq in H2. rewrite lookup_insert_ne in H1 by congruence.
    injection H2 as <-. apply (Hnew i r1); auto.
  - rewrite lookup_insert_ne in H1 by congruence.
    rewrite lookup_insert_ne in H2 by congruence.
    now apply (Hinv i j).
Qed.

Lemma no_overlap_delete db id :
  no_overlap db -> no_overlap (set_leaveRequests (delete id (leaveRequests db)) db).
Proof.
  intros Hinv i j r1 r2 Hij H1 H2. cbn [set_leaveRequests leaveRequests] in H1, H2.
  apply lookup_delete_Some in H1 as [_ H1]. apply lookup_delete_Some in H2 as [_ H2].
  now apply (Hinv i j).
Qed.

Lemma apply_update_fields r body updated :
  apply_update r body = Ok updated ->
  employee updated = employee r /\ status updated = status r
  /\ startDate updated = default (startDate r) (b_startDate body)
  /\ endDate updated = default (endDate r) (b_endDate body).
Proof.
  unfold apply_update.
  destruct (if truthy_str (b_leaveType body) then _ else _); [|discriminate].
  destruct (if truthy_str (b_reason body) then _ else _); [|discriminate].
  intros [= <-]. repeat split.
Qed.

(** What the checks of [createLeaveRequest] have established when they
    pass. *)
Lemma create_checks_ok db userId body now c :
  create_checks db userId body now = Ok c ->
  c = mkChecked (id_of userId) (default "" (b_leaveType body)) (c_start c) (c_end c)
                (default "" (b_reason body))
  /\ b_startDate body = Some (c_start c) /\ b_endDate body = Some (c_end c)
  /\ c_start c <= c_end c
  /\ (exists u, users db !! id_of userId = Some u
                /\ includes ["technician"; "service_advisor"; "manager"; "admin"; "cashier"]
                            (role u) = true)
  /\ overlappingLeave db None (id_of userId) (c_start c) (c_end c) = false.
Proof.
  unfold create_checks.
  destruct (b_startDate body) as [start|]; [|discriminate].
  destruct (b_endDate body) as [end_|]; [|discriminate].
  destruct (negb (truthy_str (b_leaveType body)) || negb (truthy_str (b_reason body)));
    [discriminate|].
  destruct (start <? now); [discriminate|].
  destruct (end_ <? start) eqn:Hord; [discriminate|]. apply Z.ltb_ge in Hord.
  destruct (users db !! id_of userId) as [u|] eqn:Hu; [|discriminate].
  destruct (negb (includes _ (role u))) eqn:Hrole; [discriminate|].
  apply negb_false_iff in Hrole.
  destruct (overlappingLeave db None (id_of userId) start end_) eqn:Hquery; [discriminate|].
  intros [= <-]. cbn [c_start c_end]. repeat split; eauto.
Qed.

Lemma create_preserves db userId body now :
  no_overlap db -> no_overlap (fst (createLeaveRequest db userId body now)).
Proof.
  intros Hinv. unfold createLeaveRequest.
  destruct (create_checks db userId body now) as [c|] eqn:Hc; [|exact Hinv].
  apply create_checks_ok in Hc as (Hshape & _ & _ & _ & _ & Hquery).
  unfold create_insert, create.
  destruct (validate_leaveType _); [|exact Hinv].
  destruct (validate_reason _); [|exact Hinv].
  destruct (includes _ _); [exact Hinv|].
  cbn [fst]. apply no_overlap_insert; [exact Hinv|].
  cbn [set_totalDays employee startDate endDate].
  intros j r2 _ Hj Hemp _ Hact.
  apply (overlappingLeave_none db None (id_of userId) (c_start c) (c_end c) j r2);
    [exact Hquery|exact Hj|discriminate| |exact Hact].
  rewrite Hemp, Hshape. reflexivity.
Qed.

Lemma update_preserves db id userId body now :
  no_overlap db -> no_overlap (fst (updateLeaveRequest db id userId body now)).
Proof.
  intros Hinv. unfold updateLeaveRequest.
  destruct (leaveRequests db !! id) as [r|] eqn:Hr; [|exact Hinv].
  destruct (toString_is (employee r) userId) eqn:Hown; cbn [negb]; [|exact Hinv].
  apply toString_is_true in Hown.
  destruct (String.eqb_spec (status r) "pending") as [Hpending|_]; [|exact Hinv].
  cbn [negb].
  destruct (is_Some_b (b_startDate body) || is_Some_b (b_endDate body)) eqn:Hdates.
  - destruct (_ <? now); [exact Hinv|].
    destruct (_ <? _); [exact Hinv|].
    destruct (overlappingLeave _ _ _ _ _) eqn:Hquery; [exact Hinv|].
    destruct (apply_update r body) as [updated|] eqn:Hup; [|exact Hinv].
    apply apply_update_fields in Hup as (Hemp & _ & Hs & He).
    cbn [fst]. apply no_overlap_insert; [exact Hinv|].
    intros j r2 Hj Hlook Hemp2 _ Hact. rewrite Hs, He.
    apply (overlappingLeave_none db (Some id) (id_of userId) _ _ j r2); auto; congruence.
  - destruct (apply_update r body) as [updated|] eqn:Hup; [|exact Hinv].
    apply apply_update_fields in Hup as (Hemp & Hst & Hs & He).
    apply orb_false_iff in Hdates as [Hd1 Hd2].
    destruct (b_startDate body); [discriminate|].
    destruct (b_endDate body); [discriminate|].
    cbn [default from_option] in Hs, He.
    cbn [fst]. apply no_overlap_insert; [exact Hinv|].
    intros j r2 Hj Hlook Hemp2 Hact' Hact. rewrite Hs, He.
    apply (Hinv j id r2 r); auto; [congruence|].
    unfold active in *. now rewrite <- Hst.
Qed.

Lemma approve_preserves db id userId now :
  no_overlap db -> no_overlap (fst (approveLeaveRequest db id userId now)).
Proof.
  intros Hinv. unfold approveLeaveRequest.
  destruct (leaveRequests db !! id) as [r|] eqn:Hr; [|exact Hinv].
  destruct (String.eqb_spec (status r) "pending") as [Hpending|_]; [|exact Hinv].
  cbn [negb fst]. apply no_overlap_insert; [exact Hinv|].
  cbn [decide_request set_totalDays employee startDate endDate].
  intros j r2 Hj Hlook Hemp _ Hact.
  apply (Hinv j id r2 r); auto. now left.
Qed.

Lemma reject_preserves db id userId why now :
  no_overlap db -> no_overlap (fst (rejectLeaveRequest db id userId why now)).
Proof.
  intros Hinv. unfold rejectLeaveRequest.
  destruct (negb (truthy_str why)); [exact Hinv|].
  destruct (leaveRequests db !! id) as [r|] eqn:Hr; [|exact Hinv].
  destruct (negb (String.eqb (status r) "pending")); [exact Hinv|].
  cbn [fst]. apply no_overlap_insert; [exact Hinv|].
  cbn [decide_request set_totalDays employee startDate endDate].
  intros j r2 _ _ _ [Hact|Hact] _; cbn [status] in Hact; discriminate.
Qed.

Lemma delete_preserves db id userId :
  no_overlap db -> no_overlap (fst (deleteLeaveRequest db id userId)).
Proof.
  intros Hinv. unfold deleteLeaveRequest.
  destruct (leaveRequests db !! id) as [r|]; [|exact Hinv].
  destruct (negb (toString_is (employee r) userId)); [exact Hinv|].
  destruct (negb (String.eqb (status r) "pending")); [exact Hinv|].
  cbn [fst]. now apply no_overlap_delete.
Qed.

Lemma step_preserves db db' : step db db' -> no_overlap db -> no_overlap db'.
Proof.
  intros [] Hinv;
    auto using create_preserves, update_preserves, approve_preserves,
               reject_preserves, delete_preserves.
Qed.

(** The create operation rejects a range that overlaps a counted request
    of the employee. *)
Lemma create_rejects_overlap db userId body now start end_ i r :
  b_startDate body = Some start -> b_endDate body = Some end_ ->
  leaveRequests db !! i = Some r -> employee r = id_of userId -> active r ->
  ranges_overlap (startDate r) (endDate r) start end_ ->
  fst (createLeaveRequest db userId body now) = db
  /\ is_ok (snd (createLeaveRequest db userId body now)) = false.
Proof.
  intros Hs He Hr Hemp Hact Hov. unfold createLeaveRequest.
  destruct (create_checks db userId body now) as [c|] eqn:Hc; [|split; reflexivity].
  apply create_checks_ok in Hc as (_ & Hs' & He' & _ & _ & Hquery).
  rewrite Hs in Hs'. rewrite He in He'. injection Hs' as ->. injection He' as ->.
  rewrite <- Hemp in Hquery.
  rewrite (overlappingLeave_finds db None i r _ _ Hr) in Hquery by (auto; discriminate).
  discriminate.
Qed.

(** The update operation rejects new dates that overlap another counted
    request of the employee. *)
Lemma update_rejects_overlap db id userId body now target i r :
  leaveRequests db !! id = Some target ->
  is_Some (b_startDate body) \/ is_Some (b_endDate body) ->
  i <> id -> leaveRequests db !! i = Some r -> employee r = id_of userId -> active r ->
  ranges_overlap (startDate r) (endDate r)
                 (default (startDate target) (b_startDate body))
                 (default (endDate target) (b_endDate body)) ->
  fst (updateLeaveRequest db id userId body now) = db
  /\ is_ok (snd (updateLeaveRequest db id userId body now)) = false.
Proof.
  intros Ht Hdates Hi Hr Hemp Hact Hov. unfold updateLeaveRequest. rewrite Ht.
  destruct (negb (toString_is (employee target) userId)); [split; reflexivity|].
  destruct (negb (String.eqb (status target) "pending")); [split; reflexivity|].
  assert (Hd : is_Some_b (b_startDate body) || is_Some_b (b_endDate body) = true).
  { destruct Hdates as [[? ->]|[? ->]]; cbn; [reflexivity|apply orb_true_r]. }
  rewrite Hd.
  destruct (_ <? now); [split; reflexivity|].
  destruct (_ <? _); [split; reflexivity|].
  rewrite <- Hemp.
  rewrite (overlappingLeave_finds db (Some id) i r _ _ Hr) by (auto; congruence).
  split; reflexivity.
Qed.

(** Requests served one at a time are a special case of requests served
    concurrently. *)
Lemma reachable_is_concurrent db : reachable db -> reachable_concurrently (db, []).
Proof.
  induction 1 as [usrs|db db' _ IH Hstep]; [constructor|].
  eapply concurrently_step; [exact IH|]. now constructor.
Qed.

(** C9 (as amended): when the leave-request routes serve one request at
    a time, in every state they reach from an empty collection no two
    requests of one employee that are pending or approved have
    overlapping date ranges; and the create and the update operation
    answer with an error, leaving the data base as it was, to a request
    whose range overlaps a pending or approved request (another one, for
    the update) of the same employee. *)
Theorem leave_requests_never_overlap :
  (forall db, reachable db -> no_overlap db)
  /\ (forall db userId body now start end_ i r,
        b_startDate body = Some start -> b_endDate body = Some end_ ->
        leaveRequests db !! i = Some r -> employee r = id_of userId -> active r ->
        ranges_overlap (startDate r) (endDate r) start end_ ->
        fst (createLeaveRequest db userId body now) = db
        /\ is_ok (snd (createLeaveRequest db userId body now)) = false)
  /\ (forall db id userId body now target i r,
        leaveRequests db !! id = Some target ->
        is_Some (b_startDate body) \/ is_Some (b_endDate body) ->
        i <> id -> leaveRequests db !! i = Some r -> employee r = id_of userId -> active r ->
        ranges_overlap (startDate r) (endDate r)
                       (default (startDate target) (b_startDate body))
                       (default (endDate target) (b_endDate body)) ->
        fst (updateLeaveRequest db id userId body now) = db
        /\ is_ok (snd (updateLeaveRequest db id userId body now)) = false).
Proof.
  split; [|split].
  - intros db Hreach. induction Hreach as [usrs|db db' _ IH Hstep].
    + intros i j r1 r2 _ H1. cbn [leaveRequests] in H1.
      rewrite lookup_empty in H1. discriminate.
    + now apply (step_preserves db db').
  - apply create_rejects_overlap.
  - apply update_rejects_overlap.
Qed.

Lemma leave_requests_never_overlap_witness :
  reachable Samples.leave_db
  /\ no_overlap Samples.leave_db
  /\ (exists r, leaveRequests Samples.leave_db !! 0%nat = Some r
                /\ employee r = 7%nat /\ active r
                /\ ranges_overlap (startDate r) (endDate r) 1500 2500)
  /\ fst (createLeaveRequest Samples.leave_db 7 Samples.second_leave 600) = Samples.leave_db
  /\ is_ok (snd (createLeaveRequest Samples.leave_db 7 Samples.second_leave 600)) = false.
Proof.
  assert (Hreach : reachable Samples.leave_db).
  { unfold Samples.leave_db. eapply reachable_step; [apply reachable_empty|].
    apply step_create. }
  assert (Hr : exists r, leaveRequests Samples.leave_db !! 0%nat = Some r
                         /\ employee r = 7%nat /\ active r
                         /\ ranges_overlap (startDate r) (endDate r) 1500 2500).
  { eexists. split; [vm_compute; reflexivity|]. split; [reflexivity|].
    split; [left; reflexivity|]. exists 1500. cbn. lia. }
  split; [exact Hreach|].
  split; [exact (proj1 leave_requests_never_overlap Samples.leave_db Hreach)|].
  split; [exact Hr|].
  destruct Hr as (r & Hlook & Hemp & Hact & Hov).
  exact (proj1 (proj2 leave_requests_never_overlap)
               Samples.leave_db (ObjectId 7) Samples.second_leave 600 1500 2500 0%nat r
               eq_refl eq_refl Hlook Hemp Hact Hov).
Defined.

(** C9 fails as stated: two create requests of technician 7, for
    1000..2000 and for 1500..2500, are both checked against the empty
    collection, where the overlap query finds nothing, and are then both
    inserted.  The collection holds two pending requests of the same
    employee whose ranges share the instant 1500. *)
Lemma racing_requests_both_stored :
  create_checks (mkDB Samples.staff ∅) 7 Samples.first_leave 500 = Ok Samples.first_checked
  /\ create_checks (mkDB Samples.staff ∅) 7 Samples.second_leave 500
     = Ok Samples.second_checked
  /\ reachable_concurrently (Samples.raced_leave_db, [])
  /\ (exists r1 r2,
        leaveRequests Samples.raced_leave_db !! 0%nat = Some r1
        /\ leaveRequests Samples.raced_leave_db !! 1%nat = Some r2
        /\ employee r1 = 7%nat /\ employee r2 = 7%nat
        /\ status r1 = "pending" /\ status r2 = "pending"
        /\ ranges_overlap (startDate r1) (endDate r1) (startDate r2) (endDate r2))
  /\ ~ no_overlap Samples.raced_leave_db.
Proof.
  assert (H1 : create_checks (mkDB Samples.staff ∅) 7 Samples.first_leave 500
               = Ok Samples.first_checked) by (vm_compute; reflexivity).
  assert (H2 : create_checks (mkDB Samples.staff ∅) 7 Samples.second_leave 500
               = Ok Samples.second_checked) by (vm_compute; reflexivity).
  assert (Hdocs : exists r1 r2,
        leaveRequests Samples.raced_leave_db !! 0%nat = Some r1
        /\ leaveRequests Samples.raced_leave_db !! 1%nat = Some r2
        /\ employee r1 = 7%nat /\ employee r2 = 7%nat
        /\ status r1 = "pending" /\ status r2 = "pending"
        /\ ranges_overlap (startDate r1) (endDate r1) (startDate r2) (endDate r2)).
  { eexists. eexists. split; [vm_compute; reflexivity|]. split; [vm_compute; reflexivity|].
    repeat (split; [reflexivity|]). exists 1500. cbn. lia. }
  split; [exact H1|]. split; [exact H2|]. split; [|split; [exact Hdocs|]].
  - unfold Samples.raced_leave_db.
    eapply concurrently_step;
      [|exact (concurrent_insert _ [] Samples.second_checked [])].
    eapply concurrently_step;
      [|exact (concurrent_insert _ [Samples.second_checked] Samples.first_checked [])].
    eapply concurrently_step; [|exact (concurrent_checked _ _ _ _ _ _ H2)].
    eapply concurrently_step; [|exact (concurrent_checked _ _ _ _ _ _ H1)].
    apply concurrently_empty.
  - destruct Hdocs as (r1 & r2 & Hl1 & Hl2 & He1 & He2 & Hs1 & Hs2 & Hov).
    intros Hno. apply (Hno 0%nat 1%nat r1 r2); auto; try congruence; now left.
Qed.

End LeaveProofs.

(** * Further properties of the code *)

(** ** Leave requests: ownership, decisions, shape of the data *)

Module LeaveLifecycle.
Import Leave.
Local Open Scope Z_scope.

(** [create] writes under an identifier that no stored request has. *)
Lemma create_keeps_existing db userId lt start end_ why db' doc i r :
  create db userId lt start end_ why = Ok (db', doc) ->
  leaveRequests db !! i = Some r ->
  leaveRequests db' !! i = Some r /\ users db' = users db.
Proof.
  unfold create.
  destruct (validate_leaveType lt); [|discriminate].
  destruct (validate_reason why); [|discriminate].
  destruct (includes _ _); [discriminate|].
  intros [= <- _] Hi. cbn [set_leaveRequests leaveRequests users]. split; [|reflexivity].
  rewrite lookup_insert_ne; [exact Hi|].
  intros Heq. pose proof (is_fresh (dom (leaveRequests db))) as Hfresh.
  apply Hfresh. rewrite Heq. apply elem_of_dom. eauto.
Qed.

(** X1: a request that is approved or rejected is final: whatever request
    the leave routes serve next, the stored document stays exactly as it
    is (it is neither edited, nor decided again, nor deleted). *)
Theorem decided_request_is_final db db' i r :
  step db db' ->
  leaveRequests db !! i = Some r ->
  status r <> "pending" ->
  leaveRequests db' !! i = Some r.
Proof.
  intros Hstep Hi Hne. apply String.eqb_neq in Hne.
  destruct Hstep as [db userId body now|db id userId body now|db id userId now
                    |db id userId why now|db id userId].
  - unfold createLeaveRequest.
    destruct (create_checks db userId body now) as [c|]; [|exact Hi].
    unfold create_insert.
    destruct (create _ _ _ _ _ _) as [[db' doc]|] eqn:Hc; [|exact Hi].
    cbn [fst]. now apply (create_keeps_existing _ _ _ _ _ _ _ _ _ _ Hc).
  - unfold updateLeaveRequest.
    destruct (leaveRequests db !! id) as [t|] eqn:Ht; [|exact Hi].
    destruct (negb (toString_is (employee t) userId)); [exact Hi|].
    destruct (String.eqb (status t) "pending") eqn:Hp; cbn [negb]; [|exact Hi].
    assert (Hid : id <> i) by (intros ->; congruence).
    destruct (if _ || _ then _ else _); [exact Hi|].
    destruct (apply_update t body); [|exact Hi].
    cbn [fst set_leaveRequests leaveRequests]. now rewrite lookup_insert_ne.
  - unfold approveLeaveRequest.
    destruct (leaveRequests db !! id) as [t|] eqn:Ht; [|exact Hi].
    destruct (String.eqb (status t) "pending") eqn:Hp; cbn [negb]; [|exact Hi].
    assert (Hid : id <> i) by (intros ->; congruence).
    cbn [fst set_leaveRequests leaveRequests]. now rewrite lookup_insert_ne.
  - unfold rejectLeaveRequest.
    destruct (negb (truthy_str why)); [exact Hi|].
    destruct (leaveRequests db !! id) as [t|] eqn:Ht; [|exact Hi].
    destruct (String.eqb (status t) "pending") eqn:Hp; cbn [negb]; [|exact Hi].
    assert (Hid : id <> i) by (intros ->; congruence).
    cbn [fst set_leaveRequests leaveRequests]. now rewrite lookup_insert_ne.
  - unfold deleteLeaveRequest.
    destruct (leaveRequests db !! id) as [t|] eqn:Ht; [|exact Hi].
    destruct (negb (toString_is (employee t) userId)); [exact Hi|].
    destruct (String.eqb (status t) "pending") eqn:Hp; cbn [negb]; [|exact Hi].
    assert (Hid : id <> i) by (intros ->; congruence).
    cbn [fst set_leaveRequests leaveRequests]. now rewrite lookup_delete_ne.
Qed.

Lemma decided_request_is_final_witness :
  exists r, leaveRequests Samples.approved_leave_db !! 0%nat = Some r
            /\ status r = "approved"
            /\ leaveRequests
                 (fst (updateLeaveRequest Samples.approved_leave_db 0 7
                         (mkLeaveBody None (Some 1200) (Some 1300) None) 800)) !! 0%nat
               = Some r.
Proof.
  eexists. split; [vm_compute; reflexivity|]. split; [reflexivity|].
  apply (decided_request_is_final Samples.approved_leave_db).
  - apply step_update.
  - vm_compute. reflexivity.
  - discriminate.
Defined.

(** X2: approval succeeds exactly on a stored pending request, rejection
    exactly on a stored pending request with a non-empty reason.  A
    successful decision writes, under the same key, the stored request
    with its status set to approved or rejected, [approvedBy] set to the
    deciding user, [approvedAt] to the time, for a rejection
    [rejectionReason] to the given reason (an approval keeps the stored
    one), and [totalDays] recomputed from the two dates by the save hook;
    [requestId], the employee, the type, the dates and the reason of the
    request are as they were, and so are every other request and the
    users.  It answers with that document.  A refused decision changes
    nothing. *)
Theorem leave_decisions db id userId why now :
  (is_ok (snd (approveLeaveRequest db id userId now)) = true <->
   exists r, leaveRequests db !! id = Some r /\ status r = "pending")
  /\ (is_ok (snd (rejectLeaveRequest db id userId why now)) = true <->
      truthy_str why = true /\
      exists r, leaveRequests db !! id = Some r /\ status r = "pending")
  /\ (forall r, leaveRequests db !! id = Some r -> status r = "pending" ->
        let r' := mkLeaveRequest (requestId r) (employee r) (leaveType r) (startDate r)
                                 (endDate r) (reason r) "approved" (Some (id_of userId))
                                 (Some now) (rejectionReason r)
                                 (computeTotalDays (startDate r) (endDate r)) in
        approveLeaveRequest db id userId now
        = (mkDB (users db) (<[id := r']> (leaveRequests db)), Ok r'))
  /\ (forall r w, leaveRequests db !! id = Some r -> status r = "pending" ->
        why = Some w -> w <> "" ->
        let r' := mkLeaveRequest (requestId r) (employee r) (leaveType r) (startDate r)
                                 (endDate r) (reason r) "rejected" (Some (id_of userId))
                                 (Some now) (Some w)
                                 (computeTotalDays (startDate r) (endDate r)) in
        rejectLeaveRequest db id userId why now
        = (mkDB (users db) (<[id := r']> (leaveRequests db)), Ok r'))
  /\ (is_ok (snd (approveLeaveRequest db id userId now)) = false ->
      fst (approveLeaveRequest db id userId now) = db)
  /\ (is_ok (snd (rejectLeaveRequest db id userId why now)) = false ->
      fst (rejectLeaveRequest db id userId why now) = db).
Proof.
  unfold approveLeaveRequest, rejectLeaveRequest.
  destruct (leaveRequests db !! id) as [t|] eqn:Ht.
  2:{ destruct (truthy_str why); cbn [negb snd fst is_ok];
      (split; [split; [discriminate|intros [? [? _]]; discriminate]|]);
      (split; [split; [discriminate|intros [_ [? [? _]]]; discriminate]|]);
      (split; [intros; discriminate|]); (split; [intros; discriminate|]);
      split; reflexivity. }
  destruct (String.eqb_spec (status t) "pending") as [Hp|Hp]; cbn [negb].
  - split; [cbn [snd is_ok]; split; [eauto|reflexivity]|].
    split.
    { destruct (truthy_str why); cbn [negb snd is_ok]; split; try discriminate; eauto.
      intros [? _]. discriminate. }
    split; [intros r [= <-] _; reflexivity|].
    split.
    { intros r w [= <-] _ -> Hw.
      rewrite (truthy_str_nonempty_Some w Hw). reflexivity. }
    split; [cbn [snd is_ok]; discriminate|].
    destruct (truthy_str why); cbn [negb snd fst is_ok]; [discriminate|reflexivity].
  - split; [cbn [snd is_ok]; split; [discriminate|]|].
    { intros [r [[= <-] ?]]. contradiction. }
    split.
    { destruct (truthy_str why); cbn [negb snd is_ok]; split; try discriminate.
      - intros [_ [r [[= <-] ?]]]. contradiction.
      - intros [? _]. discriminate. }
    split; [intros r [= <-] ?; contradiction|].
    split; [intros r w [= <-] ?; contradiction|].
    split; [reflexivity|].
    destruct (truthy_str why); reflexivity.
Qed.

Lemma leave_decisions_witness :
  (exists r, leaveRequests Samples.leave_db !! 0%nat = Some r /\ status r = "pending")
  /\ rejectLeaveRequest Samples.leave_db 0 9 (Some "short staffed") 700
     = (mkDB Samples.staff
             {[ 0%nat := mkLeaveRequest "LR00001" 7 "annual" 1000 2000 "family visit"
                                        "rejected" (Some 9%nat) (Some 700)
                                        (Some "short staffed") 2 ]},
        Ok (mkLeaveRequest "LR00001" 7 "annual" 1000 2000 "family visit"
                           "rejected" (Some 9%nat) (Some 700) (Some "short staffed") 2)).
Proof.
  assert (Hr : leaveRequests Samples.leave_db !! 0%nat
               = Some (mkLeaveRequest "LR00001" 7 "annual" 1000 2000 "family visit"
                                      "pending" None None None 2))
    by (vm_compute; reflexivity).
  split; [eexists; split; [exact Hr|reflexivity]|].
  rewrite (proj1 (proj2 (proj2 (proj2 (leave_decisions Samples.leave_db 0%nat 9%nat
                                         (Some "short staffed") 700))))
             _ "short staffed" Hr eq_refl eq_refl ltac:(discriminate)).
  vm_compute. reflexivity.
Defined.

(** X3: the update and the delete route answer 404 when the request is
    not stored, 403 when the text of its employee is not what
    [req.user.userId] holds, 400 when it is no longer pending, and in
    these three cases they write nothing; only past the three tests is
    the request deleted, or updated with its employee and status kept.
    [authenticate] puts an ObjectId in [req.user.userId], which no text
    is identical to: for every caller it lets through, the owner
    included, the two routes answer 404 or 403 and never write. *)
Theorem only_owner_edits_pending db id userId body now :
  (leaveRequests db !! id = None ->
   updateLeaveRequest db id userId body now
   = (db, Err (CustomError "Leave request not found" 404))
   /\ deleteLeaveRequest db id userId
      = (db, Err (CustomError "Leave request not found" 404)))
  /\ (forall r, leaveRequests db !! id = Some r ->
        toString_is (employee r) userId = false ->
        updateLeaveRequest db id userId body now
        = (db, Err (CustomError "You can only update your own leave requests" 403))
        /\ deleteLeaveRequest db id userId
           = (db, Err (CustomError "You can only delete your own leave requests" 403)))
  /\ (forall r, leaveRequests db !! id = Some r ->
        toString_is (employee r) userId = true ->
        status r <> "pending" ->
        updateLeaveRequest db id userId body now
        = (db, Err (CustomError "Cannot update leave request that has been processed" 400))
        /\ deleteLeaveRequest db id userId
           = (db, Err (CustomError "Cannot delete leave request that has been processed"
                                   400)))
  /\ (forall r, leaveRequests db !! id = Some r ->
        toString_is (employee r) userId = true ->
        status r = "pending" ->
        deleteLeaveRequest db id userId
        = (mkDB (users db) (delete id (leaveRequests db)), Ok tt)
        /\ ((fst (updateLeaveRequest db id userId body now) = db
             /\ is_ok (snd (updateLeaveRequest db id userId body now)) = false)
            \/ exists updated,
                updateLeaveRequest db id userId body now
                = (mkDB (users db) (<[id := updated]> (leaveRequests db)), Ok updated)
                /\ employee updated = employee r /\ status updated = "pending"))
  /\ (forall n, userId = ObjectId n ->
        fst (updateLeaveRequest db id userId body now) = db
        /\ fst (deleteLeaveRequest db id userId) = db
        /\ is_ok (snd (updateLeaveRequest db id userId body now)) = false
        /\ is_ok (snd (deleteLeaveRequest db id userId)) = false
        /\ forall r, leaveRequests db !! id = Some r -> employee r = n ->
             snd (deleteLeaveRequest db id userId)
             = Err (CustomError "You can only delete your own leave requests" 403)).
Proof.
  unfold updateLeaveRequest, deleteLeaveRequest.
  destruct (leaveRequests db !! id) as [t|] eqn:Ht.
  2:{ split; [split; reflexivity|]. split; [intros; discriminate|].
      split; [intros; discriminate|]. split; [intros; discriminate|].
      intros n _. repeat (split; [reflexivity|]). intros; discriminate. }
  split; [discriminate|].
  split; [intros r [= <-] ->; split; reflexivity|].
  split.
  { intros r [= <-] -> Hp. apply String.eqb_neq in Hp. rewrite Hp. split; reflexivity. }
  split.
  { intros r [= <-] -> Hp. rewrite Hp. cbn [negb String.eqb].
    change ("pending" =? "pending")%string with true. cbn [negb].
    split; [reflexivity|].
    destruct (if _ || _ then _ else _); [left; split; reflexivity|].
    destruct (apply_update t body) as [updated|] eqn:Hup; [|left; split; reflexivity].
    right. exists updated. split; [reflexivity|].
    unfold apply_update in Hup.
    destruct (if truthy_str (b_leaveType body) then _ else _); [|discriminate].
    destruct (if truthy_str (b_reason body) then _ else _); [|discriminate].
    injection Hup as <-. split; [reflexivity|exact Hp]. }
  intros n ->. cbn [toString_is negb fst snd is_ok].
  repeat (split; [reflexivity|]). reflexivity.
Qed.

Lemma only_owner_edits_pending_witness :
  (exists r, leaveRequests Samples.leave_db !! 0%nat = Some r /\ employee r = 7%nat
             /\ status r = "pending")
  /\ deleteLeaveRequest Samples.leave_db 0 (ObjectId 7)
     = (Samples.leave_db, Err (CustomError "You can only delete your own leave requests" 403))
  /\ deleteLeaveRequest Samples.leave_db 0 (IdString 7)
     = (mkDB Samples.staff ∅, Ok tt).
Proof.
  assert (Hr : leaveRequests Samples.leave_db !! 0%nat
               = Some (mkLeaveRequest "LR00001" 7 "annual" 1000 2000 "family visit"
                                      "pending" None None None 2))
    by (vm_compute; reflexivity).
  split; [eexists; split; [exact Hr|split; reflexivity]|].
  split.
  - exact (proj2 (proj1 (proj2 (only_owner_edits_pending Samples.leave_db 0%nat (ObjectId 7)
                                  (mkLeaveBody None None None None) 0))
                        _ Hr eq_refl)).
  - rewrite (proj1 (proj1 (proj2 (proj2 (proj2
               (only_owner_edits_pending Samples.leave_db 0%nat (IdString 7)
                  (mkLeaveBody None None None None) 0))))
               _ Hr eq_refl eq_refl)).
    vm_compute. reflexivity.
Defined.

Lemma computeTotalDays_pos start end_ : start <= end_ -> 1 <= computeTotalDays start end_.
Proof.
  intros H. unfold computeTotalDays.
  change (1000 * 3600 * 24) with 86400000.
  assert (- (end_ - start) / 86400000 <= 0 / 86400000)
    by (apply Z.div_le_mono; lia).
  rewrite Z.div_0_l in H0 by lia. lia.
Qed.

Lemma validate_leaveType_ok t t' : validate_leaveType t = Ok t' -> In t' leaveTypeEnum.
Proof.
  unfold validate_leaveType. destruct (includes leaveTypeEnum t) eqn:H; [|discriminate].
  intros [= <-]. now apply includes_In.
Qed.

Lemma apply_update_shape r body updated :
  apply_update r body = Ok updated ->
  employee updated = employee r /\ status updated = status r
  /\ totalDays updated = totalDays r
  /\ startDate updated = default (startDate r) (b_startDate body)
  /\ endDate updated = default (endDate r) (b_endDate body)
  /\ (In (leaveType r) leaveTypeEnum -> In (leaveType updated) leaveTypeEnum).
Proof.
  unfold apply_update.
  destruct (truthy_str (b_leaveType body)).
  - destruct (validate_leaveType _) as [t|] eqn:Ht; [|discriminate].
    apply validate_leaveType_ok in Ht.
    destruct (if truthy_str (b_reason body) then _ else _); [|discriminate].
    intros [= <-]. repeat split. intros _. exact Ht.
  - destruct (if truthy_str (b_reason body) then _ else _); [|discriminate].
    intros [= <-]. repeat split. auto.
Qed.

(** What a successful [create] writes. *)
Lemma create_ok db userId lt start end_ why db' doc :
  create db userId lt start end_ why = Ok (db', doc) ->
  db' = set_leaveRequests (<[fresh (dom (leaveRequests db)) := doc]> (leaveRequests db)) db
  /\ employee doc = userId /\ startDate doc = start /\ endDate doc = end_
  /\ status doc = "pending" /\ totalDays doc = computeTotalDays start end_
  /\ In (leaveType doc) leaveTypeEnum.
Proof.
  unfold create. cbv zeta.
  destruct (validate_leaveType lt) as [t|] eqn:Ht; [|discriminate].
  destruct (validate_reason why); [|discriminate].
  match goal with |- context [if ?c then _ else _] => destruct c end; [discriminate|].
  intros [= <- <-]. repeat split. now apply validate_leaveType_ok in Ht.
Qed.

Lemma step_users db db' : step db db' -> users db' = users db.
Proof.
  intros [db0 userId body now|db0 id userId body now|db0 id userId now
         |db0 id userId why now|db0 id userId].
  - unfold createLeaveRequest.
    destruct (create_checks db0 userId body now) as [c|]; [|reflexivity].
    unfold create_insert.
    destruct (create _ _ _ _ _ _) as [[db1 doc]|] eqn:Hc; [|reflexivity].
    apply create_ok in Hc as (-> & _). reflexivity.
  - unfold updateLeaveRequest.
    destruct (leaveRequests db0 !! id) as [t|]; [|reflexivity].
    destruct (negb _); [reflexivity|]. destruct (negb _); [reflexivity|].
    destruct (if _ || _ then _ else _); [reflexivity|].
    destruct (apply_update t body); reflexivity.
  - unfold approveLeaveRequest.
    destruct (leaveRequests db0 !! id); [|reflexivity].
    destruct (negb _); reflexivity.
  - unfold rejectLeaveRequest. destruct (negb (truthy_str why)); [reflexivity|].
    destruct (leaveRequests db0 !! id); [|reflexivity].
    destruct (negb _); reflexivity.
  - unfold deleteLeaveRequest.
    destruct (leaveRequests db0 !! id); [|reflexivity].
    destruct (negb _); [reflexivity|]. destruct (negb _); reflexivity.
Qed.

Lemma well_formed_users db db' r :
  users db' = users db -> well_formed db r -> well_formed db' r.
Proof. unfold well_formed. now intros ->. Qed.

Lemma step_well_formed db db' :
  step db db' ->
  (forall i r, leaveRequests db !! i = Some r -> well_formed db r) ->
  forall i r, leaveRequests db' !! i = Some r -> well_formed db' r.
Proof.
  intros Hstep Hinv i r.
  pose proof (step_users db db' Hstep) as Husers.
  intros Hlook. apply (well_formed_users db db' r Husers). revert Hlook. clear Husers.
  destruct Hstep as [db userId body now|db id userId body now|db id userId now
                    |db id userId why now|db id userId].
  - unfold createLeaveRequest.
    destruct (create_checks db userId body now) as [c|] eqn:Hchecks; [|apply Hinv].
    apply LeaveProofs.create_checks_ok in Hchecks
      as (Hshape & _ & _ & Hord & (u & Hu & Hrole) & _).
    unfold create_insert. rewrite Hshape. cbn [c_employee c_leaveType c_start c_end c_reason].
    destruct (create _ _ _ _ _ _) as [[db1 doc]|] eqn:Hc; [|apply Hinv].
    apply create_ok in Hc as (-> & He & Hs & Hed & Hst & Hd & Hlt).
    cbn [fst set_leaveRequests leaveRequests].
    destruct (decide (fresh (dom (leaveRequests db)) = i)) as [->|Hne].
    + rewrite lookup_insert_eq. intros [= <-].
      unfold well_formed. rewrite He, Hs, Hed, Hst, Hd.
      split; [exact Hord|]. split; [left; reflexivity|].
      split; [now apply computeTotalDays_pos|].
      split; [exact Hlt|].
      exists u. split; [exact Hu|]. now apply includes_In.
    + rewrite lookup_insert_ne by exact Hne. apply Hinv.
  - unfold updateLeaveRequest.
    destruct (leaveRequests db !! id) as [t|] eqn:Ht; [|apply Hinv].
    destruct (negb (toString_is (employee t) userId)); [apply Hinv|].
    destruct (negb (String.eqb (status t) "pending")); [apply Hinv|].
    destruct (Hinv id t Ht) as (Hord & Hst & Hdays & Htype & Huser).
    destruct (is_Some_b (b_startDate body) || is_Some_b (b_endDate body)) eqn:Hdates.
    + destruct (_ <? now); [apply Hinv|].
      destruct (_ <? _) eqn:Hnew; [apply Hinv|]. apply Z.ltb_ge in Hnew.
      destruct (overlappingLeave _ _ _ _ _); [apply Hinv|].
      destruct (apply_update t body) as [updated|] eqn:Hup; [|apply Hinv].
      apply apply_update_shape in Hup as (He & Hs & Hd & Hsd & Hed & Hlt).
      cbn [fst set_leaveRequests leaveRequests].
      destruct (decide (id = i)) as [->|Hne].
      * rewrite lookup_insert_eq. intros [= <-]. unfold well_formed.
        rewrite He, Hs, Hd, Hsd, Hed.
        split; [exact Hnew|]. split; [exact Hst|]. split; [exact Hdays|].
        split; [now apply Hlt|]. exact Huser.
      * rewrite lookup_insert_ne by exact Hne. apply Hinv.
    + apply orb_false_iff in Hdates as [Hd1 Hd2].
      destruct (b_startDate body) eqn:Hb1; [discriminate|].
      destruct (b_endDate body) eqn:Hb2; [discriminate|].
      destruct (apply_update t _) as [updated|] eqn:Hup; [|apply Hinv].
      apply apply_update_shape in Hup as (He & Hs & Hd & Hsd & Hed & Hlt).
      rewrite Hb1 in Hsd. rewrite Hb2 in Hed. cbn [from_option] in Hsd, Hed.
      cbn [fst set_leaveRequests leaveRequests].
      destruct (decide (id = i)) as [->|Hne].
      * rewrite lookup_insert_eq. intros [= <-]. unfold well_formed.
        rewrite He, Hs, Hd, Hsd, Hed.
        split; [exact Hord|]. split; [exact Hst|]. split; [exact Hdays|].
        split; [now apply Hlt|]. exact Huser.
      * rewrite lookup_insert_ne by exact Hne. apply Hinv.
  - unfold approveLeaveRequest.
    destruct (leaveRequests db !! id) as [t|] eqn:Ht; [|apply Hinv].
    destruct (negb _); [apply Hinv|].
    destruct (Hinv id t Ht) as (Hord & Hst & Hdays & Htype & Huser).
    cbn [fst set_leaveRequests leaveRequests].
    destruct (decide (id = i)) as [->|Hne].
    + rewrite lookup_insert_eq. intros [= <-]. unfold well_formed.
      cbn [decide_request set_totalDays startDate endDate status totalDays
           leaveType employee].
      split; [exact Hord|]. split; [right; left; reflexivity|].
      split; [now apply computeTotalDays_pos|]. split; assumption.
    + rewrite lookup_insert_ne by exact Hne. apply Hinv.
  - unfold rejectLeaveRequest. destruct (negb (truthy_str why)); [apply Hinv|].
    destruct (leaveRequests db !! id) as [t|] eqn:Ht; [|apply Hinv].
    destruct (negb _); [apply Hinv|].
    destruct (Hinv id t Ht) as (Hord & Hst & Hdays & Htype & Huser).
    cbn [fst set_leaveRequests leaveRequests].
    destruct (decide (id = i)) as [->|Hne].
    + rewrite lookup_insert_eq. intros [= <-]. unfold well_formed.
      cbn [decide_request set_totalDays startDate endDate status totalDays
           leaveType employee].
      split; [exact Hord|]. split; [right; right; left; reflexivity|].
      split; [now apply computeTotalDays_pos|]. split; assumption.
    + rewrite lookup_insert_ne by exact Hne. apply Hinv.
  - unfold deleteLeaveRequest.
    destruct (leaveRequests db !! id) as [t|] eqn:Ht; [|apply Hinv].
    destruct (negb _); [apply Hinv|]. destruct (negb _); [apply Hinv|].
    cbn [fst set_leaveRequests leaveRequests].
    intros Hlook. apply lookup_delete_Some in Hlook as [_ Hlook]. now apply (Hinv i).
Qed.

(** X4: in every state that the leave routes reach from an empty
    collection, every stored request has [startDate <= endDate], a status
    and a leave type of the schema, at least one total day, and an owner
    that is a stored user with an employee role. *)
Theorem reachable_requests_well_formed db :
  reachable db ->
  forall i r, leaveRequests db !! i = Some r -> well_formed db r.
Proof.
  induction 1 as [usrs|db db' _ IH Hstep].
  - intros i r Hl. cbn [leaveRequests] in Hl. rewrite lookup_empty in Hl. discriminate.
  - now apply (step_well_formed db db').
Qed.

Lemma reachable_requests_well_formed_witness :
  exists r, leaveRequests Samples.approved_leave_db !! 0%nat = Some r
            /\ well_formed Samples.approved_leave_db r.
Proof.
  assert (Hreach : reachable Samples.approved_leave_db).
  { unfold Samples.approved_leave_db, Samples.leave_db.
    eapply reachable_step; [eapply reachable_step; [apply reachable_empty|]|].
    - apply step_create.
    - apply step_approve. }
  eexists. split; [vm_compute; reflexivity|].
  apply (reachable_requests_well_formed Samples.approved_leave_db Hreach 0%nat).
  vm_compute. reflexivity.
Defined.

End LeaveLifecycle.

(** ** Goods requests: the life cycle over all routes *)

Module GoodsRequestLifecycle.
Import GoodsRequests GoodsRequestRoutes.
Local Open Scope Z_scope.

Lemma goods_create_ok db job' by_ items' notes' db' doc :
  create db job' by_ items' notes' = Ok (db', doc) ->
  db' = set_goodsRequests (<[fresh (dom (goodsRequests db)) := doc]> (goodsRequests db)) db
  /\ items doc = items' /\ status doc = "pending" /\ requestedBy doc = by_
  /\ approvedBy doc = None /\ approvedAt doc = None /\ rejectionReason doc = None.
Proof.
  unfold create. cbv zeta.
  match goal with |- context [if ?c then _ else _] => destruct c end; [discriminate|].
  intros [= <- <-]. repeat split.
Qed.

Lemma fresh_not_stored {A} (m : gmap nat A) i g :
  m !! i = Some g -> fresh (dom m) <> i.
Proof.
  intros Hi Heq. apply (is_fresh (dom m)). rewrite Heq. apply elem_of_dom. eauto.
Qed.

Lemma valid_items_quantities l :
  existsb invalid_item l = false ->
  forall ri, In ri (map stored_item l) -> 1 <= quantity ri.
Proof.
  intros Hvalid ri Hin. apply in_map_iff in Hin as [it [<- Hit]].
  assert (Hfalse : invalid_item it = false).
  { destruct (invalid_item it) eqn:Hbad; [|reflexivity].
    assert (existsb invalid_item l = true) by (apply existsb_exists; eauto).
    congruence. }
  unfold invalid_item in Hfalse. apply orb_false_iff in Hfalse as [_ Hq].
  apply Z.ltb_ge in Hq. exact Hq.
Qed.

(** X5: a goods request that has been processed is out of reach of the
    requester and of a second decision: whatever route is served next, an
    approved request is either unchanged or released (only its status
    changes), and a rejected or released request is unchanged; none of
    them is deleted. *)
Theorem processed_request_only_released db db' i g :
  step db db' ->
  goodsRequests db !! i = Some g ->
  status g <> "pending" ->
  goodsRequests db' !! i = Some g
  \/ (status g = "approved" /\ goodsRequests db' !! i = Some (release g)).
Proof.
  intros Hstep Hi Hne. apply String.eqb_neq in Hne.
  destruct Hstep as [db caller body|db id caller body|db id caller|db id caller now
                    |db id caller why now|db id caller].
  - left. unfold createGoodsRequest.
    destruct (cb_job body); [|exact Hi].
    destruct (cb_items body) as [[|first more]|]; try exact Hi.
    destruct (existsb _ _); [exact Hi|].
    destruct (users db !! id_of (userId caller)); [|exact Hi].
    destruct (negb _); [exact Hi|].
    destruct (create _ _ _ _ _) as [[db1 doc]|] eqn:Hc; [|exact Hi].
    apply goods_create_ok in Hc as (-> & _). cbn [fst set_goodsRequests goodsRequests].
    rewrite lookup_insert_ne; [exact Hi|]. now apply fresh_not_stored with (g := g).
  - left. unfold updateGoodsRequest.
    destruct (goodsRequests db !! id) as [t|] eqn:Ht; [|exact Hi].
    destruct (negb (toString_is _ _)); [exact Hi|].
    destruct (String.eqb (status t) "pending") eqn:Hp; cbn [negb]; [|exact Hi].
    assert (Hid : id <> i) by (intros ->; congruence).
    destruct (match ub_items body with Some (_ :: _) => _ | _ => _ end); [|exact Hi].
    cbn [fst set_goodsRequests goodsRequests]. now rewrite lookup_insert_ne.
  - left. unfold deleteGoodsRequest.
    destruct (goodsRequests db !! id) as [t|] eqn:Ht; [|exact Hi].
    destruct (negb (toString_is _ _)); [exact Hi|].
    destruct (String.eqb (status t) "pending") eqn:Hp; cbn [negb]; [|exact Hi].
    assert (Hid : id <> i) by (intros ->; congruence).
    cbn [fst set_goodsRequests goodsRequests]. now rewrite lookup_delete_ne.
  - left. unfold approveGoodsRequest.
    destruct (negb (authorized db caller)); [exact Hi|].
    destruct (goodsRequests db !! id) as [t|] eqn:Ht; [|exact Hi].
    destruct (String.eqb (status t) "pending") eqn:Hp; cbn [negb]; [|exact Hi].
    assert (Hid : id <> i) by (intros ->; congruence).
    destruct (check_stock _); [exact Hi|].
    unfold save. destruct (includes _ _); [|exact Hi].
    cbn [fst set_goodsRequests goodsRequests]. now rewrite lookup_insert_ne.
  - left. unfold rejectGoodsRequest.
    destruct (negb (truthy_str why)); [exact Hi|].
    destruct (negb (authorized db caller)); [exact Hi|].
    destruct (goodsRequests db !! id) as [t|] eqn:Ht; [|exact Hi].
    destruct (String.eqb (status t) "pending") eqn:Hp; cbn [negb]; [|exact Hi].
    assert (Hid : id <> i) by (intros ->; congruence).
    unfold save. destruct (includes _ _); [|exact Hi].
    cbn [fst set_goodsRequests goodsRequests]. now rewrite lookup_insert_ne.
  - unfold releaseGoods.
    destruct (negb (authorized db caller)); [now left|].
    destruct (goodsRequests db !! id) as [t|] eqn:Ht; [|now left].
    destruct (String.eqb_spec (status t) "approved") as [Ha|Ha]; cbn [negb]; [|now left].
    unfold save. cbn [release status includes statusEnum existsb String.eqb Ascii.eqb
                        Bool.eqb orb fst set_goodsRequests goodsRequests].
    destruct (decide (id = i)) as [->|Hid].
    + right. assert (t = g) as -> by congruence.
      split; [exact Ha|]. apply lookup_insert_eq.
    + left. now rewrite lookup_insert_ne.
Qed.

Lemma processed_request_only_released_witness :
  exists g, goodsRequests Samples.goods_released !! 0%nat = Some g
            /\ status g = "released"
            /\ goodsRequests
                 (fst (deleteGoodsRequest Samples.goods_released 0 Samples.advisor)) !! 0%nat
               = Some g.
Proof.
  eexists. split; [vm_compute; reflexivity|]. split; [reflexivity|].
  destruct (processed_request_only_released Samples.goods_released
              (fst (deleteGoodsRequest Samples.goods_released 0 Samples.advisor)) 0%nat
              _ (step_delete _ _ _) ltac:(vm_compute; reflexivity) ltac:(discriminate))
    as [H|[H _]]; [exact H|discriminate H].
Defined.

(** X6: no route of the goods-request controller writes to the inventory
    or to the users: from creation to release the stock counts stay as
    they are. *)
Theorem goods_routes_keep_inventory db db' :
  step db db' -> inventory db' = inventory db /\ users db' = users db.
Proof.
  intros [db0 caller body|db0 id caller body|db0 id caller|db0 id caller now
         |db0 id caller why now|db0 id caller].
  - unfold createGoodsRequest.
    destruct (cb_job body); [|now split].
    destruct (cb_items body) as [[|first more]|]; try now split.
    destruct (existsb _ _); [now split|].
    destruct (users db0 !! id_of (userId caller)); [|now split].
    destruct (negb _); [now split|].
    destruct (create _ _ _ _ _) as [[db1 doc]|] eqn:Hc; [|now split].
    apply goods_create_ok in Hc as (-> & _). now split.
  - unfold updateGoodsRequest.
    destruct (goodsRequests db0 !! id) as [t|]; [|now split].
    destruct (negb _); [now split|]. destruct (negb _); [now split|].
    destruct (match ub_items body with Some (_ :: _) => _ | _ => _ end); now split.
  - unfold deleteGoodsRequest.
    destruct (goodsRequests db0 !! id) as [t|]; [|now split].
    destruct (negb _); [now split|]. destruct (negb _); now split.
  - unfold approveGoodsRequest.
    destruct (negb _); [now split|].
    destruct (goodsRequests db0 !! id) as [t|]; [|now split].
    destruct (negb _); [now split|]. destruct (check_stock _); [now split|].
    unfold save. destruct (includes _ _); now split.
  - unfold rejectGoodsRequest.
    destruct (negb _); [now split|]. destruct (negb _); [now split|].
    destruct (goodsRequests db0 !! id) as [t|]; [|now split].
    destruct (negb _); [now split|].
    unfold save. destruct (includes _ _); now split.
  - unfold releaseGoods.
    destruct (negb _); [now split|].
    destruct (goodsRequests db0 !! id) as [t|]; [|now split].
    destruct (negb _); [now split|].
    unfold save. destruct (includes _ _); now split.
Qed.

Lemma goods_routes_keep_inventory_witness :
  inventory Samples.goods_created !! 3%nat = Some Samples.brake_pads.
Proof.
  rewrite (proj1 (goods_routes_keep_inventory Samples.goods_start Samples.goods_created
                    (step_create _ _ _))).
  reflexivity.
Defined.

Lemma truthy_str_nonempty o : truthy_str o = true -> default "" o <> "".
Proof. destruct o as [[|c s]|]; cbn; congruence. Qed.

Lemma approve_well_formed caller now g :
  well_formed g -> status g = "pending" -> well_formed (approve caller now g).
Proof.
  intros (_ & Hne & Hq & _ & _ & _ & Hnr) Hp. unfold well_formed, approve.
  cbn [status items approvedBy approvedAt rejectionReason].
  split; [unfold statusEnum; cbn; tauto|]. split; [exact Hne|]. split; [exact Hq|].
  split; [discriminate|]. split; [intros _; split; eexists; reflexivity|].
  split; [discriminate|]. intros _. apply Hnr. rewrite Hp. discriminate.
Qed.

Lemma reject_well_formed caller now why g :
  well_formed g -> truthy_str why = true ->
  well_formed (reject caller now (default "" why) g).
Proof.
  intros (_ & Hne & Hq & _) Hwhy. unfold well_formed, reject.
  cbn [status items approvedBy approvedAt rejectionReason].
  split; [unfold statusEnum; cbn; tauto|]. split; [exact Hne|]. split; [exact Hq|].
  split; [discriminate|]. split; [intros _; split; eexists; reflexivity|].
  split; [|intros H; now elim H].
  intros _. eexists. split; [reflexivity|]. now apply truthy_str_nonempty.
Qed.

Lemma release_well_formed g :
  well_formed g -> status g = "approved" -> well_formed (release g).
Proof.
  intros (_ & Hne & Hq & _ & Hst & _ & Hnr) Ha. unfold well_formed, release.
  cbn [status items approvedBy approvedAt rejectionReason].
  split; [unfold statusEnum; cbn; tauto|]. split; [exact Hne|]. split; [exact Hq|].
  split; [discriminate|]. split; [intros _; apply Hst; rewrite Ha; discriminate|].
  split; [discriminate|]. intros _. apply Hnr. rewrite Ha. discriminate.
Qed.

Lemma goods_step_well_formed db db' :
  step db db' ->
  (forall i g, goodsRequests db !! i = Some g -> well_formed g) ->
  forall i g, goodsRequests db' !! i = Some g -> well_formed g.
Proof.
  intros Hstep Hwf.
  destruct Hstep as [db caller body|db id caller body|db id caller|db id caller now
                    |db id caller why now|db id caller]; intros i g.
  - unfold createGoodsRequest.
    destruct (cb_job body); [|apply Hwf].
    destruct (cb_items body) as [[|first more]|]; try apply Hwf.
    destruct (existsb _ _) eqn:Hvalid; [apply Hwf|].
    destruct (users db !! id_of (userId caller)); [|apply Hwf].
    destruct (negb _); [apply Hwf|].
    destruct (create _ _ _ _ _) as [[db1 doc]|] eqn:Hc; [|apply Hwf].
    apply goods_create_ok in Hc as (-> & Hit & Hst & _ & Hby & Hat & Hrr).
    cbn [fst set_goodsRequests goodsRequests]. intros Hi.
    apply lookup_insert_Some in Hi as [[_ <-]|[_ Hi]]; [|now apply Hwf in Hi].
    unfold well_formed. rewrite Hit, Hst, Hby, Hat, Hrr.
    split; [unfold statusEnum; cbn; tauto|]. split; [discriminate|].
    split; [now apply valid_items_quantities|].
    split; [now split|]. split; [intros H; now elim H|]. split; [discriminate|reflexivity].
  - unfold updateGoodsRequest.
    destruct (goodsRequests db !! id) as [t|] eqn:Ht; [|apply Hwf].
    destruct (negb (toString_is _ _)); [apply Hwf|].
    destruct (String.eqb_spec (status t) "pending") as [Hp|Hp]; cbn [negb]; [|apply Hwf].
    pose proof (Hwf _ _ Ht) as (Hen & Hne & Hq & Hpen & Hst & Hrj & Hnr).
    assert (Hgoal : forall its nts,
               its <> [] -> (forall ri, In ri its -> 1 <= quantity ri) ->
               well_formed (set_items_notes its nts t)).
    { intros its nts H1 H2. unfold well_formed, set_items_notes.
      cbn [status items approvedBy approvedAt rejectionReason]. tauto. }
    destruct (ub_items body) as [[|first more]|].
    + cbn [fst set_goodsRequests goodsRequests]. intros Hi.
      apply lookup_insert_Some in Hi as [[_ <-]|[_ Hi]]; [|now apply Hwf in Hi].
      now apply Hgoal.
    + destruct (existsb _ _) eqn:Hvalid; [apply Hwf|].
      cbn [fst set_goodsRequests goodsRequests]. intros Hi.
      apply lookup_insert_Some in Hi as [[_ <-]|[_ Hi]]; [|now apply Hwf in Hi].
      apply Hgoal; [discriminate|now apply valid_items_quantities].
    + cbn [fst set_goodsRequests goodsRequests]. intros Hi.
      apply lookup_insert_Some in Hi as [[_ <-]|[_ Hi]]; [|now apply Hwf in Hi].
      now apply Hgoal.
  - unfold deleteGoodsRequest.
    destruct (goodsRequests db !! id) as [t|] eqn:Ht; [|apply Hwf].
    destruct (negb (toString_is _ _)); [apply Hwf|].
    destruct (negb _); [apply Hwf|].
    cbn [fst set_goodsRequests goodsRequests]. intros Hi.
    apply lookup_delete_Some in Hi as [_ Hi]. now apply Hwf in Hi.
  - unfold approveGoodsRequest.
    destruct (negb (authorized db caller)); [apply Hwf|].
    destruct (goodsRequests db !! id) as [t|] eqn:Ht; [|apply Hwf].
    destruct (String.eqb_spec (status t) "pending") as [Hp|Hp]; cbn [negb]; [|apply Hwf].
    destruct (check_stock _); [apply Hwf|].
    unfold save. destruct (includes _ _); [|apply Hwf].
    cbn [fst set_goodsRequests goodsRequests]. intros Hi.
    apply lookup_insert_Some in Hi as [[_ <-]|[_ Hi]]; [|now apply Hwf in Hi].
    apply approve_well_formed; [now apply Hwf in Ht|exact Hp].
  - unfold rejectGoodsRequest.
    destruct (truthy_str why) eqn:Hwhy; cbn [negb]; [|apply Hwf].
    destruct (negb (authorized db caller)); [apply Hwf|].
    destruct (goodsRequests db !! id) as [t|] eqn:Ht; [|apply Hwf].
    destruct (negb _); [apply Hwf|].
    unfold save. destruct (includes _ _); [|apply Hwf].
    cbn [fst set_goodsRequests goodsRequests]. intros Hi.
    apply lookup_insert_Some in Hi as [[_ <-]|[_ Hi]]; [|now apply Hwf in Hi].
    apply reject_well_formed; [now apply Hwf in Ht|exact Hwhy].
  - unfold releaseGoods.
    destruct (negb (authorized db caller)); [apply Hwf|].
    destruct (goodsRequests db !! id) as [t|] eqn:Ht; [|apply Hwf].
    destruct (String.eqb_spec (status t) "approved") as [Ha|Ha]; cbn [negb]; [|apply Hwf].
    unfold save. destruct (includes _ _); [|apply Hwf].
    cbn [fst set_goodsRequests goodsRequests]. intros Hi.
    apply lookup_insert_Some in Hi as [[_ <-]|[_ Hi]]; [|now apply Hwf in Hi].
    apply release_well_formed; [now apply Hwf in Ht|exact Ha].
Qed.

(** X7: every goods request the routes ever store is well formed: its
    status is one of the four of the schema, it has at least one line and
    every line asks for at least one unit, it carries the approver and the
    approval date exactly when it is no longer pending, and it carries a
    non-empty rejection reason exactly when it is rejected. *)
Theorem reachable_goods_requests_well_formed db :
  reachable db -> forall i g, goodsRequests db !! i = Some g -> well_formed g.
Proof.
  induction 1 as [usrs inv jbs|db db' _ IH Hstep].
  - intros i g Hi. cbn [goodsRequests] in Hi. now rewrite lookup_empty in Hi.
  - now apply goods_step_well_formed with (db := db).
Qed.

Lemma reachable_goods_requests_well_formed_witness :
  exists g, goodsRequests Samples.goods_released !! 0%nat = Some g /\ well_formed g.
Proof.
  assert (Hreach : reachable Samples.goods_released).
  { eapply reachable_step; [|apply step_release].
    eapply reachable_step; [|apply step_approve].
    eapply reachable_step; [|apply step_create].
    apply reachable_empty. }
  eexists. split; [vm_compute; reflexivity|].
  apply (reachable_goods_requests_well_formed _ Hreach 0%nat). vm_compute. reflexivity.
Defined.

(** X29: the goods-request routes never look an item up before the
    approval does.  When the approval reaches a line whose inventory item
    is gone, the lines before it being covered, [populate] has left
    [null] there and the request ends in the TypeError of reading
    [currentStock] of [null], a 500 rather than a 400 or 404; nothing is
    written and the request stays pending. *)
Theorem approve_dangling_item db id caller now g before ri after :
  authorized db caller = true ->
  goodsRequests db !! id = Some g ->
  status g = "pending" ->
  items g = (before ++ ri :: after)%list ->
  (forall r, In r before ->
             exists it, inventory db !! item r = Some it
                        /\ quantity r <= Inventory.currentStock it) ->
  inventory db !! item ri = None ->
  approveGoodsRequest db id caller now
  = (db, Err (TypeError "Cannot read properties of null (reading 'currentStock')")).
Proof.
  intros Hauth Hg Hpending Hitems Hbefore Hgone.
  unfold approveGoodsRequest. rewrite Hauth, Hg, Hpending.
  change (negb ("pending" =? "pending")%string) with false. cbn [negb].
  unfold populate_items. rewrite Hitems, map_app. cbn [map]. rewrite Hgone.
  rewrite (GoodsRequestProofs.check_stock_covered _ _ _ Hbefore). reflexivity.
Qed.

Lemma approve_dangling_item_witness :
  approveGoodsRequest Samples.goods_dangling 0 Samples.manager 800
  = (Samples.goods_dangling,
     Err (TypeError "Cannot read properties of null (reading 'currentStock')")).
Proof.
  apply (approve_dangling_item Samples.goods_dangling 0%nat Samples.manager 800
           _ [] (mkRequestItem 3 2 None) []
           ltac:(vm_compute; reflexivity) ltac:(vm_compute; reflexivity)
           eq_refl eq_refl ltac:(intros r []) eq_refl).
Defined.

End GoodsRequestLifecycle.

(** ** Inventory: the two stock routes together *)

Module InventoryStock.
Import Inventory InventoryRoutes.
Local Open Scope Z_scope.

Lemma stock_only_refl db : stock_only db db.
Proof. intros i. destruct (db !! i); [now left|exact I]. Qed.

Lemma stock_only_trans db1 db2 db3 :
  stock_only db1 db2 -> stock_only db2 db3 -> stock_only db1 db3.
Proof.
  intros H12 H23 i. specialize (H12 i). specialize (H23 i).
  destruct (db1 !! i) as [a|], (db2 !! i) as [b|], (db3 !! i) as [c|]; try tauto.
  destruct H12 as [->|[Hb Hb0]]; [exact H23|].
  destruct H23 as [->|[Hc Hc0]]; [right; now split|].
  right. split; [|exact Hc0]. rewrite Hc, Hb. reflexivity.
Qed.

Lemma stock_only_write db k item n :
  db !! k = Some item -> 0 <= n ->
  stock_only db (<[k := set_currentStock n item]> db).
Proof.
  intros Hk Hn i. destruct (decide (k = i)) as [->|Hne].
  - rewrite Hk, lookup_insert_eq. right. now split.
  - rewrite lookup_insert_ne by exact Hne. destruct (db !! i); [now left|exact I].
Qed.

Lemma findOne_itemId_stored db iid k item :
  findOne_itemId db iid = Some (k, item) ->
  db !! k = Some item /\ itemId item = iid.
Proof.
  unfold findOne_itemId. intros H. apply find_some in H as [Hin Heq].
  split; [|now apply String.eqb_eq in Heq].
  apply elem_of_map_to_list. now apply list_elem_of_In.
Qed.

Lemma bulk_step_stock_only db line :
  stock_only db (fst (bulk_step db line)).
Proof.
  destruct (bulk_step db line) as [db' [r|e]] eqn:Hstep; cbn [fst].
  - apply InventoryProofs.bulk_step_result_commits in Hstep
      as (k & item & Hfind & -> & Hpos & _).
    apply findOne_itemId_stored in Hfind as [Hk _]. now apply stock_only_write.
  - apply InventoryProofs.bulk_step_error_keeps in Hstep as ->. apply stock_only_refl.
Qed.

Lemma bulk_loop_stock_only items : forall db results errors,
  stock_only db (fst (bulk_loop db items results errors)).
Proof.
  induction items as [|[line|] rest IH]; intros db results errors; cbn [bulk_loop].
  - apply stock_only_refl.
  - pose proof (bulk_step_stock_only db line) as Hstep.
    destruct (bulk_step db line) as [db1 [r|e]]; cbn [fst] in Hstep;
      eapply stock_only_trans; [exact Hstep|apply IH|exact Hstep|apply IH].
  - apply stock_only_refl.
Qed.

(** X8: the two stock routes, [updateStock] and [bulkUpdateStock], never
    add or remove an inventory document and never touch a field other
    than [currentStock]; the stock they write is never negative, so a
    collection without negative stock stays without. *)
Theorem stock_routes_change_stock_only db :
  (forall i body now, stock_only db (fst (updateStock db i body now)))
  /\ (forall items, stock_only db (fst (bulkUpdateStock db items)))
  /\ (forall db', stock_only db db' ->
       (forall i it, db !! i = Some it -> 0 <= currentStock it) ->
       forall i it, db' !! i = Some it -> 0 <= currentStock it).
Proof.
  split; [|split].
  - intros i body now. unfold updateStock.
    destruct (_ || _); [apply stock_only_refl|].
    destruct (negb _); [apply stock_only_refl|].
    destruct (_ <=? 0); [apply stock_only_refl|].
    destruct (db !! i) as [item|] eqn:Hi; [|apply stock_only_refl].
    destruct (String.eqb _ "add").
    + unfold save. cbn [set_currentStock currentStock].
      destruct (Z.ltb_spec (currentStock item + default 0 (quantity body)) 0);
        [apply stock_only_refl|]. cbn [fst]. now apply stock_only_write.
    + destruct (_ <? default 0 (quantity body)); [apply stock_only_refl|].
      unfold save. cbn [set_currentStock currentStock].
      destruct (Z.ltb_spec (currentStock item - default 0 (quantity body)) 0);
        [apply stock_only_refl|]. cbn [fst]. now apply stock_only_write.
  - intros [[|line rest]|]; try apply stock_only_refl.
    unfold bulkUpdateStock.
    pose proof (bulk_loop_stock_only (line :: rest) db [] []) as H.
    destruct (bulk_loop db (line :: rest) [] []) as [db' [[rs es]|e]]; exact H.
  - intros db' Hso Hnn i it' Hi'. specialize (Hso i). rewrite Hi' in Hso.
    destruct (db !! i) as [it|] eqn:Hi; [|contradiction].
    destruct Hso as [->|[_ H0]]; [now apply Hnn in Hi|exact H0].
Qed.

Lemma stock_routes_change_stock_only_witness :
  exists it,
    fst (bulkUpdateStock Samples.stock (Some Samples.bulk_lines)) !! 1%nat = Some it
    /\ 0 <= currentStock it.
Proof.
  destruct (stock_routes_change_stock_only Samples.stock) as (_ & Hbulk & Hkeep).
  eexists. split; [vm_compute; reflexivity|].
  apply (Hkeep _ (Hbulk (Some Samples.bulk_lines))) with (i := 1%nat);
    [|vm_compute; reflexivity].
  intros i it Hi. apply elem_of_map_to_list, list_elem_of_In in Hi.
  vm_compute in Hi. destruct Hi as [Hi|[Hi|[]]]; injection Hi as _ <-; vm_compute; discriminate.
Defined.

(** X9: a bulk stock update whose lines are all objects, at least one,
    answers 200, and every line is accounted for exactly once: the
    [results] and the [errors] arrays of the body together have as many
    elements as there were lines, and [processed] is the length of
    [results].  A line that is [null] ends the request in a TypeError (a
    500) with no body, the lines before it staying committed as the
    bulk update of those lines alone commits them. *)
Theorem bulk_update_accounts_for_every_line db :
  (forall line rest,
      exists body r e,
        snd (bulkUpdateStock db (Some (map Some (line :: rest)))) = Ok body
        /\ array_length (obj_get body "results") = Some r
        /\ array_length (obj_get body "errors") = Some e
        /\ obj_get body "processed" = Some (JNum (Z.of_nat r))
        /\ (r + e = length (line :: rest))%nat)
  /\ (forall before after,
        snd (bulkUpdateStock db (Some (map Some before ++ None :: after)%list))
        = Err (TypeError "Cannot read properties of null (reading 'itemId')")
        /\ fst (bulkUpdateStock db (Some (map Some before ++ None :: after)%list))
           = fst (bulkUpdateStock db (Some (map Some before)))).
Proof.
  split.
  - intros line rest. unfold bulkUpdateStock. cbn [map].
    change (Some line :: map Some rest) with (map Some (line :: rest)).
    destruct (InventoryProofs.bulk_loop_objects (line :: rest) db [] []) as (db' & rs & es & Hloop).
    rewrite Hloop.
    apply InventoryProofs.bulk_loop_counts in Hloop.
    rewrite length_map in Hloop. cbn [length Nat.add] in Hloop.
    exists (bulk_response rs es), (length rs), (length es). cbn [snd].
    split; [reflexivity|].
    split.
    { change (obj_get (bulk_response rs es) "results")
        with (Some (JArr (map result_json rs))).
      cbn [array_length]. now rewrite length_map. }
    split.
    { rewrite (proj2 (InventoryProofs.bulk_response_errors rs es)).
      cbn [array_length]. now rewrite length_map. }
    split; [reflexivity|exact Hloop].
  - intros before after. unfold bulkUpdateStock.
    destruct (InventoryProofs.bulk_loop_null before after db [] [])
      as (db' & rs & es & Hbefore & Hnull).
    rewrite Hnull.
    destruct (map Some before ++ None :: after)%list as [|x l] eqn:Happ;
      [now destruct before|].
    cbn [fst snd]. split; [reflexivity|].
    rewrite Hbefore. destruct before; [|reflexivity].
    cbn [map bulk_loop] in Hbefore. now injection Hbefore as <- _ _.
Qed.

Lemma bulk_update_accounts_for_every_line_witness :
  (exists body,
      snd (bulkUpdateStock Samples.stock (Some Samples.bulk_lines)) = Ok body
      /\ array_length (obj_get body "results") = Some 1%nat
      /\ array_length (obj_get body "errors") = Some 1%nat)
  /\ bulkUpdateStock Samples.stock
       (Some [Some (mkStockUpdate (Some "ITM00001") (Some 5) (Some "add") None); None])
     = (<[1%nat := set_currentStock 7 Samples.oil]> Samples.stock,
        Err (TypeError "Cannot read properties of null (reading 'itemId')")).
Proof.
  split.
  - destruct (proj1 (bulk_update_accounts_for_every_line Samples.stock)
                (mkStockUpdate (Some "ITM00001") (Some 5) (Some "add") None)
                [mkStockUpdate (Some "ITM00002") (Some 999) (Some "subtract") None])
      as (body & r & e & Hbody & Hr & He & _).
    exists body. split; [exact Hbody|].
    change (map Some _) with Samples.bulk_lines in Hbody.
    assert (Heq : body = bulk_response
                           [mkResultEntry "ITM00001" "Engine oil" "add" 5 7 false]
                           [mkErrorEntry (Some "ITM00002") "Insufficient stock"]).
    { vm_compute in Hbody. injection Hbody as <-. reflexivity. }
    rewrite Heq. split; reflexivity.
  - destruct (proj2 (bulk_update_accounts_for_every_line Samples.stock)
                [mkStockUpdate (Some "ITM00001") (Some 5) (Some "add") None] [])
      as (Hout & Hdb).
    cbn [map app] in Hout, Hdb.
    rewrite (surjective_pairing (bulkUpdateStock _ _)), Hout, Hdb.
    vm_compute. reflexivity.
Defined.



(** X27: on a line with a positive quantity the bulk route is the stock
    route.  For an item that [findOne] finds by its identifier, the line
    leaves the collection exactly as [PATCH /:id/stock] with the same
    quantity and operation leaves it, and it lands in [results] exactly
    when that request is answered with 200. *)
Theorem bulk_line_is_updateStock db line k item q op now :
  su_quantity line = Some q -> 0 < q ->
  su_operation line = Some op -> op <> "" ->
  truthy_str (su_itemId line) = true ->
  findOne_itemId db (toUpperCase (default "" (su_itemId line))) = Some (k, item) ->
  let single := updateStock db k (mkStockRequest (Some q) (Some op) (su_reason line)) now in
  fst (bulk_step db line) = fst single
  /\ (is_ok (snd single) = true <-> exists r, snd (bulk_step db line) = inl r).
Proof.
  intros Hq Hpos Hop Hne Hid Hfind single. unfold single.
  destruct (findOne_itemId_stored _ _ _ _ Hfind) as [Hk _].
  unfold bulk_step, updateStock. cbn [quantity operation].
  rewrite Hq, Hop, Hid, Hfind, Hk.
  rewrite (InventoryProofs.truthy_num_pos q Hpos), (truthy_str_nonempty_Some op Hne).
  cbn [negb orb default from_option Datatypes.id].
  destruct (includes ["add"; "subtract"] op) eqn:Hin; cbn [negb fst snd is_ok].
  2:{ split; [reflexivity|]. split; [discriminate|]. intros [r Hr]. discriminate. }
  destruct (Z.leb_spec q 0); [lia|].
  apply includes_In in Hin. destruct Hin as [<-|[<-|[]]].
  - change (String.eqb "add" "subtract") with false.
    change (String.eqb "add" "add") with true. cbn [andb].
    destruct (save db k _) eqn:Hsave; cbn [fst snd is_ok];
      (split; [reflexivity|]); split; eauto; try discriminate.
    intros [r Hr]. discriminate.
  - change (String.eqb "subtract" "subtract") with true.
    change (String.eqb "subtract" "add") with false. cbn [andb].
    destruct (currentStock item <? q); cbn [fst snd is_ok].
    + split; [reflexivity|]. split; [discriminate|]. intros [r Hr]. discriminate.
    + destruct (save db k _) eqn:Hsave; cbn [fst snd is_ok];
        (split; [reflexivity|]); split; eauto; try discriminate.
      intros [r Hr]. discriminate.
Qed.

Lemma bulk_line_is_updateStock_witness :
  fst (bulk_step Samples.stock (mkStockUpdate (Some "itm00001") (Some 3) (Some "add") None))
  = fst (updateStock Samples.stock 1 (mkStockRequest (Some 3) (Some "add") None) 0).
Proof.
  apply (bulk_line_is_updateStock Samples.stock
           (mkStockUpdate (Some "itm00001") (Some 3) (Some "add") None)
           1%nat Samples.oil 3 "add" 0 eq_refl ltac:(lia) eq_refl ltac:(discriminate)
           eq_refl ltac:(vm_compute; reflexivity)).
Defined.

End InventoryStock.

(** ** Jobs: the work log and the deletion *)

Module JobWork.
Import Jobs JobRoutes.
Local Open Scope Z_scope.

Lemma hours_between_pos s e : s < e -> (0 < hours_between s e)%Q.
Proof. intros H. unfold hours_between, Qlt. cbn. lia. Qed.

Lemma sum_hours_app l e : sum_hours (l ++ [e])%list = (sum_hours l + logged e)%Q.
Proof. unfold sum_hours. rewrite fold_left_app. reflexivity. Qed.

Lemma sum_hours_nonneg l :
  Forall (fun log => (0 <= logged log)%Q) l -> (0 <= sum_hours l)%Q.
Proof.
  unfold sum_hours. intros Hall.
  assert (Hacc : forall acc, (0 <= acc)%Q ->
            (0 <= fold_left (fun total log => (total + logged log)%Q) l acc)%Q).
  { induction Hall as [|e l He Hl IH]; intros acc Hacc; [exact Hacc|].
    cbn [fold_left]. apply IH. lra. }
  apply Hacc. lra.
Qed.

Lemma credit_valid u h l :
  (0 < h)%Q -> Forall (fun a => (0 <= hoursWorked a)%Q) l ->
  existsb (fun a => negb (Qle_bool 0 (hoursWorked a))) (credit u h l) = false.
Proof.
  intros Hh Hall.
  assert (Hok : forall l', Forall (fun a => (0 <= hoursWorked a)%Q) l' ->
                           existsb (fun a => negb (Qle_bool 0 (hoursWorked a))) l' = false).
  { induction 1 as [|a l' Ha _ IH]; [reflexivity|]. cbn [existsb]. rewrite IH.
    apply Qle_bool_iff in Ha. now rewrite Ha. }
  apply Hok. induction Hall as [|a l Ha Hl IH]; cbn [credit]; [constructor|].
  destruct (Nat.eqb _ _); constructor; try assumption.
  cbn [hoursWorked]. lra.
Qed.

Lemma credit_length u h l : length (credit u h l) = length l.
Proof.
  induction l as [|a l IH]; [reflexivity|]. cbn [credit].
  destruct (Nat.eqb _ _); cbn [length]; congruence.
Qed.

Lemma credited_credit u h l :
  existsb (fun a => Nat.eqb (labourer a) u) l = true ->
  (credited u (credit u h l) == credited u l + h)%Q.
Proof.
  induction l as [|a l IH]; [discriminate|]. cbn [existsb credit credited fold_right].
  destruct (Nat.eqb (labourer a) u) eqn:Ha; cbn [orb].
  - intros _. cbn [fold_right labourer hoursWorked]. rewrite Ha. fold (credited u l). lra.
  - intros Hl. cbn [fold_right]. rewrite Ha. fold (credited u (credit u h l)). now apply IH.
Qed.

Lemma preSave_logged now j :
  workLog j <> [] ->
  preSave false now j = computeLabourCost (set_actualHours (sum_hours (workLog j)) j).
Proof.
  intros Hne. unfold preSave, stampTimestamps, computeActualHours.
  destruct (workLog j) eqn:Hl; [contradiction|]. now rewrite <- Hl.
Qed.

(** X11: the work-log route answers 403 to a technician who is among
    the assigned labourers of the job and writes nothing, because its
    assignment test compares the text of the stored labourer with the
    ObjectId that [authenticate] puts in [req.user.userId]; were the
    identifier the string of the same id, the route would answer with
    what the model method [addWorkLog] followed by [save()] gives.  That
    pair, on a start before the end, appends one entry whose hours are
    (end - start) / 3600000, sets the job's [actualHours] to the hours
    logged so far plus these, credits the same hours to the technician's
    assignment, leaves the status and its two timestamps alone, and makes
    the labour cost fifty times the actual hours. *)
Theorem addWorkLog_accumulates db id job body n now :
  db !! id = Some job ->
  (exists assignment, In assignment (assignedLabourers job) /\ labourer assignment = n) ->
  wb_startTime body < wb_endTime body ->
  Forall (fun a => (0 <= hoursWorked a)%Q) (assignedLabourers job) ->
  let hours := ((wb_endTime body - wb_startTime body) # 3600000)%Q in
  let logged_job := addWorkLog_method n (wb_startTime body) (wb_endTime body)
                                      (wb_description body) job in
  addWorkLog db id body (mkCaller (ObjectId n) "technician") now
  = (db, Err (CustomError "Access denied. Job not assigned to you" 403))
  /\ addWorkLog db id body (mkCaller (IdString n) "technician") now
     = match save_logged db id now logged_job with
       | Err e => (db, Err e)
       | Ok (db', job') => (db', Ok job')
       end
  /\ exists job',
      save_logged db id now logged_job = Ok (<[id := job']> db, job')
      /\ (0 < hours)%Q
      /\ workLog job' = (workLog job ++ [mkWorkLogEntry n (wb_startTime body)
                                            (wb_endTime body) (wb_description body)
                                            (Some hours)])%list
      /\ actualHours job' = (sum_hours (workLog job) + hours)%Q
      /\ (credited n (assignedLabourers job')
           == credited n (assignedLabourers job) + hours)%Q
      /\ status job' = status job
      /\ startedAt job' = startedAt job
      /\ completedAt job' = completedAt job
      /\ (Forall (fun log => (0 <= logged log)%Q) (workLog job) ->
          labourCost job' = (actualHours job' * 50)%Q).
Proof.
  intros Hjob Hassigned Htimes Hworked hours logged_job.
  assert (Hhours : hours_between (wb_startTime body) (wb_endTime body) = hours).
  { unfold hours_between, hours. rewrite Z.abs_eq by lia. reflexivity. }
  assert (Hpos : (0 < hours)%Q) by (unfold hours, Qlt; cbn; lia).
  assert (Hex : existsb (fun a => Nat.eqb (labourer a) n) (assignedLabourers job) = true).
  { apply existsb_exists. destruct Hassigned as (a & Hin & Ha).
    exists a. split; [exact Hin|]. now apply Nat.eqb_eq. }
  split; [|split].
  - unfold addWorkLog. cbn [role userId]. rewrite Hjob, JobProofs.isAssigned_ObjectId.
    reflexivity.
  - unfold addWorkLog. cbn [role userId id_of]. rewrite Hjob.
    rewrite (proj2 (JobProofs.isAssigned_IdString job n) Hassigned).
    change (negb ("technician" =? "technician")%string) with false. cbn [negb].
    destruct (Z.leb_spec (wb_endTime body) (wb_startTime body)); [lia|]. reflexivity.
  - subst logged_job. unfold save_logged, addWorkLog_method. rewrite Hhours.
    cbn [assignedLabourers set_assignedLabourers set_workLog].
    rewrite credit_valid by assumption.
    rewrite preSave_logged
      by (cbn [workLog]; intros Habs; now apply app_eq_nil in Habs as [_ ?]).
    cbn [workLog set_assignedLabourers set_workLog]. rewrite sum_hours_app.
    assert (Hlogged : logged (mkWorkLogEntry n (wb_startTime body)
                                (wb_endTime body) (wb_description body) (Some hours)) = hours).
    { unfold logged. cbn [hoursLogged].
      destruct (Qeq_bool hours 0) eqn:H0; [|reflexivity]. apply Qeq_bool_iff in H0. lra. }
    rewrite Hlogged.
    eexists. split; [reflexivity|]. split; [exact Hpos|].
    unfold computeLabourCost.
    cbn [actualHours set_actualHours assignedLabourers set_assignedLabourers set_workLog].
    rewrite credit_length.
    assert (Hlen : (0 <? Z.of_nat (length (assignedLabourers job))) = true).
    { destruct (assignedLabourers job); [discriminate|].
      cbn [length]. apply Z.ltb_lt. lia. }
    rewrite Hlen, andb_true_r.
    destruct (Qle_bool (sum_hours (workLog job) + hours) 0) eqn:Hle; cbn [negb].
    + cbn [workLog actualHours assignedLabourers status startedAt completedAt labourCost
           set_actualHours set_assignedLabourers set_workLog].
      split; [reflexivity|]. split; [reflexivity|].
      split; [now apply credited_credit|]. split; [reflexivity|].
      split; [reflexivity|]. split; [reflexivity|].
      intros Hall. apply sum_hours_nonneg in Hall. apply Qle_bool_iff in Hle. lra.
    + cbn [workLog actualHours assignedLabourers status startedAt completedAt labourCost
           set_labourCost set_actualHours set_assignedLabourers set_workLog].
      split; [reflexivity|]. split; [reflexivity|].
      split; [now apply credited_credit|]. split; [reflexivity|].
      split; [reflexivity|]. split; [reflexivity|]. reflexivity.
Qed.

Lemma addWorkLog_accumulates_witness :
  addWorkLog Samples.jobs 2 (mkWorkLogBody 3600000 10800000 None)
             (mkCaller (ObjectId 8) "technician") 900
  = (Samples.jobs, Err (CustomError "Access denied. Job not assigned to you" 403))
  /\ exists job',
      save_logged Samples.jobs 2 900
                  (addWorkLog_method 8 3600000 10800000 None Samples.fresh_job)
      = Ok (<[2%nat := job']> Samples.jobs, job')
      /\ actualHours job' = ((0 + (3 # 2)) + (7200000 # 3600000))%Q.
Proof.
  destruct (addWorkLog_accumulates Samples.jobs 2%nat Samples.fresh_job
              (mkWorkLogBody 3600000 10800000 None) 8%nat 900
              eq_refl ltac:(eexists; split; [left; reflexivity|reflexivity])
              ltac:(cbn; lia)
              ltac:(repeat constructor; cbn; discriminate))
    as (Hrefused & _ & job' & Heq & _ & _ & Hhours & _).
  split; [exact Hrefused|].
  exists job'. split; [exact Heq|exact Hhours].
Defined.

(** X12: [deleteJob] removes a job exactly when the caller is an admin or
    a manager, the job is stored and it is neither working nor completed;
    in every other case it answers with an error and the collection is
    as it was, so a job in progress or completed is never deleted. *)
Theorem deleteJob_spares_active db id caller :
  (is_ok (snd (deleteJob db id caller)) = true
   <-> (In (role caller) ["admin"; "manager"]
        /\ exists job, db !! id = Some job /\ ~ In (status job) ["working"; "completed"]))
  /\ (is_ok (snd (deleteJob db id caller)) = true ->
      fst (deleteJob db id caller) = delete id db)
  /\ (is_ok (snd (deleteJob db id caller)) = false ->
      fst (deleteJob db id caller) = db)
  /\ (forall i job, db !! i = Some job -> In (status job) ["working"; "completed"] ->
      fst (deleteJob db id caller) !! i = Some job).
Proof.
  unfold deleteJob.
  destruct (includes ["admin"; "manager"] (role caller)) eqn:Hrole; cbn [negb].
  2:{ cbn [fst snd is_ok]. split; [|split; [discriminate|split; [reflexivity|auto]]].
      split; [discriminate|]. intros [Hin _]. apply includes_In in Hin. congruence. }
  apply includes_In in Hrole.
  destruct (db !! id) as [job|] eqn:Hjob.
  2:{ cbn [fst snd is_ok]. split; [|split; [discriminate|split; [reflexivity|auto]]].
      split; [discriminate|]. intros (_ & job & Habs & _). discriminate. }
  destruct (includes ["working"; "completed"] (status job)) eqn:Hst.
  - apply includes_In in Hst. cbn [fst snd is_ok]. split; [|split; [discriminate|split; [reflexivity|auto]]].
    split; [discriminate|]. intros (_ & job0 & Heq & Hnot). congruence.
  - cbn [fst snd is_ok]. split; [|split; [reflexivity|split; [discriminate|]]].
    + split; [|reflexivity]. intros _. split; [exact Hrole|]. exists job.
      split; [reflexivity|]. intros Hin. apply includes_In in Hin. congruence.
    + intros i job0 Hi Hin. rewrite lookup_delete_ne; [exact Hi|].
      intros ->. apply includes_In in Hin. congruence.
Qed.

Lemma deleteJob_spares_active_witness :
  fst (deleteJob Samples.jobs 1 (mkCaller 5 "manager")) !! 1%nat = Some Samples.reopened_job.
Proof.
  apply (proj2 (proj2 (proj2 (deleteJob_spares_active Samples.jobs 1 (mkCaller 5 "manager"))))).
  - reflexivity.
  - left. reflexivity.
Defined.

End JobWork.

(** ** Bookings: the life cycle over the workflow routes *)

Module BookingLifecycle.
Import Bookings BookingRoutes.
Local Open Scope Z_scope.

(** What the workflow status update does to the collection. *)
Lemma workflow_update_shape db req now :
  fst (Workflow.updateBookingStatus db req now) = db
  \/ exists b s text,
       db !! req_id req = Some b /\ permitted (status b) s
       /\ fst (Workflow.updateBookingStatus db req now)
          = <[req_id req :=
                push_note (mkNote text (req_user req) now)
                  (if String.eqb s "completed"
                   then set_completedAt (Some now) (set_status s b)
                   else set_status s b)]> db.
Proof.
  unfold Workflow.updateBookingStatus.
  destruct (negb (truthy_str (req_status req))); [now left|].
  destruct (negb (includes validStatuses _)); [now left|].
  destruct (db !! req_id req) as [b|] eqn:Hb; [|now left].
  pose proof (BookingProofs.workflow_table (status b) (default "" (req_status req))) as Htab.
  destruct (obj_get Workflow.allowedTransitions (status b)) as [allowed|]; [|now left].
  destruct (includes allowed _) eqn:Hin; cbn [negb]; [|now left].
  right. symmetry in Htab. apply BookingProofs.permittedb_spec in Htab.
  eexists b, _, _. split; [reflexivity|]. split; [exact Htab|]. reflexivity.
Qed.

Lemma booking_create_ok db c v user now db' doc :
  create db c v user now = Ok (db', doc) ->
  db' = set_bookings (<[fresh (dom (bookings db)) := doc]> (bookings db)) db
  /\ status doc = "pending" /\ completedAt doc = None /\ assignedInspector doc = None
  /\ notes doc = [mkNote "Booking created" user now].
Proof.
  unfold create. cbv zeta.
  match goal with |- context [if ?c then _ else _] => destruct c end; [discriminate|].
  intros [= <- <-]. repeat split.
Qed.

Lemma continues_refl b : continues b b.
Proof.
  unfold continues. repeat split; [|now left]. exists []. now rewrite app_nil_r.
Qed.

Ltac continues_by status_case :=
  unfold continues, push_note, set_status, set_assignedInspector, set_completedAt;
  cbn [bookingId customer vehicle status notes];
  split; [reflexivity|]; split; [reflexivity|]; split; [reflexivity|];
  split; [eexists; reflexivity|status_case].

Lemma workflow_step_continues db db' i b :
  step db db' ->
  bookings db !! i = Some b ->
  In (status b) validStatuses ->
  exists b', bookings db' !! i = Some b' /\ continues b b'.
Proof.
  intros Hstep Hi Hvalid.
  assert (Hsame : exists b', bookings db !! i = Some b' /\ continues b b')
    by (exists b; split; [exact Hi|apply continues_refl]).
  assert (Hwrite : forall id t b',
             bookings db !! id = Some t -> (id = i -> continues b b') ->
             exists b0, <[id := b']> (bookings db) !! i = Some b0 /\ continues b b0).
  { intros id t b' Ht Hc. destruct (decide (id = i)) as [->|Hne].
    - exists b'. rewrite lookup_insert_eq. split; [reflexivity|now apply Hc].
    - rewrite lookup_insert_ne by exact Hne. exact Hsame. }
  destruct Hstep as [db body user now|db id reason user now|db id inspectorId user now
                    |db req now|db id note' user now].
  - unfold createBooking.
    destruct (cb_customer body); [|exact Hsame].
    destruct (cb_vehicle body); [|exact Hsame].
    destruct (_ || _); [exact Hsame|].
    destruct (users db !! _); [|exact Hsame].
    destruct (negb _); [exact Hsame|].
    destruct (validate body); [exact Hsame|].
    destruct (create _ _ _ _ _) as [[db1 doc]|] eqn:Hc; [|exact Hsame].
    apply booking_create_ok in Hc as (-> & _). cbn [fst set_bookings bookings].
    rewrite lookup_insert_ne; [exact Hsame|].
    now apply GoodsRequestLifecycle.fresh_not_stored with (g := b).
  - unfold cancelBooking.
    destruct (bookings db !! id) as [t|] eqn:Ht; [|exact Hsame].
    destruct (String.eqb_spec (status t) "completed") as [Hc|Hc]; [exact Hsame|].
    destruct (String.eqb_spec (status t) "cancelled") as [Hx|Hx]; [exact Hsame|].
    cbn [fst set_bookings bookings]. apply (Hwrite _ _ _ Ht). intros ->.
    assert (t = b) as -> by congruence.
    continues_by idtac. right. unfold permitted.
    cbn [validStatuses In] in Hvalid.
    destruct Hvalid as [H|[H|[H|[H|[H|[]]]]]]; symmetry in H; try contradiction; tauto.
  - unfold assignInspector.
    destruct inspectorId as [k|]; [|exact Hsame].
    destruct (users db !! k) as [u|]; [|exact Hsame].
    destruct (negb _); [exact Hsame|].
    destruct (bookings db !! id) as [t|] eqn:Ht; [|exact Hsame].
    destruct (String.eqb_spec (status t) "pending") as [Hp|Hp]; cbn [negb]; [|exact Hsame].
    cbn [fst set_bookings bookings]. apply (Hwrite _ _ _ Ht). intros ->.
    assert (t = b) as -> by congruence.
    continues_by idtac. right. unfold permitted. tauto.
  - unfold updateBookingStatus. cbn [fst set_bookings bookings].
    destruct (workflow_update_shape (bookings db) req now)
      as [->|(t & s & text & Ht & Hperm & ->)]; [exact Hsame|].
    apply (Hwrite _ _ _ Ht). intros Heq. rewrite Heq in Ht.
    assert (t = b) as -> by congruence.
    destruct (String.eqb s "completed"); continues_by idtac; now right.
  - unfold addBookingNote.
    destruct (negb _); [exact Hsame|].
    destruct (bookings db !! id) as [t|] eqn:Ht; [|exact Hsame].
    cbn [fst set_bookings bookings]. apply (Hwrite _ _ _ Ht). intros ->.
    assert (t = b) as -> by congruence.
    continues_by idtac. now left.
Qed.

(** X13: whatever request the routes that keep the booking log serve
    (create, cancel, assign an inspector, update the status, add a note),
    a stored booking stays stored, keeps its identifier, customer and
    vehicle, has its log extended at the end only, and keeps its status
    or moves it along an edge of the workflow table. *)
Theorem workflow_routes_follow_the_table db db' i b :
  step db db' ->
  bookings db !! i = Some b ->
  In (status b) validStatuses ->
  exists b',
    bookings db' !! i = Some b' /\ continues b b'
    /\ (status b = "completed" \/ status b = "cancelled" -> status b' = status b).
Proof.
  intros Hstep Hi Hvalid.
  destruct (workflow_step_continues db db' i b Hstep Hi Hvalid) as (b' & Hi' & Hc).
  exists b'. split; [exact Hi'|]. split; [exact Hc|].
  destruct Hc as (_ & _ & _ & _ & [Hs|Hp]); [intros _; exact Hs|].
  unfold permitted in Hp. intros [Ht|Ht]; rewrite Ht in Hp;
    destruct Hp as [[? _]|[[? _]|[? _]]]; discriminate.
Qed.

Lemma workflow_routes_follow_the_table_witness :
  exists b b',
    bookings Samples.inspected !! 0%nat = Some b
    /\ bookings Samples.worked !! 0%nat = Some b'
    /\ continues b b'.
Proof.
  destruct (workflow_routes_follow_the_table Samples.inspected Samples.worked 0%nat
              _ (step_status _ _ _) ltac:(vm_compute; reflexivity)
              ltac:(vm_compute; tauto))
    as (b' & Hb' & Hc & _).
  eexists _, b'. split; [vm_compute; reflexivity|]. split; [exact Hb'|exact Hc].
Defined.

Lemma booking_step_well_formed db db' :
  step db db' ->
  (forall i b, bookings db !! i = Some b -> well_formed b) ->
  forall i b, bookings db' !! i = Some b -> well_formed b.
Proof.
  intros Hstep Hwf.
  assert (Hwrite : forall id b' i b,
             well_formed b' -> <[id := b']> (bookings db) !! i = Some b -> well_formed b).
  { intros id b' i b Hb' Hi.
    apply lookup_insert_Some in Hi as [[_ <-]|[_ Hi]]; [exact Hb'|now apply Hwf in Hi]. }
  destruct Hstep as [db body user now|db id reason user now|db id inspectorId user now
                    |db req now|db id note' user now].
  - unfold createBooking.
    destruct (cb_customer body); [|exact Hwf].
    destruct (cb_vehicle body); [|exact Hwf].
    destruct (_ || _); [exact Hwf|].
    destruct (users db !! _); [|exact Hwf].
    destruct (negb _); [exact Hwf|].
    destruct (validate body); [exact Hwf|].
    destruct (create _ _ _ _ _) as [[db1 doc]|] eqn:Hc; [|exact Hwf].
    apply booking_create_ok in Hc as (-> & Hst & Hat & Hin & Hnotes).
    cbn [fst set_bookings bookings]. intros i0 b0. apply Hwrite.
    unfold well_formed. rewrite Hst, Hat, Hin, Hnotes.
    split; [cbn; tauto|]. split; [|split; [now eexists _, _, _|reflexivity]].
    split; [discriminate|]. intros [x Hx]. discriminate.
  - unfold cancelBooking.
    destruct (bookings db !! id) as [t|] eqn:Ht; [|exact Hwf].
    destruct (String.eqb_spec (status t) "completed") as [Hc|Hc]; [exact Hwf|].
    destruct (String.eqb (status t) "cancelled"); [exact Hwf|].
    cbn [fst set_bookings bookings]. intros i0 b0. apply Hwrite.
    destruct (Hwf _ _ Ht) as (_ & Hdone & (u0 & n0 & more & Hnotes) & _).
    unfold well_formed, push_note, set_status.
    cbn [status completedAt notes assignedInspector].
    split; [cbn; tauto|]. split; [|split; [|discriminate]].
    + split; [discriminate|]. intros H. apply Hdone in H. contradiction.
    + rewrite Hnotes. now eexists _, _, _.
  - unfold assignInspector.
    destruct inspectorId as [k|]; [|exact Hwf].
    destruct (users db !! k) as [u|]; [|exact Hwf].
    destruct (negb _); [exact Hwf|].
    destruct (bookings db !! id) as [t|] eqn:Ht; [|exact Hwf].
    destruct (String.eqb_spec (status t) "pending") as [Hp|Hp]; cbn [negb]; [|exact Hwf].
    cbn [fst set_bookings bookings]. intros i0 b0. apply Hwrite.
    destruct (Hwf _ _ Ht) as (_ & Hdone & (u0 & n0 & more & Hnotes) & _).
    unfold well_formed, push_note, set_status, set_assignedInspector.
    cbn [status completedAt notes assignedInspector].
    split; [cbn; tauto|]. split; [|split; [|discriminate]].
    + split; [discriminate|]. intros H. apply Hdone in H. congruence.
    + rewrite Hnotes. now eexists _, _, _.
  - unfold updateBookingStatus. cbn [fst set_bookings bookings].
    destruct (workflow_update_shape (bookings db) req now)
      as [->|(t & s & text & Ht & Hperm & ->)]; [exact Hwf|].
    intros i0 b0. apply Hwrite.
    destruct (Hwf _ _ Ht) as (_ & Hdone & (u0 & n0 & more & Hnotes) & _).
    assert (Hnot : completedAt t = None).
    { destruct (completedAt t) eqn:Hat; [|reflexivity].
      assert (Hc : status t = "completed") by (apply Hdone; eauto).
      unfold permitted in Hperm. rewrite Hc in Hperm.
      destruct Hperm as [[? _]|[[? _]|[? _]]]; discriminate. }
    assert (Hvalid : In s validStatuses).
    { apply includes_In. now apply BookingProofs.permitted_valid in Hperm as [? _]. }
    assert (Hpend : s <> "pending").
    { intros ->. unfold permitted in Hperm.
      destruct Hperm as [[_ [?|?]]|[[_ [?|?]]|[_ [?|?]]]]; discriminate. }
    destruct (String.eqb_spec s "completed") as [->|Hs];
      unfold well_formed, push_note, set_status, set_completedAt;
      cbn [status completedAt notes assignedInspector].
    + split; [exact Hvalid|]. split; [split; eauto|].
      split; [rewrite Hnotes; now eexists _, _, _|discriminate].
    + split; [exact Hvalid|]. split; [|split; [rewrite Hnotes; now eexists _, _, _|]].
      * rewrite Hnot. split; [contradiction|]. intros [x Hx]. discriminate.
      * intros. contradiction.
  - unfold addBookingNote.
    destruct (negb _); [exact Hwf|].
    destruct (bookings db !! id) as [t|] eqn:Ht; [|exact Hwf].
    cbn [fst set_bookings bookings]. intros i0 b0. apply Hwrite.
    destruct (Hwf _ _ Ht) as (Hv & Hdone & (u0 & n0 & more & Hnotes) & Hp).
    unfold well_formed, push_note. cbn [status completedAt notes assignedInspector].
    split; [exact Hv|]. split; [exact Hdone|]. split; [|exact Hp].
    rewrite Hnotes. now eexists _, _, _.
Qed.

(** X14: every booking that the log-keeping routes ever store has a
    status of the schema, carries [completedAt] exactly when it is
    completed, has a log that starts with the entry written at creation,
    and has no inspector while it is pending. *)
Theorem reachable_bookings_well_formed db :
  reachable db -> forall i b, bookings db !! i = Some b -> well_formed b.
Proof.
  induction 1 as [usrs|db db' _ IH Hstep].
  - intros i b Hi. cbn [bookings] in Hi. now rewrite lookup_empty in Hi.
  - now apply booking_step_well_formed with (db := db).
Qed.

Lemma reachable_bookings_well_formed_witness :
  exists b, bookings Samples.finished !! 0%nat = Some b
            /\ completedAt b = Some 400 /\ well_formed b.
Proof.
  assert (Hreach : reachable Samples.finished).
  { eapply reachable_step; [|apply step_status].
    eapply reachable_step; [|apply step_status].
    eapply reachable_step; [|apply step_assign].
    eapply reachable_step; [|apply step_create].
    apply reachable_empty. }
  eexists. split; [vm_compute; reflexivity|]. split; [reflexivity|].
  apply (reachable_bookings_well_formed _ Hreach 0%nat). vm_compute. reflexivity.
Defined.

(** X15: the general update route is outside the workflow.  It writes any
    status of the schema over any current status, leaving the log and
    [completedAt] alone; in particular it takes a completed booking back
    to pending, after which the booking neither continues the old one
    along the workflow table nor is well formed. *)
Theorem updateBooking_bypasses_workflow db id b s :
  bookings db !! id = Some b ->
  In s validStatuses ->
  updateBooking db id (Some s)
  = (set_bookings (<[id := set_status s b]> (bookings db)) db, Ok (set_status s b))
  /\ notes (set_status s b) = notes b
  /\ completedAt (set_status s b) = completedAt b
  /\ (well_formed b -> status b = "completed" -> s = "pending" ->
      ~ continues b (set_status s b) /\ ~ well_formed (set_status s b)).
Proof.
  intros Hb Hs. apply includes_In in Hs. unfold updateBooking. rewrite Hs, Hb.
  cbn [negb]. split; [reflexivity|]. split; [reflexivity|]. split; [reflexivity|].
  intros (_ & Hdone & _) Hc ->. split.
  - intros (_ & _ & _ & _ & [Heq|Hp]); cbn [set_status status] in *.
    + congruence.
    + unfold permitted in Hp. rewrite Hc in Hp.
      destruct Hp as [[? _]|[[? _]|[? _]]]; discriminate.
  - intros (_ & Hdone' & _). cbn [set_status status completedAt] in Hdone'.
    apply Hdone in Hc. apply Hdone' in Hc. discriminate.
Qed.

Lemma updateBooking_bypasses_workflow_witness :
  exists b, bookings Samples.finished !! 0%nat = Some b
            /\ snd (updateBooking Samples.finished 0 (Some "pending"))
               = Ok (set_status "pending" b).
Proof.
  eexists. split; [vm_compute; reflexivity|].
  rewrite (proj1 (updateBooking_bypasses_workflow Samples.finished 0%nat _ "pending"
                    ltac:(vm_compute; reflexivity) ltac:(cbn; tauto))).
  reflexivity.
Defined.

End BookingLifecycle.

(** ** Invoices: totals, one invoice per booking, paid invoices *)

Module InvoiceLifecycle.
Import Invoices InvoiceRoutes.
Local Open Scope Z_scope.



Lemma invoice_create_ok db doc db' inv :
  create db doc = Ok (db', inv) ->
  exists newId,
    inv = doc newId
    /\ db' = set_invoices (<[fresh (dom (invoices db)) := inv]> (invoices db)) db.
Proof.
  unfold create. cbv zeta.
  match goal with |- context [if ?c then _ else _] => destruct c end; [discriminate|].
  intros [= <- <-]. eexists. split; reflexivity.
Qed.



(** [store] either leaves the data base as it was, or inserts the
    document it answers with under a fresh key. *)
Lemma store_shape db bk cu processed labor sub tax' disc tot method notes' user :
  (fst (store db bk cu processed labor sub tax' disc tot method notes' user) = db
   /\ is_ok (snd (store db bk cu processed labor sub tax' disc tot method notes' user))
      = false)
  \/ exists stored sub' tot' newId,
       sub = Some sub' /\ tot = Some tot'
       /\ validate processed labor sub' tax' disc method = Ok stored
       /\ store db bk cu processed labor sub tax' disc tot method notes' user
          = (let inv := mkInvoice newId bk cu stored labor sub' tax' disc tot' "draft"
                                  method None user notes' in
             (set_invoices (<[fresh (dom (invoices db)) := inv]> (invoices db)) db, Ok inv)).
Proof.
  unfold store.
  destruct sub as [sub'|]; [|left; split; reflexivity].
  destruct tot as [tot'|]; [|left; split; reflexivity].
  destruct (validate _ _ _ _ _ _) as [stored|] eqn:Hv; [|left; split; reflexivity].
  destruct (create db _) as [[db' doc]|] eqn:Hc; [|left; split; reflexivity].
  apply invoice_create_ok in Hc as (newId & -> & ->).
  right. exists stored, sub', tot', newId. auto.
Qed.

(** [createInvoice] either leaves the data base as it was, or inserts an
    invoice for a booking that had none. *)
Lemma createInvoice_shape db body user :
  (fst (createInvoice db body user) = db
   /\ is_ok (snd (createInvoice db body user)) = false)
  \/ exists inv,
       findOne_booking db (booking inv) = None
       /\ createInvoice db body user
          = (set_invoices (<[fresh (dom (invoices db)) := inv]> (invoices db)) db, Ok inv).
Proof.
  unfold createInvoice.
  destruct (cb_booking body) as [bk|]; [|left; split; reflexivity].
  destruct (cb_customer body) as [cu|]; [|left; split; reflexivity].
  destruct (cb_items body) as [[|first more]|]; try (left; split; reflexivity).
  destruct (bookings db !! bk); [|left; split; reflexivity].
  destruct (negb _); [left; split; reflexivity|].
  destruct (findOne_booking db bk) as [found|] eqn:Hfind; cbn [is_Some_b];
    [left; split; reflexivity|].
  destruct (roles db !! cu); [|left; split; reflexivity].
  destruct (negb _); [left; split; reflexivity|].
  destruct (negb _); [left; split; reflexivity|].
  destruct (process_items _ _) as [[processed s0]|]; [|left; split; reflexivity].
  destruct (match minus _ _ with Some t => t <? 0 | None => false end);
    [left; split; reflexivity|].
  match goal with
  | |- context [store ?a ?b ?c ?d ?e ?f ?g ?h ?i ?j ?k ?l] =>
      destruct (store_shape a b c d e f g h i j k l)
        as [Hkeep|(stored & sub' & tot' & newId & _ & _ & _ & ->)]
  end; [left; exact Hkeep|].
  right. eexists. split; [|reflexivity]. exact Hfind.
Qed.



Lemma apply_update_keys invoice m inv' :
  apply_update invoice m = Ok inv' ->
  invoiceId inv' = invoiceId invoice /\ booking inv' = booking invoice
  /\ customer inv' = customer invoice /\ createdBy inv' = createdBy invoice.
Proof.
  unfold apply_update.
  destruct (apply_items m _); cbn [bind]; [|discriminate].
  destruct (apply_num m "laborCharges" _); cbn [bind]; [|discriminate].
  destruct (apply_num m "subtotal" _); cbn [bind]; [|discriminate].
  destruct (apply_num m "tax" _); cbn [bind]; [|discriminate].
  destruct (apply_num m "discount" _); cbn [bind]; [|discriminate].
  destruct (apply_num m "total" _); cbn [bind]; [|discriminate].
  destruct (apply_str m "status" _ _); cbn [bind]; [|discriminate].
  destruct (apply_str m "paymentMethod" _ _); cbn [bind]; [|discriminate].
  destruct (apply_date m "paidAt" _); cbn [bind]; [|discriminate].
  destruct (apply_str m "notes" _ _); cbn [bind]; [|discriminate].
  intros [= <-]. repeat split.
Qed.

Lemma updateInvoice_shape m id body :
  fst (updateInvoice m id body) = m
  \/ exists invoice inv',
       m !! id = Some invoice /\ snd (updateInvoice m id body) = Ok inv'
       /\ booking inv' = booking invoice
       /\ fst (updateInvoice m id body) = <[id := inv']> m.
Proof.
  unfold updateInvoice.
  destruct (m !! id) as [invoice|] eqn:Hid; [|now left].
  destruct (_ && _); [now left|].
  destruct (recalculate _ _) as [upd|]; [|now left].
  destruct (apply_update invoice upd) as [inv'|] eqn:Happ; [|now left].
  right. exists invoice, inv'. split; [reflexivity|]. split; [reflexivity|].
  split; [now apply apply_update_keys in Happ|reflexivity].
Qed.

Lemma updateInvoiceStatus_shape m id body now :
  fst (updateInvoiceStatus m id body now) = m
  \/ exists invoice inv',
       m !! id = Some invoice
       /\ fst (updateInvoiceStatus m id body now) = <[id := inv']> m
       /\ same_amounts invoice inv'
       /\ (status invoice = "paid" -> status inv' = "paid").
Proof.
  unfold updateInvoiceStatus.
  destruct (_ || _); [now left|].
  destruct (m !! id) as [invoice|] eqn:Hid; [|now left].
  destruct (String.eqb_spec (status invoice) "paid") as [Hp|Hp]; cbn [andb].
  - destruct (String.eqb_spec (default "" (b_status body)) "paid") as [Hs|Hs];
      cbn [negb]; [|now left].
    rewrite Hp. change (String.eqb "paid" "cancelled") with false. cbn [andb].
    destruct (negb (truthy_str _)); [now left|].
    unfold save. cbn [set_status set_payment status paymentMethod].
    destruct (negb (includes statusEnum _)); [now left|].
    destruct (includes paymentMethodEnum _); [|now left].
    right. eexists invoice, _. split; [reflexivity|]. split; [reflexivity|].
    split; [unfold same_amounts; cbn; tauto|]. intros _. exact Hs.
  - destruct (_ && _); [now left|].
    destruct (String.eqb (default "" (b_status body)) "paid").
    + destruct (negb (truthy_str _)); [now left|].
      unfold save. cbn [set_status set_payment status paymentMethod].
      destruct (negb (includes statusEnum _)); [now left|].
      destruct (includes paymentMethodEnum _); [|now left].
      right. eexists invoice, _. split; [reflexivity|]. split; [reflexivity|].
      split; [unfold same_amounts; cbn; tauto|]. intros H. contradiction.
    + unfold save. cbn [set_status status paymentMethod].
      destruct (negb (includes statusEnum _)); [now left|].
      destruct (paymentMethod invoice) as [pm|].
      * destruct (includes paymentMethodEnum pm); [|now left].
        right. eexists invoice, _. split; [reflexivity|]. split; [reflexivity|].
        split; [unfold same_amounts; cbn; tauto|]. intros H. contradiction.
      * right. eexists invoice, _. split; [reflexivity|]. split; [reflexivity|].
        split; [unfold same_amounts; cbn; tauto|]. intros H. contradiction.
Qed.

Lemma findOne_booking_none db bk i a :
  findOne_booking db bk = None -> invoices db !! i = Some a -> booking a <> bk.
Proof.
  unfold findOne_booking. intros Hnone Hi Heq.
  apply elem_of_map_to_list, list_elem_of_In in Hi.
  apply (find_none _ _ Hnone) in Hi. cbn [snd] in Hi.
  apply Nat.eqb_neq in Hi. contradiction.
Qed.

Lemma one_per_booking_write m id a a' :
  one_per_booking m -> m !! id = Some a -> booking a' = booking a ->
  one_per_booking (<[id := a']> m).
Proof.
  intros Hone Hid Hbk i j x y Hi Hj Hxy.
  apply lookup_insert_Some in Hi as [[<- <-]|[Hni Hi]];
    apply lookup_insert_Some in Hj as [[<- <-]|[Hnj Hj]].
  - reflexivity.
  - apply (Hone id j a y); congruence.
  - apply (Hone i id x a); congruence.
  - now apply (Hone i j x y).
Qed.

Lemma one_per_booking_delete m id : one_per_booking m -> one_per_booking (delete id m).
Proof.
  intros Hone i j x y Hi Hj. apply lookup_delete_Some in Hi as [_ Hi].
  apply lookup_delete_Some in Hj as [_ Hj]. now apply (Hone i j x y).
Qed.

Lemma createInvoice_one_per_booking db body user :
  one_per_booking (invoices db) ->
  one_per_booking (invoices (fst (createInvoice db body user))).
Proof.
  intros Hone.
  destruct (createInvoice_shape db body user) as [[-> _]|(inv & Hfind & ->)]; [exact Hone|].
  cbn [fst set_invoices invoices]. intros i j x y Hi Hj Hxy.
  apply lookup_insert_Some in Hi as [[<- <-]|[Hni Hi]];
    apply lookup_insert_Some in Hj as [[<- <-]|[Hnj Hj]].
  - reflexivity.
  - symmetry in Hxy. now apply (findOne_booking_none _ _ _ _ Hfind) in Hj.
  - now apply (findOne_booking_none _ _ _ _ Hfind) in Hi.
  - now apply (Hone i j x y).
Qed.

Lemma findOne_booking_finds db i inv :
  invoices db !! i = Some inv -> is_Some_b (findOne_booking db (booking inv)) = true.
Proof.
  intros Hi. unfold findOne_booking.
  destruct (List.find _ _) as [found|] eqn:Hfind; [reflexivity|].
  apply elem_of_map_to_list, list_elem_of_In in Hi.
  apply (find_none _ _ Hfind) in Hi. cbn [snd] in Hi.
  now rewrite Nat.eqb_refl in Hi.
Qed.

(** X17: [createInvoice], [updateInvoiceStatus] and [deleteInvoice],
    each served with no other request between its queries and its
    write, keep a collection that holds at most one invoice for each
    booking that way; and [createInvoice] answers with an error, writing
    nothing, when the booking it names has an invoice. *)
Theorem one_invoice_per_booking db :
  one_per_booking (invoices db) ->
  (forall body user, one_per_booking (invoices (fst (createInvoice db body user))))
  /\ (forall id body now,
        one_per_booking (fst (updateInvoiceStatus (invoices db) id body now)))
  /\ (forall id permanent, one_per_booking (invoices (fst (deleteInvoice db id permanent))))
  /\ (forall body user i inv,
        invoices db !! i = Some inv -> cb_booking body = Some (booking inv) ->
        fst (createInvoice db body user) = db
        /\ is_ok (snd (createInvoice db body user)) = false).
Proof.
  intros Hone. split; [|split; [|split]].
  - intros body user. now apply createInvoice_one_per_booking.
  - intros id body now.
    destruct (updateInvoiceStatus_shape (invoices db) id body now)
      as [->|(invoice & inv' & Hid & -> & Hsame & _)]; [exact Hone|].
    apply one_per_booking_write with (a := invoice); [exact Hone|exact Hid|].
    apply Hsame.
  - intros id permanent. unfold deleteInvoice.
    destruct (invoices db !! id) as [invoice|] eqn:Hid; [|exact Hone].
    destruct (String.eqb _ "paid"); [exact Hone|].
    destruct (String.eqb _ "true"); cbn [fst set_invoices invoices].
    + now apply one_per_booking_delete.
    + now apply one_per_booking_write with (a := invoice).
  - intros body user i inv Hi Hbk. unfold createInvoice. rewrite Hbk.
    destruct (cb_customer body) as [cu|]; [|split; reflexivity].
    destruct (cb_items body) as [[|first more]|]; try (split; reflexivity).
    destruct (bookings db !! booking inv); [|split; reflexivity].
    destruct (negb _); [split; reflexivity|].
    rewrite (findOne_booking_finds db i inv Hi). split; reflexivity.
Qed.

Lemma one_invoice_per_booking_witness :
  one_per_booking (invoices Samples.invoiced)
  /\ createInvoice Samples.invoiced Samples.invoice_body 7
     = (Samples.invoiced, Err (CustomError "Invoice already exists for this booking" 400))
  /\ one_per_booking (invoices (fst (createInvoice Samples.invoiced Samples.invoice_body 7))).
Proof.
  assert (Hone : one_per_booking (invoices Samples.invoiced)).
  { apply (proj1 (one_invoice_per_booking Samples.invoice_start
                    ltac:(intros i j x y Hi; cbn in Hi; now rewrite lookup_empty in Hi))). }
  split; [exact Hone|]. split; [vm_compute; reflexivity|].
  apply (proj1 (one_invoice_per_booking Samples.invoiced Hone)).
Defined.

(** X18: a paid invoice is frozen.  Whatever the invoice routes serve
    next (a creation, an update, a status update, a deletion, permanent
    or not), it stays stored and paid, with the same identifier, booking,
    customer, lines and amounts. *)
Theorem paid_invoice_is_frozen db db' i a :
  step db db' ->
  invoices db !! i = Some a ->
  status a = "paid" ->
  exists a', invoices db' !! i = Some a' /\ status a' = "paid" /\ same_amounts a a'.
Proof.
  intros Hstep Hi Hpaid.
  assert (Hrefl : same_amounts a a) by (unfold same_amounts; tauto).
  assert (Hsame : exists a', invoices db !! i = Some a' /\ status a' = "paid"
                             /\ same_amounts a a') by eauto.
  destruct Hstep as [db body user|db id body|db id body now|db id permanent].
  - destruct (createInvoice_shape db body user) as [[-> _]|(inv & _ & ->)]; [exact Hsame|].
    cbn [fst set_invoices invoices].
    rewrite lookup_insert_ne; [exact Hsame|].
    now apply GoodsRequestLifecycle.fresh_not_stored with (g := a).
  - cbn [set_invoices invoices].
    destruct (updateInvoice_shape (invoices db) id body)
      as [->|(invoice & inv' & Hid & Hok & _ & ->)]; [exact Hsame|].
    destruct (decide (id = i)) as [->|Hne];
      [|rewrite lookup_insert_ne by exact Hne; exact Hsame].
    assert (invoice = a) as -> by congruence.
    destruct (InvoiceProofs.paid_update_frame _ _ _ _ _ Hi Hpaid Hok)
      as (_ & ? & ? & ? & _ & ? & ? & ? & ? & ? & ? & ?).
    exists inv'. rewrite lookup_insert_eq. unfold same_amounts. tauto.
  - cbn [set_invoices invoices].
    destruct (updateInvoiceStatus_shape (invoices db) id body now)
      as [->|(invoice & inv' & Hid & -> & Hamounts & Hst)]; [exact Hsame|].
    destruct (decide (id = i)) as [->|Hne];
      [|rewrite lookup_insert_ne by exact Hne; exact Hsame].
    assert (invoice = a) as -> by congruence.
    exists inv'. rewrite lookup_insert_eq. auto.
  - unfold deleteInvoice.
    destruct (invoices db !! id) as [invoice|] eqn:Hid; [|exact Hsame].
    destruct (String.eqb_spec (status invoice) "paid") as [Hp|Hp]; [exact Hsame|].
    assert (Hne : id <> i) by (intros ->; congruence).
    destruct (String.eqb _ "true"); cbn [fst set_invoices invoices].
    + rewrite lookup_delete_ne by exact Hne. exact Hsame.
    + rewrite lookup_insert_ne by exact Hne. exact Hsame.
Qed.

Lemma paid_invoice_is_frozen_witness :
  exists a a',
    invoices Samples.invoice_paid !! 0%nat = Some a
    /\ invoices (fst (deleteInvoice Samples.invoice_paid 0 (Some "true"))) !! 0%nat = Some a'
    /\ total a' = 155.
Proof.
  destruct (paid_invoice_is_frozen Samples.invoice_paid
              (fst (deleteInvoice Samples.invoice_paid 0 (Some "true"))) 0%nat
              _ (step_delete _ _ _) ltac:(vm_compute; reflexivity) ltac:(reflexivity))
    as (a' & Ha' & _ & Hsame).
  eexists _, a'. split; [vm_compute; reflexivity|]. split; [exact Ha'|].
  destruct Hsame as (_ & _ & _ & _ & _ & _ & _ & _ & ->). reflexivity.
Defined.

End InvoiceLifecycle.

(** ** Users: the lock after failed logins, guarded routes, loyalty tiers *)

Module AccountLockout.
Import Accounts.
Local Open Scope Z_scope.

Lemma findOne_email_unique db id u :
  unique_emails db -> db !! id = Some u -> findOne_email db (email u) = Some (id, u).
Proof.
  intros Huniq Hid. unfold findOne_email.
  destruct (List.find _ _) as [[k v]|] eqn:Hfind.
  - apply find_some in Hfind as [Hin Heq]. cbn [snd] in Heq. apply String.eqb_eq in Heq.
    apply list_elem_of_In, elem_of_map_to_list in Hin.
    assert (k = id) as -> by (apply (Huniq k id v u); auto).
    congruence.
  - assert (Hin : In (id, u) (map_to_list db))
      by (apply list_elem_of_In, elem_of_map_to_list; exact Hid).
    apply (find_none _ _ Hfind) in Hin. cbn [snd] in Hin.
    now rewrite String.eqb_refl in Hin.
Qed.

Lemma unique_emails_write db id u u' :
  unique_emails db -> db !! id = Some u -> email u' = email u ->
  unique_emails (<[id := u']> db).
Proof.
  intros Huniq Hid He i j x y Hi Hj Hxy.
  apply lookup_insert_Some in Hi as [[<- <-]|[Hni Hi]];
    apply lookup_insert_Some in Hj as [[<- <-]|[Hnj Hj]].
  - reflexivity.
  - apply (Huniq id j u y); congruence.
  - apply (Huniq i id x u); congruence.
  - now apply (Huniq i j x y).
Qed.

Lemma preSave_keeps u :
  email (preSave u) = email u /\ password (preSave u) = password u
  /\ status (preSave u) = status u /\ role (preSave u) = role u
  /\ loginAttempts (preSave u) = loginAttempts u /\ lockUntil (preSave u) = lockUntil u
  /\ lastLogin (preSave u) = lastLogin u /\ loyaltyPoints (preSave u) = loyaltyPoints u.
Proof. unfold preSave. destruct (String.eqb _ _); repeat split. Qed.

Section LoginProofs.

Variable compare : string -> string -> bool.

(** One login of a stored, unlocked, active account. *)
Lemma login_attempt db id u pw now :
  unique_emails db -> db !! id = Some u ->
  email u <> "" -> pw <> "" -> password u <> "" ->
  isLocked u now = false -> status u = "active" ->
  exists u',
    fst (loginUser compare db (Some (email u)) (Some pw) now) = <[id := u']> db
    /\ email u' = email u /\ password u' = password u /\ status u' = status u
    /\ (if compare pw (password u)
        then snd (loginUser compare db (Some (email u)) (Some pw) now) = Ok u'
             /\ loginAttempts u' = (if 0 <? loginAttempts u then 0 else loginAttempts u)
             /\ lockUntil u' = (if 0 <? loginAttempts u then None else lockUntil u)
             /\ lastLogin u' = Some now
        else snd (loginUser compare db (Some (email u)) (Some pw) now)
             = Err (CustomError "Invalid email or password" 401)
             /\ loginAttempts u' = loginAttempts u + 1
             /\ lockUntil u' = (if 5 <=? loginAttempts u + 1
                                then Some (now + 1800000) else lockUntil u)
             /\ lastLogin u' = lastLogin u).
Proof.
  intros Huniq Hid He Hpw Hstored Hlock Hactive. unfold loginUser.
  rewrite !truthy_str_nonempty_Some by assumption. cbn [negb orb default from_option Datatypes.id].
  rewrite (findOne_email_unique _ _ _ Huniq Hid), Hlock.
  destruct (String.eqb_spec (status u) "active") as [_|Hn]; [|contradiction]. cbn [negb].
  apply String.eqb_neq in Hstored. rewrite Hstored.
  destruct (compare pw (password u)); cbn [negb fst snd].
  - eexists. split; [reflexivity|]. unfold preSave.
    destruct (0 <? loginAttempts u);
      cbn [role set_lastLogin set_lockUntil set_loginAttempts];
      destruct (String.eqb (role u) "customer"); cbn; repeat split; reflexivity.
  - eexists. split; [reflexivity|]. unfold preSave.
    cbn [loginAttempts set_loginAttempts].
    destruct (5 <=? loginAttempts u + 1);
      cbn [role set_lastLogin set_lockUntil set_loginAttempts];
      destruct (String.eqb (role u) "customer"); cbn; repeat split; reflexivity.
Qed.

Lemma failures_count id pw times : forall db u,
  unique_emails db -> db !! id = Some u ->
  email u <> "" -> pw <> "" -> password u <> "" -> status u = "active" ->
  compare pw (password u) = false ->
  lockUntil u = None -> loginAttempts u + Z.of_nat (length times) <= 4 ->
  exists u',
    logins compare db (Some (email u)) (Some pw) times !! id = Some u'
    /\ unique_emails (logins compare db (Some (email u)) (Some pw) times)
    /\ email u' = email u /\ password u' = password u /\ status u' = status u
    /\ loginAttempts u' = loginAttempts u + Z.of_nat (length times)
    /\ lockUntil u' = None.
Proof.
  induction times as [|t rest IH]; intros db u Huniq Hid He Hpw Hstored Hactive Hwrong
                                          Hnolock Hfew.
  - exists u. cbn [logins fold_left length Z.of_nat]. rewrite Z.add_0_r. auto 10.
  - unfold logins. cbn [fold_left]. fold (logins compare).
    assert (Hlock : isLocked u t = false) by (unfold isLocked; now rewrite Hnolock).
    destruct (login_attempt db id u pw t Huniq Hid He Hpw Hstored Hlock Hactive)
      as (u1 & -> & He1 & Hp1 & Hs1 & Heff).
    rewrite Hwrong in Heff. destruct Heff as (_ & Ha1 & Hl1 & _).
    cbn [length] in Hfew. rewrite Nat2Z.inj_succ in Hfew.
    destruct (Z.leb_spec 5 (loginAttempts u + 1)) as [|_]; [lia|].
    destruct (IH (<[id := u1]> db) u1) as (u' & Hid' & Huniq' & He' & Hp' & Hs' & Ha' & Hl');
      try congruence.
    + now apply unique_emails_write with (u := u).
    + apply lookup_insert_eq.
    + rewrite Ha1. lia.
    + rewrite He1 in *. exists u'. cbn [length]. rewrite Nat2Z.inj_succ.
      split; [exact Hid'|]. split; [exact Huniq'|].
      split; [congruence|]. split; [congruence|]. split; [congruence|].
      split; [lia|exact Hl'].
Qed.

Lemma five_failures_state db id u pw times t5 :
  unique_emails db -> db !! id = Some u ->
  email u <> "" -> pw <> "" -> password u <> "" -> status u = "active" ->
  compare pw (password u) = false ->
  loginAttempts u = 0 -> lockUntil u = None -> length times = 4%nat ->
  let db' := logins compare db (Some (email u)) (Some pw) (times ++ [t5]) in
  exists u',
    db' !! id = Some u' /\ unique_emails db'
    /\ email u' = email u /\ status u' = "active" /\ loginAttempts u' = 5
    /\ lockUntil u' = Some (t5 + 1800000).
Proof.
  intros Huniq Hid He Hpw Hstored Hactive Hwrong Hzero Hnolock Hlen db'.
  destruct (failures_count id pw times db u) as (u4 & Hid4 & Huniq4 & He4 & Hp4 & Hs4 & Ha4 & Hl4);
    try assumption; [rewrite Hzero, Hlen; cbn; lia|].
  rewrite Hzero, Hlen in Ha4. change (0 + Z.of_nat 4) with 4 in Ha4.
  assert (Hlock4 : isLocked u4 t5 = false) by (unfold isLocked; now rewrite Hl4).
  destruct (login_attempt _ id u4 pw t5 Huniq4 Hid4) as (u5 & Hdb5 & He5 & Hp5 & Hs5 & Heff);
    try congruence.
  rewrite Hp4, Hwrong in Heff. destruct Heff as (_ & Ha5 & Hl5 & _).
  rewrite Ha4 in Ha5, Hl5. change (4 + 1) with 5 in Ha5.
  change (5 <=? 4 + 1) with true in Hl5. cbv iota in Hl5.
  assert (Hdb' : db' = <[id := u5]> (logins compare db (Some (email u)) (Some pw) times)).
  { unfold db', logins. rewrite fold_left_app. cbn [fold_left].
    fold (logins compare db (Some (email u)) (Some pw) times).
    rewrite He4 in Hdb5. exact Hdb5. }
  exists u5. split; [rewrite Hdb'; apply lookup_insert_eq|].
  split; [rewrite Hdb'; apply unique_emails_write with (u := u4); assumption|].
  split; [congruence|]. split; [congruence|]. split; [exact Ha5|exact Hl5].
Qed.

(** X19: five failed logins lock the account.  On an active account with
    no failed login on record, after five logins with a wrong password
    the counter is at 5 and the account is locked for thirty minutes
    from the fifth; until then every login, also one with another
    password, is refused with 423 and changes nothing. *)
Theorem five_failures_lock db id u pw times t5 :
  unique_emails db -> db !! id = Some u ->
  email u <> "" -> pw <> "" -> password u <> "" -> status u = "active" ->
  compare pw (password u) = false ->
  loginAttempts u = 0 -> lockUntil u = None -> length times = 4%nat ->
  let db' := logins compare db (Some (email u)) (Some pw) (times ++ [t5]) in
  (exists u', db' !! id = Some u' /\ loginAttempts u' = 5
              /\ lockUntil u' = Some (t5 + 1800000))
  /\ (forall pw' now', pw' <> "" -> now' < t5 + 1800000 ->
       loginUser compare db' (Some (email u)) (Some pw') now'
       = (db', Err (CustomError
                      "Account is temporarily locked due to too many failed attempts" 423))).
Proof.
  intros Huniq Hid He Hpw Hstored Hactive Hwrong Hzero Hnolock Hlen db'.
  destruct (five_failures_state db id u pw times t5)
    as (u5 & Hid5 & Huniq5 & He5 & _ & Ha5 & Hl5); try assumption.
  fold db' in Hid5, Huniq5.
  split; [exists u5; auto|].
  intros pw' now' Hpw' Hnow. unfold loginUser.
  rewrite !truthy_str_nonempty_Some by assumption.
  cbn [negb orb default from_option Datatypes.id].
  rewrite <- He5. rewrite (findOne_email_unique _ _ _ Huniq5 Hid5).
  unfold isLocked. rewrite Hl5.
  destruct (Z.ltb_spec now' (t5 + 1800000)); [reflexivity|lia].
Qed.

(** X20: one login of a stored and active account.  While the account is
    locked the login is refused with 423 whatever the password and
    nothing is written.  Otherwise a wrong password adds one to the
    counter, locks the account for thirty minutes as soon as the counter
    reaches 5 (so also at the first failure after a lock has run out),
    and answers 401; the right password resets a positive counter and the
    lock, records the time of the login and answers 200. *)
Theorem login_counts_failures db id u pw now :
  unique_emails db -> db !! id = Some u ->
  email u <> "" -> pw <> "" -> password u <> "" -> status u = "active" ->
  let r := loginUser compare db (Some (email u)) (Some pw) now in
  (isLocked u now = true ->
   r = (db, Err (CustomError
                   "Account is temporarily locked due to too many failed attempts" 423)))
  /\ (isLocked u now = false ->
      exists u',
        fst r = <[id := u']> db
        /\ (compare pw (password u) = false ->
            snd r = Err (CustomError "Invalid email or password" 401)
            /\ loginAttempts u' = loginAttempts u + 1
            /\ (5 <= loginAttempts u + 1 -> isLocked u' now = true
                                            /\ lockUntil u' = Some (now + 1800000))
            /\ (loginAttempts u + 1 < 5 -> lockUntil u' = lockUntil u))
        /\ (compare pw (password u) = true ->
            snd r = Ok u'
            /\ (0 < loginAttempts u -> loginAttempts u' = 0 /\ lockUntil u' = None)
            /\ isLocked u' now = false
            /\ lastLogin u' = Some now)).
Proof.
  intros Huniq Hid He Hpw Hstored Hactive r. split.
  - intros Hlock. unfold r, loginUser.
    rewrite !truthy_str_nonempty_Some by assumption.
    cbn [negb orb default from_option Datatypes.id].
    now rewrite (findOne_email_unique _ _ _ Huniq Hid), Hlock.
  - intros Hlock.
    destruct (login_attempt db id u pw now Huniq Hid He Hpw Hstored Hlock Hactive)
      as (u' & Hdb & _ & _ & _ & Heff).
    exists u'. split; [exact Hdb|].
    destruct (compare pw (password u)).
    + split; [discriminate|]. intros _.
      destruct Heff as (Hok & Ha & Hl & Hlast). split; [exact Hok|].
      split; [|split; [|exact Hlast]].
      * intros Hpos. apply Z.ltb_lt in Hpos. rewrite Hpos in Ha, Hl. auto.
      * unfold isLocked. rewrite Hl. destruct (0 <? loginAttempts u); [reflexivity|exact Hlock].
    + split; [|discriminate]. intros _.
      destruct Heff as (Herr & Ha & Hl & _). split; [exact Herr|]. split; [exact Ha|].
      split.
      * intros Hfive. apply Z.leb_le in Hfive. rewrite Hfive in Hl.
        split; [|exact Hl]. unfold isLocked. rewrite Hl. apply Z.ltb_lt. lia.
      * intros Hfew. destruct (Z.leb_spec 5 (loginAttempts u + 1)); [lia|exact Hl].
Qed.

Section Tokens.

Variable verify : string -> Auth.Verified.

(** X28: a lock reaches every guarded route.  A route mounted behind
    [authenticate] and [authorize(...roles)] serves the bearer of a token
    of an active, unlocked user exactly when the role of the user is one
    of the roles; after five failed logins the same token is refused
    with 423 on every guarded route until the lock runs out. *)
Theorem lock_reaches_guarded_routes db id u pw times t5 header token :
  unique_emails db -> db !! id = Some u ->
  email u <> "" -> pw <> "" -> password u <> "" -> status u = "active" ->
  compare pw (password u) = false ->
  loginAttempts u = 0 -> lockUntil u = None -> length times = 4%nat ->
  Auth.bearer_token header = Some token -> verify token = Auth.Payload id ->
  let db' := logins compare db (Some (email u)) (Some pw) (times ++ [t5]) in
  (forall roles now,
      Auth.guarded verify roles db (Some header) now
      = if includes roles (role u)
        then Ok (Auth.mkReqUser id (email u) (role u) "active")
        else Err (CustomError "Access denied, insufficient permissions" 403))
  /\ (forall roles now', now' < t5 + 1800000 ->
       Auth.guarded verify roles db' (Some header) now'
       = Err (CustomError "Account is temporarily locked" 423)).
Proof.
  intros Huniq Hid He Hpw Hstored Hactive Hwrong Hzero Hnolock Hlen Hheader Htoken db'.
  split.
  - intros roles now. unfold Auth.guarded, Auth.authenticate, isLocked.
    rewrite Hheader, Htoken, Hid, Hnolock, Hactive.
    change (negb ("active" =? "active")%string) with false. cbn [bind Auth.authorize Auth.ru_role].
    now destruct (includes roles (role u)).
  - intros roles now' Hnow.
    destruct (five_failures_state db id u pw times t5)
      as (u5 & Hid5 & _ & _ & Hs5 & _ & Hl5); try assumption.
    fold db' in Hid5. unfold Auth.guarded, Auth.authenticate, isLocked.
    rewrite Hheader, Htoken, Hid5, Hl5, Hs5.
    change (negb ("active" =? "active")%string) with false. cbv iota.
    destruct (Z.ltb_spec now' (t5 + 1800000)); [reflexivity|lia].
Qed.

End Tokens.

End LoginProofs.

Lemma unique_emails_singleton k u : unique_emails {[ k := u ]}.
Proof.
  intros i j a b Hi Hj _.
  apply lookup_singleton_Some in Hi as [<- _]. now apply lookup_singleton_Some in Hj as [<- _].
Qed.

Lemma five_failures_lock_witness :
  exists u',
    logins Samples.compare Samples.accounts (Some "nimal@pitstop.lk") (Some "guess")
           [1; 2; 3; 4; 5] !! 4%nat = Some u'
    /\ lockUntil u' = Some 1800005.
Proof.
  destruct (five_failures_lock Samples.compare Samples.accounts 4%nat Samples.nimal "guess"
              [1; 2; 3; 4] 5 (unique_emails_singleton _ _) eq_refl
              ltac:(discriminate) ltac:(discriminate) ltac:(discriminate)
              eq_refl eq_refl eq_refl eq_refl eq_refl)
    as [(u' & Hid & _ & Hlock) _].
  exists u'. split; [exact Hid|exact Hlock].
Defined.

Lemma login_counts_failures_witness :
  exists u',
    loginUser Samples.compare Samples.accounts (Some "nimal@pitstop.lk") (Some "secret123") 900
    = (<[4%nat := u']> Samples.accounts, Ok u')
    /\ lastLogin u' = Some 900.
Proof.
  destruct (login_counts_failures Samples.compare Samples.accounts 4%nat Samples.nimal
              "secret123" 900 (unique_emails_singleton _ _) eq_refl
              ltac:(discriminate) ltac:(discriminate) ltac:(discriminate) eq_refl)
    as [_ Hopen].
  destruct (Hopen eq_refl) as (u' & Hdb & _ & Hright).
  destruct (Hright eq_refl) as (Hok & _ & _ & Hlast).
  exists u'. split; [|exact Hlast].
  rewrite <- Hdb, <- Hok. apply surjective_pairing.
Defined.





Lemma lock_reaches_guarded_routes_witness :
  Auth.guarded Samples.verify ["customer"]
    (logins Samples.compare Samples.accounts (Some "nimal@pitstop.lk") (Some "guess")
            [1; 2; 3; 4; 5])
    (Some "Bearer t4") 600
  = Err (CustomError "Account is temporarily locked" 423).
Proof.
  apply (proj2 (lock_reaches_guarded_routes Samples.compare Samples.verify Samples.accounts
                  4%nat Samples.nimal "guess" [1; 2; 3; 4] 5 "Bearer t4" "t4"
                  (unique_emails_singleton _ _) eq_refl
                  ltac:(discriminate) ltac:(discriminate) ltac:(discriminate)
                  eq_refl eq_refl eq_refl eq_refl eq_refl eq_refl eq_refl)).
  reflexivity.
Defined.

(** X30: an account that is not active cannot log in, and its attempts
    are not counted.  Once [updateUserStatus] has stored a status other
    than active, every login of the account that is not stopped by a
    lock still running is refused with 403 before the password is
    looked at, whatever the password, and writes nothing; setting the
    status back to active stores the user as it was. *)
Theorem inactive_account_cannot_login compare db id u s pw now :
  unique_emails db -> db !! id = Some u ->
  email u <> "" -> pw <> "" ->
  In s statusEnum -> s <> "active" ->
  isLocked u now = false ->
  let db' := fst (updateUserStatus db id (Some s)) in
  db' !! id = Some (set_status s u)
  /\ loginUser compare db' (Some (email u)) (Some pw) now
     = (db', Err (CustomError "Account is not active. Please contact support." 403))
  /\ (status u = "active" ->
      fst (updateUserStatus db' id (Some "active")) !! id = Some u).
Proof.
  intros Huniq Hid He Hpw Hs Hinactive Hlock db'.
  assert (Hne : s <> "").
  { intros ->. cbn in Hs. intuition discriminate. }
  assert (Hdb' : db' = <[id := set_status s u]> db).
  { unfold db', updateUserStatus. rewrite (truthy_str_nonempty_Some s Hne).
    cbn [default from_option Datatypes.id]. apply includes_In in Hs. rewrite Hs, Hid.
    reflexivity. }
  assert (Hid' : db' !! id = Some (set_status s u))
    by (rewrite Hdb'; apply lookup_insert_eq).
  split; [exact Hid'|]. split.
  - assert (Huniq' : unique_emails db').
    { rewrite Hdb'. now apply unique_emails_write with (u := u). }
    unfold loginUser. rewrite !truthy_str_nonempty_Some by assumption.
    cbn [negb orb default from_option Datatypes.id].
    change (email u) with (email (set_status s u)).
    rewrite (findOne_email_unique _ _ _ Huniq' Hid').
    change (isLocked (set_status s u) now) with (isLocked u now). rewrite Hlock.
    cbn [status set_status]. apply String.eqb_neq in Hinactive. now rewrite Hinactive.
  - intros Hactive. unfold updateUserStatus. cbn [truthy_str default from_option Datatypes.id].
    change (includes statusEnum "active") with true. cbn [negb orb String.eqb].
    rewrite Hid'. cbn [fst]. rewrite lookup_insert_eq. f_equal.
    destruct u. cbn in *. now subst.
Qed.

Lemma inactive_account_cannot_login_witness :
  snd (loginUser Samples.compare
         (fst (updateUserStatus Samples.accounts 4 (Some "suspended")))
         (Some "nimal@pitstop.lk") (Some "secret123") 900)
  = Err (CustomError "Account is not active. Please contact support." 403).
Proof.
  destruct (inactive_account_cannot_login Samples.compare Samples.accounts 4%nat Samples.nimal
              "suspended" "secret123" 900 (unique_emails_singleton _ _) eq_refl
              ltac:(discriminate) ltac:(discriminate)
              ltac:(cbn; tauto) ltac:(discriminate) eq_refl)
    as (_ & Hlogin & _).
  cbn zeta in Hlogin. change (email Samples.nimal) with "nimal@pitstop.lk" in Hlogin.
  now rewrite Hlogin.
Defined.

End AccountLockout.

(** ** Vehicles: mileage and ownership *)

Module VehicleProofs.
Import Vehicles.
Local Open Scope Z_scope.

(** X22: the odometer only goes forward.  Whatever the mileage, status,
    deletion and transfer routes serve, a stored vehicle is either
    removed (by a permanent deletion) or still stored with the same
    vehicle identifier and registration number and a mileage that is not
    below what it was; no route writes to the users. *)
Theorem mileage_never_decreases db db' i v :
  step db db' ->
  vehicles db !! i = Some v ->
  roles db' = roles db
  /\ (vehicles db' !! i = None
      \/ exists v', vehicles db' !! i = Some v'
                    /\ vehicleId v' = vehicleId v
                    /\ registrationNumber v' = registrationNumber v
                    /\ mileage v <= mileage v').
Proof.
  intros Hstep Hi.
  assert (Hsame : roles db = roles db
                  /\ (vehicles db !! i = None
                      \/ exists v', vehicles db !! i = Some v'
                                    /\ vehicleId v' = vehicleId v
                                    /\ registrationNumber v' = registrationNumber v
                                    /\ mileage v <= mileage v')).
  { split; [reflexivity|]. right. exists v. repeat split; [exact Hi|lia]. }
  assert (Hwrite : forall id t v',
             vehicles db !! id = Some t ->
             vehicleId v' = vehicleId t -> registrationNumber v' = registrationNumber t ->
             mileage t <= mileage v' ->
             roles db = roles db
             /\ (<[id := v']> (vehicles db) !! i = None
                 \/ exists v0, <[id := v']> (vehicles db) !! i = Some v0
                               /\ vehicleId v0 = vehicleId v
                               /\ registrationNumber v0 = registrationNumber v
                               /\ mileage v <= mileage v0)).
  { intros id t v' Ht H1 H2 H3. split; [reflexivity|]. right.
    destruct (decide (id = i)) as [->|Hne].
    - exists v'. rewrite lookup_insert_eq. assert (t = v) as -> by congruence. auto.
    - exists v. rewrite lookup_insert_ne by exact Hne. repeat split; [exact Hi|lia]. }
  destruct Hstep as [db id m|db id s|db id permanent|db id newOwnerId].
  - unfold updateVehicleMileage.
    destruct (_ || _); [exact Hsame|].
    destruct (vehicles db !! id) as [t|] eqn:Ht; [|exact Hsame].
    destruct (Z.ltb_spec (default 0 m) (mileage t)); [exact Hsame|].
    cbn [fst set_vehicles vehicles roles]. now apply (Hwrite id t).
  - unfold updateVehicleStatus.
    destruct (_ || _); [exact Hsame|].
    destruct (vehicles db !! id) as [t|] eqn:Ht; [|exact Hsame].
    cbn [fst set_vehicles vehicles roles]. apply (Hwrite id t); [exact Ht|..]; cbn; lia || reflexivity.
  - unfold deleteVehicle.
    destruct (vehicles db !! id) as [t|] eqn:Ht; [|exact Hsame].
    destruct (String.eqb _ "true"); cbn [fst set_vehicles vehicles roles].
    + split; [reflexivity|]. destruct (decide (id = i)) as [->|Hne].
      * left. apply lookup_delete_eq.
      * right. exists v. rewrite lookup_delete_ne by exact Hne. repeat split; [exact Hi|lia].
    + apply (Hwrite id t); [exact Ht|..]; cbn; lia || reflexivity.
  - unfold transferOwnership.
    destruct newOwnerId as [o|]; [|exact Hsame].
    destruct (vehicles db !! id) as [t|] eqn:Ht; [|exact Hsame].
    destruct (roles db !! o); [|exact Hsame].
    destruct (negb _); [exact Hsame|]. destruct (Nat.eqb _ _); [exact Hsame|].
    cbn [fst set_vehicles vehicles roles]. apply (Hwrite id t); [exact Ht|..]; cbn; lia || reflexivity.
Qed.

Lemma mileage_never_decreases_witness :
  exists v', vehicles (fst (updateVehicleMileage Samples.garage 1 (Some 41000))) !! 1%nat = Some v'
             /\ 42000 <= mileage v'.
Proof.
  destruct (mileage_never_decreases Samples.garage _ 1%nat Samples.car
              (step_mileage _ 1%nat (Some 41000)) eq_refl)
    as (_ & [Hnone|(v' & Hv' & _ & _ & Hm)]).
  - vm_compute in Hnone. discriminate Hnone.
  - exists v'. split; [exact Hv'|exact Hm].
Defined.



End VehicleProofs.

(** ** Identifier generation: the hooks count, up to 99999 *)

Module IdentifierRoundTrip.
Import Identifiers IdentifierDigits.

Lemma list_ascii_app a b :
  list_ascii_of_string (a +:+ b) = (list_ascii_of_string a ++ list_ascii_of_string b)%list.
Proof.
  induction a as [|c a IH]; [reflexivity|].
  change (c :: list_ascii_of_string (a +:+ b) = c :: (list_ascii_of_string a ++ list_ascii_of_string b)%list).
  now rewrite IH.
Qed.

Lemma takeWhile_app_all {A} (p : A -> bool) l1 l2 :
  forallb p l1 = true -> takeWhile p (l1 ++ l2) = (l1 ++ takeWhile p l2)%list.
Proof.
  induction l1 as [|x l1 IH]; [reflexivity|]. cbn. intros H.
  apply andb_true_iff in H as [-> H]. now rewrite IH.
Qed.

Lemma parse_zeros k ds : parse_from 0 (repeat "0"%char k ++ ds) = parse_from 0 ds.
Proof.
  unfold parse_from. rewrite fold_left_app. f_equal.
  induction k as [|k IH]; [reflexivity|]. cbn [repeat fold_left]. exact IH.
Qed.

Lemma forallb_rev {A} (p : A -> bool) l : forallb p (rev l) = forallb p l.
Proof.
  induction l as [|x l IH]; [reflexivity|]. cbn. rewrite forallb_app, IH. cbn.
  rewrite andb_true_r. apply andb_comm.
Qed.

Lemma trailing_digits_print prefix n :
  trailing_digits prefix = None ->
  exists ds, trailing_digits (print prefix n) = Some ds /\ parseInt ds = n.
Proof.
  intros Hprefix.
  destruct (pretty_N_digits n) as (ds & Hds & Hne & Hall & Hparse).
  unfold print, trailing_digits, padStart in *.
  rewrite !list_ascii_app, list_ascii_of_string_of_list_ascii, Hds.
  set (zeros := repeat "0"%char (5 - String.length (pretty n))).
  rewrite !rev_app_distr, <- app_assoc.
  assert (Hz : forallb is_digit zeros = true).
  { unfold zeros. induction (5 - String.length (pretty n))%nat; [reflexivity|]. exact IHn0. }
  rewrite takeWhile_app_all by now rewrite forallb_rev.
  rewrite takeWhile_app_all by now rewrite forallb_rev.
  destruct (rev (takeWhile is_digit (rev (list_ascii_of_string prefix)))) eqn:Hp;
    [|discriminate].
  apply (f_equal (@rev ascii)) in Hp. rewrite rev_involutive in Hp. cbn in Hp. rewrite Hp.
  rewrite app_nil_r, rev_app_distr, !rev_involutive.
  exists (zeros ++ ds)%list.
  destruct (zeros ++ ds)%list eqn:Hzd.
  - apply app_eq_nil in Hzd as [_ ->]. contradiction.
  - split; [reflexivity|]. rewrite <- Hzd. unfold parseInt. fold (parse_from 0 (zeros ++ ds)).
    unfold zeros. now rewrite parse_zeros.
Qed.

Lemma prefix_print prefix n : String.prefix prefix (print prefix n) = true.
Proof.
  unfold print. generalize (padStart 5 "0"%char (pretty n)). intros rest.
  induction prefix as [|c prefix IH]; [now destruct rest|].
  simpl. destruct (ascii_dec c c); [exact IH|contradiction].
Qed.

Lemma ltb_antisym a b : String.ltb a b = false -> String.ltb b a = false -> a = b.
Proof.
  intros Hab Hba. destruct (String_as_OT.compare a b) as [Hlt|Heq|Hgt].
  - apply IdentifierProofs.ltb_lt in Hlt. congruence.
  - exact Heq.
  - apply IdentifierProofs.ltb_lt in Hgt. congruence.
Qed.

Lemma nextId_after prefix ids n :
  trailing_digits prefix = None ->
  In (print prefix n) ids ->
  (forall id, In id ids -> String.prefix prefix id = true ->
              String.ltb (print prefix n) id = false) ->
  nextId prefix ids = print prefix (n + 1).
Proof.
  intros Hprefix Hin Hmax.
  destruct (IdentifierProofs.nextId_spec prefix ids)
    as [[Hnone _]|(last & Hlast & Hpre & Hall & ->)].
  - apply Hnone in Hin. now rewrite prefix_print in Hin.
  - assert (last = print prefix n) as ->.
    { apply ltb_antisym; [apply Hall; [exact Hin|apply prefix_print]|now apply Hmax]. }
    destruct (trailing_digits_print prefix n Hprefix) as (ds & -> & ->). reflexivity.
Qed.

(** X24: printing and parsing an identifier are inverse to each other, so
    the hooks count.  If the greatest identifier with the prefix, in the
    order of the strings, is the prefix followed by [n] padded to five
    digits, the new document gets the prefix followed by [n + 1], for
    every prefix that does not itself end in a digit. *)
Theorem nextId_counts prefix ids n :
  trailing_digits prefix = None ->
  In (print prefix n) ids ->
  (forall id, In id ids -> String.prefix prefix id = true ->
              String.ltb (print prefix n) id = false) ->
  nextNumber (Some (print prefix n)) = (n + 1)%N
  /\ nextId prefix ids = print prefix (n + 1).
Proof.
  intros Hprefix Hin Hmax. split; [|now apply nextId_after].
  unfold nextNumber.
  destruct (trailing_digits_print prefix n Hprefix) as (ds & Hds & Hparse).
  destruct (String.eqb_spec (print prefix n) "") as [Hempty|_].
  - rewrite Hempty in Hds. discriminate Hds.
  - now rewrite Hds, Hparse.
Qed.

Lemma nextId_counts_witness :
  generateInvoiceId ["INV00041"; "INV00007"] = "INV00042".
Proof.
  apply (proj2 (nextId_counts "INV" ["INV00041"; "INV00007"] 41 eq_refl
                  ltac:(left; reflexivity)
                  ltac:(intros id [<-|[<-|[]]] _; reflexivity))).
Defined.

Lemma ltb_common_prefix p a b : String.ltb (p +:+ a) (p +:+ b) = String.ltb a b.
Proof.
  unfold String.ltb. induction p as [|c p IH]; [reflexivity|].
  simpl. unfold Ascii.compare. now rewrite N.compare_refl.
Qed.

Lemma repeat_after_99999 prefix ids :
  trailing_digits prefix = None ->
  In (print prefix 99999) ids ->
  (forall id, In id ids -> String.prefix prefix id = true ->
              String.ltb (print prefix 99999) id = false) ->
  nextId prefix (print prefix 100000 :: ids) = print prefix 100000.
Proof.
  intros Hprefix Hin Hmax.
  apply (nextId_after prefix (print prefix 100000 :: ids) 99999 Hprefix); [now right|].
  intros id [<-|Hid] Hp; [|now apply Hmax].
  unfold print. rewrite ltb_common_prefix. reflexivity.
Qed.

(** X25: the hooks stop counting at 100000.  The greatest identifier is
    looked up in the order of the strings, in which the six-digit
    [100000] comes before [99999]: once the identifier numbered 99999 is
    the greatest of its prefix, the hook answers the identifier numbered
    100000, and answers it again when that identifier is stored too, so
    it proposes an identifier that is already taken. *)
Theorem identifiers_repeat_after_99999 prefix ids :
  trailing_digits prefix = None ->
  In (print prefix 99999) ids ->
  (forall id, In id ids -> String.prefix prefix id = true ->
              String.ltb (print prefix 99999) id = false) ->
  nextId prefix ids = print prefix 100000
  /\ String.ltb (print prefix 100000) (print prefix 99999) = true
  /\ nextId prefix (print prefix 100000 :: ids) = print prefix 100000
  /\ In (nextId prefix (print prefix 100000 :: ids)) (print prefix 100000 :: ids).
Proof.
  intros Hprefix Hin Hmax.
  split; [now apply (nextId_after prefix ids 99999)|].
  split; [unfold print; rewrite ltb_common_prefix; reflexivity|].
  rewrite repeat_after_99999 by assumption. split; [reflexivity|now left].
Qed.

Lemma identifiers_repeat_after_99999_witness :
  generateJobId ["JOB100000"; "JOB99999"] = "JOB100000".
Proof.
  apply (proj1 (proj2 (proj2 (identifiers_repeat_after_99999 "JOB" ["JOB99999"] eq_refl
                                ltac:(left; reflexivity)
                                ltac:(intros id [<-|[]] _; reflexivity))))).
Defined.

(** X26: what this does to a route.  In a collection of bookings that
    holds [BK99999] and [BK100000], and no identifier after [BK99999] in
    the order of the strings, no booking can be created any more: every
    request that passes the checks of [createBooking] ends in the
    duplicate-key error of the unique index, and nothing is written. *)
Theorem createBooking_stuck_after_100000 db body user now :
  (exists i b, BookingRoutes.bookings db !! i = Some b /\ Bookings.bookingId b = "BK99999") ->
  (exists j b, BookingRoutes.bookings db !! j = Some b /\ Bookings.bookingId b = "BK100000") ->
  (forall k b, BookingRoutes.bookings db !! k = Some b ->
               String.prefix "BK" (Bookings.bookingId b) = true ->
               String.ltb "BK99999" (Bookings.bookingId b) = false) ->
  is_ok (snd (BookingRoutes.createBooking db body user now)) = false
  /\ fst (BookingRoutes.createBooking db body user now) = db
  /\ forall c v, BookingRoutes.create db c v user now = Err (DuplicateKey "bookingId").
Proof.
  intros (i & b1 & Hi & Hb1) (j & b2 & Hj & Hb2) Hmax.
  assert (Hcreate : forall c v,
             BookingRoutes.create db c v user now = Err (DuplicateKey "bookingId")).
  { intros c v. unfold BookingRoutes.create. cbv zeta.
    set (ids := map (fun kv => Bookings.bookingId (snd kv))
                    (map_to_list (BookingRoutes.bookings db))).
    assert (Hin : forall k b, BookingRoutes.bookings db !! k = Some b ->
                              In (Bookings.bookingId b) ids).
    { intros k b Hk. unfold ids. apply in_map_iff. exists (k, b). split; [reflexivity|].
      now apply list_elem_of_In, elem_of_map_to_list. }
    assert (Hnext : generateBookingId ids = "BK100000").
    { apply (nextId_after "BK" ids 99999 eq_refl).
      - change (print "BK" 99999) with "BK99999". rewrite <- Hb1. now apply (Hin i).
      - intros id Hid Hp. change (print "BK" 99999) with "BK99999".
        apply in_map_iff in Hid as ([k b] & <- & Hkb).
        apply list_elem_of_In, elem_of_map_to_list in Hkb. now apply (Hmax k b). }
    rewrite Hnext.
    assert (Hdup : includes ids "BK100000" = true).
    { apply includes_In. rewrite <- Hb2. now apply (Hin j). }
    now rewrite Hdup. }
  split; [|split; [|exact Hcreate]];
    unfold BookingRoutes.createBooking;
    destruct (BookingRoutes.cb_customer body); try reflexivity;
    destruct (BookingRoutes.cb_vehicle body); try reflexivity;
    destruct (_ || _); try reflexivity;
    destruct (BookingRoutes.users db !! _); try reflexivity;
    destruct (negb _); try reflexivity;
    destruct (BookingRoutes.validate body); try reflexivity;
    rewrite Hcreate; reflexivity.
Qed.

Lemma createBooking_stuck_after_100000_witness :
  is_ok (snd (BookingRoutes.createBooking Samples.many_bookings Samples.booking_body 7 100))
  = false
  /\ BookingRoutes.create Samples.many_bookings 4 12 7 100 = Err (DuplicateKey "bookingId").
Proof.
  assert (Hmax : forall k b, BookingRoutes.bookings Samples.many_bookings !! k = Some b ->
                             String.prefix "BK" (Bookings.bookingId b) = true ->
                             String.ltb "BK99999" (Bookings.bookingId b) = false).
  { intros k b Hk _. apply elem_of_map_to_list, list_elem_of_In in Hk.
    vm_compute in Hk. destruct Hk as [Hk|[Hk|[]]]; injection Hk as _ <-; reflexivity. }
  destruct (createBooking_stuck_after_100000 Samples.many_bookings Samples.booking_body
              7 100
              ltac:(exists 0%nat; eexists; split; [vm_compute; reflexivity|reflexivity])
              ltac:(exists 1%nat; eexists; split; [vm_compute; reflexivity|reflexivity])
              Hmax) as (Hrefused & _ & Hcreate).
  split; [exact Hrefused|apply Hcreate].
Defined.

End IdentifierRoundTrip.
